(** * The adaptive policy-learning engine ([adaptive_rl_engine.py])

    A shallow embedding of [AdaptiveRLEngine]: the state key derivation, the
    Q-table and visit counters, the reward model, the arbitration rule, the
    interaction ledger with its feedback resolution, and the model snapshot.

    Conventions of the embedding.
    - A Python [float] is an exact rational or [NaN]: rounding and the
      infinities are left out, the comparison and min/max behaviour of NaN is
      kept, since [np.mean] of an empty list produces one.
    - A Python [dict] (and [defaultdict]) is an association list in insertion
      order; writing an existing key keeps its position, a new key goes last.
      Reading a [defaultdict] with [d[k]] inserts the default on a miss.
    - [self] and the files it writes are passed explicitly: [engine] is the
      object in memory, [disk] the three files, [world] both.
    - The wall clock, the base classifier and the random generator are
      inputs of the functions that consult them.
    - Writes to disk succeed; the [except] branches that only log a failed
      write or read are not modelled. *)

From Stdlib Require Import QArith Qabs Qpower Qminmax Lqa Lia List String Ascii Bool ZArith.
Import ListNotations.

Local Open Scope string_scope.
Local Open Scope Q_scope.
Local Open Scope list_scope.

(** ** Floats *)

Module PyFloat.

Inductive pyfloat : Type :=
| Fin (q : Q)
| NaN.

Definition lift2 (f : Q -> Q -> Q) (a b : pyfloat) : pyfloat :=
  match a, b with
  | Fin x, Fin y => Fin (f x y)
  | _, _ => NaN
  end.

Definition fadd := lift2 Qplus.
Definition fsub := lift2 Qminus.
Definition fmul := lift2 Qmult.

(** [a < b] and [a > b]: false as soon as one side is NaN. *)
Definition Qltb (x y : Q) : bool := negb (Qle_bool y x).

Definition flt (a b : pyfloat) : bool :=
  match a, b with
  | Fin x, Fin y => Qltb x y
  | _, _ => false
  end.

Definition fgt (a b : pyfloat) : bool := flt b a.

(** The builtins [min(a, b)] and [max(a, b)]: the first argument is kept
    unless the second compares strictly below (above) it. *)
Definition py_min (a b : pyfloat) : pyfloat := if flt b a then b else a.
Definition py_max (a b : pyfloat) : pyfloat := if fgt b a then b else a.

(** [np.mean] of a list of booleans; NaN on the empty list. *)
Definition count_true (l : list bool) : nat :=
  List.length (List.filter (fun b => b) l).

Definition np_mean (l : list bool) : pyfloat :=
  match l with
  | [] => NaN
  | _ :: _ =>
      Fin (inject_Z (Z.of_nat (count_true l)) / inject_Z (Z.of_nat (List.length l)))
  end.

(** Numerical equality of floats; NaN is equal to nothing. *)
Definition feq (a b : pyfloat) : Prop :=
  match a, b with
  | Fin x, Fin y => x == y
  | _, _ => False
  end.

Definition in_unit_ball (a : pyfloat) : Prop :=
  match a with
  | Fin x => -1 <= x /\ x <= 1
  | NaN => False
  end.

End PyFloat.
Import PyFloat.

(** ** Dictionaries *)

Module PyDict.

Abbreviation dict V := (list (string * V)%type).

Section Dict.
Context {V : Type}.

Fixpoint get (k : string) (d : dict V) : option V :=
  match d with
  | [] => None
  | (k', v) :: d' => if String.eqb k k' then Some v else get k d'
  end.

(** [k in d] *)
Definition contains (k : string) (d : dict V) : bool :=
  match get k d with Some _ => true | None => false end.

(** [d[k] = v] *)
Fixpoint set (k : string) (v : V) (d : dict V) : dict V :=
  match d with
  | [] => [(k, v)]
  | (k', v') :: d' =>
      if String.eqb k k' then (k', v) :: d' else (k', v') :: set k v d'
  end.

(** [d[k]] on a [defaultdict] whose factory yields [dflt]: the value and
    the dictionary after the read. *)
Definition getitem (dflt : V) (k : string) (d : dict V) : V * dict V :=
  match get k d with
  | Some v => (v, d)
  | None => (dflt, set k dflt d)
  end.

(** [d.get(k, dflt)]: no insertion. *)
Definition get_or (dflt : V) (k : string) (d : dict V) : V :=
  match get k d with Some v => v | None => dflt end.

(** A list is a dictionary when no key occurs twice. *)
Fixpoint wf (d : dict V) : bool :=
  match d with
  | [] => true
  | (k, _) :: d' => negb (contains k d') && wf d'
  end.
End Dict.
End PyDict.
Import PyDict.

(** ** State key ([get_state_features]) *)

Module Features.

(** The ASCII characters on which [str.split()] breaks. *)
Definition is_space (c : ascii) : bool :=
  let n := nat_of_ascii c in
  ((9 <=? n) && (n <=? 13) || (28 <=? n) && (n <=? 32))%nat.

(** [command.split()]: the maximal runs of non-space characters.  [cur] is
    the run being read, reversed. *)
Definition flush (cur : list ascii) (acc : list string) : list string :=
  match cur with
  | [] => acc
  | _ :: _ => string_of_list_ascii (List.rev cur) :: acc
  end.

Fixpoint split_aux (s : string) (cur : list ascii) (acc : list string)
  : list string :=
  match s with
  | EmptyString => List.rev (flush cur acc)
  | String c s' =>
      if is_space c then split_aux s' [] (flush cur acc)
      else split_aux s' (c :: cur) acc
  end.

Definition split (s : string) : list string := split_aux s [] [].

(** [command.lower()] on ASCII letters. *)
Definition lower_char (c : ascii) : ascii :=
  let n := nat_of_ascii c in
  if ((65 <=? n) && (n <=? 90))%nat then ascii_of_nat (n + 32) else c.

Fixpoint lower (s : string) : string :=
  match s with
  | EmptyString => EmptyString
  | String c s' => String (lower_char c) (lower s')
  end.

(** [word in text] *)
Fixpoint substring_of (word text : string) : bool :=
  String.prefix word text ||
  match text with
  | EmptyString => false
  | String _ text' => substring_of word text'
  end.

Definition any_in (words : list string) (text : string) : bool :=
  List.existsb (fun w => substring_of w text) words.

(** [sorted(features)] *)
Fixpoint insert_sorted (x : string) (l : list string) : list string :=
  match l with
  | [] => [x]
  | y :: l' => if String.ltb x y then x :: l else y :: insert_sorted x l'
  end.

Definition sorted (l : list string) : list string :=
  List.fold_right insert_sorted [] l.

Record context : Type := {
  has_datetime : bool;
  has_recipients : bool
}.

Definition length_tag (command : string) : string :=
  let cmd_len := List.length (split command) in
  if (cmd_len <=? 3)%nat then "short"
  else if (cmd_len <=? 7)%nat then "medium"
  else "long".

Definition time_tag (hour : nat) : string :=
  if ((6 <=? hour) && (hour <? 12))%nat then "morning"
  else if ((12 <=? hour) && (hour <? 18))%nat then "afternoon"
  else if ((18 <=? hour) && (hour <? 22))%nat then "evening"
  else "night".

Definition topic_tags (command : string) : list string :=
  let text := lower command in
  if any_in ["schedule"; "meeting"; "event"] text then ["calendar"]
  else if any_in ["email"; "send"; "mail"] text then ["email"]
  else if any_in ["search"; "find"; "google"] text then ["search"]
  else if any_in ["open"; "run"; "launch"] text then ["app"]
  else [].

Definition context_tags (ctx : option context) : list string :=
  match ctx with
  | None => []
  | Some c =>
      (if has_datetime c then ["time_specific"] else []) ++
      (if has_recipients c then ["multi_user"] else [])
  end.

Definition get_state_features (hour : nat) (command : string)
  (ctx : option context) : string :=
  String.concat "|"
    (sorted ([length_tag command] ++ [time_tag hour] ++
             topic_tags command ++ context_tags ctx)).

End Features.
Import Features.

(** ** The engine *)

Record clock : Type := {
  hour : nat;
  isoformat : string
}.

(** An entry of [recent_interactions].  [i_interaction_id] is [None] when the
    dictionary has no such key, which is what [log_interaction] builds. *)
Record interaction : Type := {
  i_timestamp : string;
  i_command : string;
  i_intent : string;
  i_result : string;
  i_user_id : string;
  i_state : string;
  i_success : option bool;
  i_feedback_score : option Z;
  i_interaction_id : option string
}.

Record feedback_entry : Type := {
  fb_timestamp : string;
  fb_command : string;
  fb_intent : string;
  fb_rating : Z;
  fb_user_id : string;
  fb_state : string
}.

(** The pickled dictionary; a key may be missing from a foreign file. *)
Record model_data : Type := {
  md_q_table : option (dict (dict pyfloat));
  md_state_action_counts : option (dict (dict nat));
  md_intent_success_rates : option (dict (list bool));
  md_user_preferences : option (dict (dict (list Z)));
  md_learning_rate : option pyfloat;
  md_epsilon : option pyfloat
}.

Record engine : Type := {
  learning_rate : pyfloat;
  epsilon : pyfloat;
  q_table : dict (dict pyfloat);
  state_action_counts : dict (dict nat);
  recent_interactions : list interaction;
  intent_success_rates : dict (list bool);
  user_preferences : dict (dict (list Z))
}.

(** [None] is a file that does not exist. *)
Record disk : Type := {
  feedback_file : option (list feedback_entry);
  model_file : option model_data;
  interactions_file : list interaction
}.

Definition world : Type := (engine * disk)%type.

Definition with_q_table (t : dict (dict pyfloat)) (e : engine) : engine :=
  {| learning_rate := learning_rate e; epsilon := epsilon e;
     q_table := t; state_action_counts := state_action_counts e;
     recent_interactions := recent_interactions e;
     intent_success_rates := intent_success_rates e;
     user_preferences := user_preferences e |}.

Definition with_state_action_counts (t : dict (dict nat)) (e : engine) : engine :=
  {| learning_rate := learning_rate e; epsilon := epsilon e;
     q_table := q_table e; state_action_counts := t;
     recent_interactions := recent_interactions e;
     intent_success_rates := intent_success_rates e;
     user_preferences := user_preferences e |}.

Definition with_recent_interactions (l : list interaction) (e : engine) : engine :=
  {| learning_rate := learning_rate e; epsilon := epsilon e;
     q_table := q_table e; state_action_counts := state_action_counts e;
     recent_interactions := l;
     intent_success_rates := intent_success_rates e;
     user_preferences := user_preferences e |}.

Definition with_intent_success_rates (t : dict (list bool)) (e : engine) : engine :=
  {| learning_rate := learning_rate e; epsilon := epsilon e;
     q_table := q_table e; state_action_counts := state_action_counts e;
     recent_interactions := recent_interactions e;
     intent_success_rates := t;
     user_preferences := user_preferences e |}.

Definition with_user_preferences (t : dict (dict (list Z))) (e : engine) : engine :=
  {| learning_rate := learning_rate e; epsilon := epsilon e;
     q_table := q_table e; state_action_counts := state_action_counts e;
     recent_interactions := recent_interactions e;
     intent_success_rates := intent_success_rates e;
     user_preferences := t |}.

(** The in-memory fields as [__init__] sets them before loading anything. *)
Definition fresh_engine (lr eps : pyfloat) : engine :=
  {| learning_rate := lr; epsilon := eps;
     q_table := []; state_action_counts := [];
     recent_interactions := [];
     intent_success_rates := []; user_preferences := [] |}.

Definition empty_disk : disk :=
  {| feedback_file := None; model_file := None; interactions_file := [] |}.

(** *** Two-level default dictionaries *)

(** [t[s][a]] read on a [defaultdict] of [defaultdict]s: both levels are
    created on a miss, and the inner dictionary is shared with the table. *)
Definition getitem2 {V : Type} (dflt : V) (s a : string) (t : dict (dict V))
  : V * dict (dict V) :=
  let '(inner, t1) := getitem (V := dict V) [] s t in
  let '(v, inner1) := getitem dflt a inner in
  (v, set s inner1 t1).

(** [t[s][a] = v] *)
Definition setitem2 {V : Type} (s a : string) (v : V) (t : dict (dict V))
  : dict (dict V) :=
  let '(inner, t1) := getitem (V := dict V) [] s t in
  set s (set a v inner) t1.

(** A read that inserts nothing, for stating results. *)
Definition lookup2 {V : Type} (dflt : V) (s a : string) (t : dict (dict V)) : V :=
  get_or dflt a (get_or (V := dict V) [] s t).

(** *** Reward model *)

(** [l[-n:]] *)
Definition last_n {A : Type} (n : nat) (l : list A) : list A :=
  List.skipn (List.length l - n) l.

Definition rating_reward (feedback_score : option Z) : pyfloat :=
  match feedback_score with
  | Some rating => Fin ((inject_Z rating - 3) / 2)
  | None => Fin 0
  end.

Definition exploration_bonus (visit_count : nat) : pyfloat :=
  Fin (1 / (1 + inject_Z (Z.of_nat visit_count)) * 0.1).

Definition clamp (total_reward : pyfloat) : pyfloat :=
  py_max (Fin (-1)) (py_min (Fin 1) total_reward).

Definition calculate_reward (it : interaction) (e : engine) : pyfloat * engine :=
  let base_reward := rating_reward (i_feedback_score it) in
  let intent := i_intent it in
  let base_reward :=
    if contains intent (intent_success_rates e) then
      let success_rate :=
        np_mean (last_n 10 (get_or [] intent (intent_success_rates e))) in
      fadd base_reward (fmul (fsub success_rate (Fin 0.5)) (Fin 0.2))
    else base_reward in
  let state := i_state it in
  let action := i_intent it in
  let '(visit_count, counts) := getitem2 0%nat state action (state_action_counts e) in
  let total_reward := fadd base_reward (exploration_bonus visit_count) in
  (clamp total_reward, with_state_action_counts counts e).

(** *** Policy updater *)

(** The body of [update_q_value] once the reward is known. *)
Definition q_learning_update (state action : string) (reward : pyfloat)
  (e : engine) : engine :=
  let '(current_q, q1) := getitem2 (Fin 0) state action (q_table e) in
  let new_q := fadd current_q (fmul (learning_rate e) (fsub reward current_q)) in
  let e1 := with_q_table (setitem2 state action new_q q1) e in
  let '(n, c1) := getitem2 0%nat state action (state_action_counts e1) in
  with_state_action_counts (setitem2 state action (n + 1)%nat c1) e1.

Definition update_q_value (it : interaction) (e : engine) : engine :=
  let state := i_state it in
  let action := i_intent it in
  let '(reward, e1) := calculate_reward it e in
  q_learning_update state action reward e1.

(** *** Arbitration ([get_enhanced_intent]) *)

(** What the random generator hands out during one decision:
    [np.random.random()] and the index drawn by [np.random.choice]. *)
Record draws : Type := {
  uniform : Q;
  choice : nat
}.

Definition possible_intents : list string :=
  ["calendar_event"; "send_email"; "web_search"; "launch_app";
   "rag_query"; "file_manage"; "calendar_list"; "workflow_trigger"].

(** [max(items, key=lambda x: x[1])]: the first item is replaced only by a
    strictly greater one. *)
Definition max_by_value (first : string * pyfloat) (rest : list (string * pyfloat))
  : string * pyfloat :=
  List.fold_left (fun best x => if fgt (snd x) (snd best) then x else best)
    rest first.

(** Lines 96-117: the candidate the Q-table proposes. *)
Definition rl_candidate (base : string * pyfloat) (rnd : draws) (state : string)
  (e : engine) : (string * pyfloat) * engine :=
  if contains state (q_table e) then
    let '(q_values, q1) := getitem [] state (q_table e) in
    let e1 := with_q_table q1 e in
    if flt (Fin (uniform rnd)) (epsilon e1) then
      let rl_intent :=
        List.nth (choice rnd mod List.length possible_intents) possible_intents "" in
      ((rl_intent, Fin 0.5), e1)
    else
      match q_values with
      | first :: rest => ((fst (max_by_value first rest), Fin 0.8), e1)
      | [] => (base, e1)
      end
  else (base, e).

(** Lines 119-131: combining the base and the RL predictions. *)
Definition combine (base rl : string * pyfloat) : string * pyfloat :=
  let base_confidence := snd base in
  let rl_confidence := snd rl in
  if fgt base_confidence (Fin 0.8) then base
  else if flt base_confidence (Fin 0.3) && fgt rl_confidence (Fin 0.6) then rl
  else base.

(** [base] is what [predict_intent(command)] returned. *)
Definition get_enhanced_intent (now : clock) (base : string * pyfloat)
  (rnd : draws) (command : string) (e : engine) : (string * pyfloat) * engine :=
  let state := get_state_features (hour now) command None in
  let '(rl, e1) := rl_candidate base rnd state e in
  (combine base rl, e1).

(** *** Interaction ledger *)

Definition maxlen : nat := 1000.

(** [deque.append] with a bound: a full deque drops its oldest entry. *)
Definition deque_append {A : Type} (x : A) (l : list A) : list A :=
  if (maxlen <=? List.length l)%nat then List.tl l ++ [x] else l ++ [x].

Definition save_interaction (it : interaction) (d : disk) : disk :=
  {| feedback_file := feedback_file d; model_file := model_file d;
     interactions_file := interactions_file d ++ [it] |}.

Definition log_interaction (now : clock) (command intent result user_id : string)
  (w : world) : world :=
  let '(e, d) := w in
  let it :=
    {| i_timestamp := isoformat now; i_command := command; i_intent := intent;
       i_result := result; i_user_id := user_id;
       i_state := get_state_features (hour now) command None;
       i_success := None; i_feedback_score := None;
       i_interaction_id := None |} in
  (with_recent_interactions (deque_append it (recent_interactions e)) e,
   save_interaction it d).

(** The test of the scan in [record_feedback]. *)
Definition matches (command_or_id : string) (it : interaction) : bool :=
  String.eqb (i_command it) command_or_id ||
  match i_interaction_id it with
  | Some id => String.eqb id command_or_id
  | None => false
  end.

(** The entries with their positions; the position stands for the identity
    of the dictionary held by the deque. *)
Definition indexed {A : Type} (l : list A) : list (nat * A) :=
  List.combine (List.seq 0 (List.length l)) l.

Fixpoint scan (command_or_id : string) (reversed : list (nat * interaction))
  : option (nat * interaction) :=
  match reversed with
  | [] => None
  | (ix, it) :: rest =>
      if matches command_or_id it then Some (ix, it) else scan command_or_id rest
  end.

Definition find_target (command_or_id : string) (recent : list interaction)
  : option (nat * interaction) :=
  scan command_or_id (List.rev (indexed recent)).

(** Writing through the reference found by the scan. *)
Fixpoint store {A : Type} (ix : nat) (x : A) (l : list A) : list A :=
  match l, ix with
  | [], _ => []
  | _ :: l', O => x :: l'
  | y :: l', S ix' => y :: store ix' x l'
  end.

Definition with_feedback (rating : Z) (it : interaction) : interaction :=
  {| i_timestamp := i_timestamp it; i_command := i_command it;
     i_intent := i_intent it; i_result := i_result it;
     i_user_id := i_user_id it; i_state := i_state it;
     i_success := Some (3 <=? rating)%Z;
     i_feedback_score := Some rating;
     i_interaction_id := i_interaction_id it |}.

Definition save_feedback (feedback : feedback_entry) (d : disk) : disk :=
  let feedbacks :=
    match feedback_file d with
    | Some l => l
    | None => []
    end in
  {| feedback_file := Some (feedbacks ++ [feedback]);
     model_file := model_file d;
     interactions_file := interactions_file d |}.

(** [record_feedback] returns [None] on each of its three exits; they differ
    by the line they log: the warning "Invalid rating", the warning "No
    interaction found", the info line "Recorded feedback". *)
Inductive logged : Type :=
| Invalid_rating
| No_interaction_found
| Recorded_feedback.

(** Lines 174-198: what a feedback does once the scan has found its target,
    the entry at position [ix]. *)
Definition apply_feedback (now : clock) (ix : nat) (target_interaction : interaction)
  (rating : Z) (user_id : string) (w : world) : world :=
  let '(e, d) := w in
  let target_interaction := with_feedback rating target_interaction in
  let e1 :=
    with_recent_interactions
      (store ix target_interaction (recent_interactions e)) e in
  let e2 := update_q_value target_interaction e1 in
  let intent := i_intent target_interaction in
  let '(rates, isr) := getitem [] intent (intent_success_rates e2) in
  let e3 :=
    with_intent_success_rates (set intent (rates ++ [(3 <=? rating)%Z]) isr) e2 in
  let '(prefs, up) := getitem [] user_id (user_preferences e3) in
  let e4 :=
    with_user_preferences
      (set user_id (set intent (get_or [] intent prefs ++ [rating]) prefs) up)
      e3 in
  let feedback_entry :=
    {| fb_timestamp := isoformat now;
       fb_command := i_command target_interaction;
       fb_intent := i_intent target_interaction;
       fb_rating := rating;
       fb_user_id := user_id;
       fb_state := i_state target_interaction |} in
  (e4, save_feedback feedback_entry d).

Definition valid_rating (rating : Z) : bool :=
  ((1 <=? rating) && (rating <=? 5))%Z.

Definition record_feedback (now : clock) (command_or_id : string) (rating : Z)
  (user_id : string) (w : world) : world * logged :=
  if negb (valid_rating rating) then (w, Invalid_rating)
  else
    match find_target command_or_id (recent_interactions (fst w)) with
    | None => (w, No_interaction_found)
    | Some (ix, target_interaction) =>
        (apply_feedback now ix target_interaction rating user_id w,
         Recorded_feedback)
    end.

(** *** Persistence *)

Definition save_model (w : world) : world :=
  let '(e, d) := w in
  let model_data :=
    {| md_q_table := Some (q_table e);
       md_state_action_counts := Some (state_action_counts e);
       md_intent_success_rates := Some (intent_success_rates e);
       md_user_preferences := Some (user_preferences e);
       md_learning_rate := Some (learning_rate e);
       md_epsilon := Some (epsilon e) |} in
  (e, {| feedback_file := feedback_file d;
         model_file := Some model_data;
         interactions_file := interactions_file d |}).

(** The nested loops that refill a two-level [defaultdict]. *)
Definition refill2 {V : Type} (saved : dict (dict V)) : dict (dict V) :=
  List.fold_left
    (fun t '(state, actions) =>
       List.fold_left (fun t '(action, value) => setitem2 state action value t)
         actions t)
    saved [].

Definition refill {V : Type} (saved : dict V) : dict V :=
  List.fold_left (fun t '(k, v) => set k v t) saved [].

Definition from_option {A : Type} (dflt : A) (o : option A) : A :=
  match o with Some a => a | None => dflt end.

Definition load_model (w : world) : world :=
  let '(e, d) := w in
  match model_file d with
  | None => w
  | Some model_data =>
      ({| learning_rate := from_option (learning_rate e) (md_learning_rate model_data);
          epsilon := from_option (epsilon e) (md_epsilon model_data);
          q_table := refill2 (from_option [] (md_q_table model_data));
          state_action_counts :=
            refill2 (from_option [] (md_state_action_counts model_data));
          recent_interactions := recent_interactions e;
          intent_success_rates :=
            refill (from_option [] (md_intent_success_rates model_data));
          user_preferences :=
            refill (from_option [] (md_user_preferences model_data)) |}, d)
  end.

Definition load_feedback_history (w : world) : world :=
  let '(e, d) := w in
  match feedback_file d with
  | None => w
  | Some feedbacks =>
      (List.fold_left
         (fun e feedback =>
            let intent := fb_intent feedback in
            let rating := fb_rating feedback in
            let user_id := fb_user_id feedback in
            let '(rates, isr) := getitem [] intent (intent_success_rates e) in
            let e1 :=
              with_intent_success_rates
                (set intent (rates ++ [(3 <=? rating)%Z]) isr) e in
            let up :=
              if contains user_id (user_preferences e1) then user_preferences e1
              else set user_id [] (user_preferences e1) in
            let '(prefs, up) := getitem [] user_id up in
            let prefs :=
              if contains intent prefs then prefs else set intent [] prefs in
            with_user_preferences
              (set user_id (set intent (get_or [] intent prefs ++ [rating]) prefs) up)
              e1)
         feedbacks e, d)
  end.

(** [AdaptiveRLEngine(learning_rate=lr, epsilon=eps)] in a process that
    finds the files [d]. *)
Definition init (lr eps : pyfloat) (d : disk) : world :=
  load_model (load_feedback_history (fresh_engine lr eps, d)).

(** *** Notions used in the statements *)

(** The reward as a function of the three things [calculate_reward] reads:
    the rating, the success history of the intent ([None] when the intent
    is not a key of [intent_success_rates]) and the visit count. *)
Definition reward_of (feedback_score : option Z) (history : option (list bool))
  (visit_count : nat) : pyfloat :=
  let base_reward := rating_reward feedback_score in
  let base_reward :=
    match history with
    | Some h => fadd base_reward (fmul (fsub (np_mean (last_n 10 h)) (Fin 0.5)) (Fin 0.2))
    | None => base_reward
    end in
  clamp (fadd base_reward (exploration_bonus visit_count)).

(** The same (state, action, reward) fed through the update [n] times. *)
Definition repeat_update (n : nat) (state action : string) (reward : pyfloat)
  (e : engine) : engine :=
  Nat.iter n (q_learning_update state action reward) e.

Definition q_value (state action : string) (e : engine) : pyfloat :=
  lookup2 (Fin 0) state action (q_table e).

Definition visit_count (state action : string) (e : engine) : nat :=
  lookup2 0%nat state action (state_action_counts e).

(** A two-level table as the engine builds it: no key twice at either
    level, and no state without an action. *)
Definition wf2 {V : Type} (t : dict (dict V)) : bool :=
  wf t && List.forallb (fun '(_, inner) => wf inner && negb (Nat.eqb (List.length inner) 0)) t.

Definition wf_engine (e : engine) : bool :=
  wf2 (q_table e) && wf2 (state_action_counts e) &&
  wf (intent_success_rates e) && wf (user_preferences e).

(** The part of the engine that a snapshot carries. *)
Definition same_model (e e' : engine) : Prop :=
  learning_rate e' = learning_rate e /\
  epsilon e' = epsilon e /\
  q_table e' = q_table e /\
  state_action_counts e' = state_action_counts e /\
  intent_success_rates e' = intent_success_rates e /\
  user_preferences e' = user_preferences e.

(** *** Worlds the program can be in *)

Definition wf_snapshot (m : model_data) : bool :=
  match md_q_table m, md_state_action_counts m,
        md_intent_success_rates m, md_user_preferences m with
  | Some q, Some c, Some i, Some u => wf2 q && wf2 c && wf i && wf u
  | _, _, _, _ => false
  end.

Definition wf_disk (d : disk) : bool :=
  match model_file d with
  | Some m => wf_snapshot m
  | None => true
  end.

Definition wf_world (w : world) : bool := wf_engine (fst w) && wf_disk (snd w).

(** A first start without files, then any sequence of decisions, logged
    interactions, feedbacks, saves, loads and restarts. *)
Inductive reachable : world -> Prop :=
| reach_first_start lr eps : reachable (init lr eps empty_disk)
| reach_decide now base rnd command e d :
    reachable (e, d) ->
    reachable (snd (get_enhanced_intent now base rnd command e), d)
| reach_log now command intent result user_id w :
    reachable w -> reachable (log_interaction now command intent result user_id w)
| reach_feedback now command_or_id rating user_id w :
    reachable w ->
    reachable (fst (record_feedback now command_or_id rating user_id w))
| reach_save w : reachable w -> reachable (save_model w)
| reach_load w : reachable w -> reachable (load_model w)
| reach_restart lr eps w : reachable w -> reachable (init lr eps (snd w)).

(** *** The end-to-end scenario *)

(** A fresh engine with the default learning rate decides on a command,
    the decision is logged, and the user rates it 5. *)
Module Scenario.

Definition command : string := "schedule meeting tomorrow at 4pm".

Definition base : string * pyfloat := ("calendar_event", Fin 0.75).

Definition start (eps : pyfloat) : world :=
  (fresh_engine (Fin 0.1) eps, empty_disk).

Definition decision (now : clock) (rnd : draws) (eps : pyfloat)
  : string * pyfloat :=
  fst (get_enhanced_intent now base rnd command (fst (start eps))).

Definition decided (now : clock) (rnd : draws) (eps : pyfloat)
  (result user_id : string) : world :=
  log_interaction now command (fst (decision now rnd eps)) result user_id
    (start eps).

Definition state (now : clock) : string :=
  get_state_features (hour now) command None.

(** The reward of each logged interaction once it carries the rating 5. *)
Definition rewards (w : world) : list pyfloat :=
  List.map (fun it => fst (calculate_reward (with_feedback 5 it) (fst w)))
    (recent_interactions (fst w)).

Definition rated (now : clock) (user_id : string) (w : world) : world * logged :=
  record_feedback now command 5 user_id w.

Definition afternoon : clock :=
  {| hour := 15; isoformat := "2025-03-04T15:00:00" |}.

Definition no_exploration : draws := {| uniform := 0.5; choice := 0 |}.

(** A store with three states of two actions each. *)
Definition three_states : engine :=
  {| learning_rate := Fin 0.1;
     epsilon := Fin 0.1;
     q_table :=
       [("afternoon|calendar|medium",
         [("calendar_event", Fin 0.1); ("send_email", Fin (-0.2))]);
        ("morning|search|short",
         [("web_search", Fin 0.3); ("launch_app", Fin 0)]);
        ("email|night|short",
         [("send_email", Fin 0.5); ("rag_query", Fin 0.05)])];
     state_action_counts :=
       [("afternoon|calendar|medium",
         [("calendar_event", 1%nat); ("send_email", 2%nat)]);
        ("morning|search|short",
         [("web_search", 3%nat); ("launch_app", 1%nat)]);
        ("email|night|short",
         [("send_email", 4%nat); ("rag_query", 1%nat)])];
     recent_interactions := [];
     intent_success_rates :=
       [("calendar_event", [true]); ("send_email", [false; true; true])];
     user_preferences :=
       [("default", [("calendar_event", [5%Z]); ("send_email", [2%Z; 4%Z])])] |}.

End Scenario.

(** ** The rest of the engine *)

(** *** Exploration decay ([decay_exploration]) *)

Definition with_epsilon (eps : pyfloat) (e : engine) : engine :=
  {| learning_rate := learning_rate e; epsilon := eps;
     q_table := q_table e; state_action_counts := state_action_counts e;
     recent_interactions := recent_interactions e;
     intent_success_rates := intent_success_rates e;
     user_preferences := user_preferences e |}.

Definition decay_exploration (decay_rate min_epsilon : pyfloat) (e : engine)
  : engine :=
  with_epsilon (py_max min_epsilon (fmul (epsilon e) decay_rate)) e.

Definition repeat_decay (n : nat) (decay_rate min_epsilon : pyfloat) (e : engine)
  : engine :=
  Nat.iter n (decay_exploration decay_rate min_epsilon) e.

(** *** The base classifier ([predict_intent] of [intent_classifier.py]) *)

(** What running the classifier on the text comes to, after the retraining
    retry if there was one: no sentence embedder, an exception, or the most
    probable label with its probability. *)
Inductive classifier_run : Type :=
| Embedder_missing
| Prediction_failed
| Predicted (label : string) (confidence : pyfloat).

Definition predict_intent (run : classifier_run) : string * pyfloat :=
  match run with
  | Embedder_missing => ("unknown", Fin 0)
  | Prediction_failed => ("unknown", Fin 0)
  | Predicted label confidence =>
      if flt confidence (Fin 0.3) then ("unknown", Fin 0) else (label, confidence)
  end.

(** *** Policy recommendation ([get_policy_recommendation]) *)

(** Division by a non-zero constant. *)
Definition fdiv := lift2 Qdiv.

Definition sum_ratings (l : list Z) : Z := List.fold_right Z.add 0%Z l.

(** [np.mean] of a list of ratings; NaN on the empty list. *)
Definition np_mean_ratings (l : list Z) : pyfloat :=
  match l with
  | [] => NaN
  | _ :: _ => Fin (inject_Z (sum_ratings l) / inject_Z (Z.of_nat (List.length l)))
  end.

(** [sorted(items, key=lambda x: x[1], reverse=True)]: descending by value,
    items of equal value in their original order. *)
Fixpoint insert_desc (x : string * pyfloat) (l : list (string * pyfloat))
  : list (string * pyfloat) :=
  match l with
  | [] => [x]
  | y :: l' => if fgt (snd x) (snd y) then x :: l else y :: insert_desc x l'
  end.

Definition sorted_desc (l : list (string * pyfloat)) : list (string * pyfloat) :=
  List.fold_left (fun acc x => insert_desc x acc) l [].

Record recommendation : Type := {
  primary_intent : option string;
  confidence : pyfloat;
  alternative_intents : list string;
  user_preference_factor : pyfloat;
  exploration_factor : pyfloat
}.

(** One turn of the loop over the user's preferences. *)
Definition prefer (r : recommendation) (item : string * list Z) : recommendation :=
  let '(intent, ratings) := item in
  let avg_rating := np_mean_ratings ratings in
  if fgt avg_rating (Fin 3.5) then
    let factor := fdiv (fsub avg_rating (Fin 3)) (Fin 2) in
    match primary_intent r with
    | None =>
        {| primary_intent := Some intent; confidence := factor;
           alternative_intents := alternative_intents r;
           user_preference_factor := factor;
           exploration_factor := exploration_factor r |}
    | Some _ =>
        {| primary_intent := primary_intent r; confidence := confidence r;
           alternative_intents := alternative_intents r;
           user_preference_factor := factor;
           exploration_factor := exploration_factor r |}
    end
  else r.

Definition recommend_from_values (eps : pyfloat) (q_values : dict pyfloat)
  : recommendation :=
  match sorted_desc q_values with
  | first :: rest =>
      {| primary_intent := Some (fst first);
         confidence :=
           py_min (Fin 1) (py_max (Fin 0) (fdiv (fadd (snd first) (Fin 1)) (Fin 2)));
         alternative_intents := List.map fst (List.firstn 2 rest);
         user_preference_factor := Fin 0;
         exploration_factor := eps |}
  | [] =>
      {| primary_intent := None; confidence := Fin 0;
         alternative_intents := [];
         user_preference_factor := Fin 0;
         exploration_factor := eps |}
  end.

Definition get_policy_recommendation (now : clock) (command user_id : string)
  (e : engine) : recommendation :=
  let state := get_state_features (hour now) command None in
  let recommendations :=
    if contains state (q_table e) then
      recommend_from_values (epsilon e) (get_or [] state (q_table e))
    else recommend_from_values (epsilon e) [] in
  if contains user_id (user_preferences e) then
    List.fold_left prefer (get_or [] user_id (user_preferences e)) recommendations
  else recommendations.

(** *** Policy export ([save_policies]) *)

Record policy : Type := {
  best_action : string;
  best_q_value : pyfloat;
  alternatives : list (string * pyfloat)
}.

(** The dictionary that [save_policies] dumps to the policy file. *)
Definition save_policies (e : engine) : dict policy :=
  List.fold_left
    (fun policies '(state, actions) =>
       match actions with
       | first :: rest =>
           let best := max_by_value first rest in
           set state
             {| best_action := fst best; best_q_value := snd best;
                alternatives := List.firstn 2 (List.tl (sorted_desc actions)) |}
             policies
       | [] => policies
       end)
    (q_table e) [].

(** *** Metrics ([get_performance_metrics]) *)

Record intent_stats : Type := {
  success_rate : pyfloat;
  total_attempts : nat;
  recent_success_rate : pyfloat
}.

Record learning_stats : Type := {
  stats_learning_rate : pyfloat;
  exploration_rate : pyfloat;
  q_table_size : nat
}.

Record metrics : Type := {
  total_states : nat;
  total_interactions : nat;
  intent_performance : dict intent_stats;
  learning : learning_stats
}.

Definition stats_of (rates : list bool) : intent_stats :=
  {| success_rate := np_mean rates;
     total_attempts := List.length rates;
     recent_success_rate :=
       if (10 <=? List.length rates)%nat then np_mean (last_n 10 rates)
       else np_mean rates |}.

Definition get_performance_metrics (e : engine) : metrics :=
  {| total_states := List.length (q_table e);
     total_interactions := List.length (recent_interactions e);
     intent_performance :=
       List.fold_left
         (fun performance '(intent, rates) =>
            match rates with
            | _ :: _ => set intent (stats_of rates) performance
            | [] => performance
            end)
         (intent_success_rates e) [];
     learning :=
       {| stats_learning_rate := learning_rate e;
          exploration_rate := epsilon e;
          q_table_size :=
            List.fold_left (fun n '(_, actions) => (n + List.length actions)%nat)
              (q_table e) 0%nat |} |}.

(** *** More notions used in the statements *)

(** The entry that [log_interaction] appends. *)
Definition logged_entry (now : clock) (command intent result user_id : string)
  : interaction :=
  {| i_timestamp := isoformat now; i_command := command; i_intent := intent;
     i_result := result; i_user_id := user_id;
     i_state := get_state_features (hour now) command None;
     i_success := None; i_feedback_score := None;
     i_interaction_id := None |}.

Record log_request : Type := {
  lr_now : clock;
  lr_command : string;
  lr_intent : string;
  lr_result : string;
  lr_user_id : string
}.

Definition entry_of (r : log_request) : interaction :=
  logged_entry (lr_now r) (lr_command r) (lr_intent r) (lr_result r) (lr_user_id r).

(** A run of decisions logged one after the other. *)
Definition log_all (requests : list log_request) (w : world) : world :=
  List.fold_left
    (fun w r =>
       log_interaction (lr_now r) (lr_command r) (lr_intent r) (lr_result r)
         (lr_user_id r) w)
    requests w.

(** An entry as it was when it was logged. *)
Definition without_feedback (it : interaction) : interaction :=
  {| i_timestamp := i_timestamp it; i_command := i_command it;
     i_intent := i_intent it; i_result := i_result it;
     i_user_id := i_user_id it; i_state := i_state it;
     i_success := None; i_feedback_score := None;
     i_interaction_id := i_interaction_id it |}.

(** One process: a first start without files, then decisions, logged
    interactions, feedbacks and saves, without reloading. *)
Inductive session : world -> Prop :=
| session_start lr eps : session (init lr eps empty_disk)
| session_decide now base rnd command e d :
    session (e, d) ->
    session (snd (get_enhanced_intent now base rnd command e), d)
| session_log now command intent result user_id w :
    session w -> session (log_interaction now command intent result user_id w)
| session_feedback now command_or_id rating user_id w :
    session w ->
    session (fst (record_feedback now command_or_id rating user_id w))
| session_save w : session w -> session (save_model w).

Definition feedbacks_of (d : disk) : list feedback_entry :=
  match feedback_file d with
  | Some l => l
  | None => []
  end.

(** How many entries of the feedback file are about a (state, intent) pair. *)
Definition count_feedback (state intent : string) (d : disk) : nat :=
  List.length
    (List.filter
       (fun f => String.eqb (fb_state f) state && String.eqb (fb_intent f) intent)
       (feedbacks_of d)).

(** One turn of the loop of [load_feedback_history]. *)
Definition replay_feedback (e : engine) (feedback : feedback_entry) : engine :=
  let intent := fb_intent feedback in
  let rating := fb_rating feedback in
  let user_id := fb_user_id feedback in
  let '(rates, isr) := getitem [] intent (intent_success_rates e) in
  let e1 :=
    with_intent_success_rates
      (set intent (rates ++ [(3 <=? rating)%Z]) isr) e in
  let up :=
    if contains user_id (user_preferences e1) then user_preferences e1
    else set user_id [] (user_preferences e1) in
  let '(prefs, up) := getitem [] user_id up in
  let prefs :=
    if contains intent prefs then prefs else set intent [] prefs in
  with_user_preferences
    (set user_id (set intent (get_or [] intent prefs ++ [rating]) prefs) up)
    e1.

(** [t[s][a]] when both keys are there. *)
Definition get2 {V : Type} (s a : string) (t : dict (dict V)) : option V :=
  match get s t with
  | Some inner => get a inner
  | None => None
  end.

(** The histories and preferences rebuilt from the feedback file are those
    the engine holds. *)
Definition replay_agrees (w : world) : Prop :=
  forall e0,
    intent_success_rates e0 = [] -> user_preferences e0 = [] ->
    intent_success_rates (List.fold_left replay_feedback (feedbacks_of (snd w)) e0)
    = intent_success_rates (fst w) /\
    user_preferences (List.fold_left replay_feedback (feedbacks_of (snd w)) e0)
    = user_preferences (fst w).

(** A two-level table that may hold states without actions. *)
Definition dict2 {V : Type} (t : dict (dict V)) : bool :=
  wf t && List.forallb (fun '(_, inner) => wf inner) t.

Definition has_actions {V : Type} (p : string * dict V) : bool :=
  negb (Nat.eqb (List.length (snd p)) 0).

(** Every key [get_state_features] can return. *)
Definition all_state_keys : list string :=
  List.flat_map
    (fun len =>
       List.flat_map
         (fun time =>
            List.flat_map
              (fun topic =>
                 List.map
                   (fun ctx => String.concat "|" (sorted ([len] ++ [time] ++ topic ++ ctx)))
                   [[]; ["time_specific"]; ["multi_user"]; ["time_specific"; "multi_user"]])
              [["calendar"]; ["email"]; ["search"]; ["app"]; []])
         ["morning"; "afternoon"; "evening"; "night"])
    ["short"; "medium"; "long"].

(** Every stored rating of every user is at most 5. *)
Definition ratings_at_most_5 (e : engine) : Prop :=
  forall user_id prefs intent ratings rating,
    In (user_id, prefs) (user_preferences e) ->
    In (intent, ratings) prefs ->
    In rating ratings -> (rating <= 5)%Z.

Definition in_zero_one (a : pyfloat) : Prop :=
  match a with
  | Fin x => 0 <= x /\ x <= 1
  | NaN => False
  end.

Definition finite_values (l : list (string * pyfloat)) : Prop :=
  forall a v, In (a, v) l -> exists x, v = Fin x.

(** *** Sample worlds *)

Module Samples.

(** The scenario's world once the rating 5 is recorded. *)
Definition after_rating : world :=
  fst (Scenario.rated Scenario.afternoon "default"
         (Scenario.decided Scenario.afternoon Scenario.no_exploration (Fin 0.1)
            "ok" "default")).

(** A decision on another command. *)
Definition other_request : log_request :=
  {| lr_now := Scenario.afternoon; lr_command := "open the report";
     lr_intent := "launch_app"; lr_result := "ok"; lr_user_id := "default" |}.

(** [Scenario.three_states] with a state that has no action. *)
Definition with_empty_state : engine :=
  with_q_table (q_table Scenario.three_states ++ [("evening|long", [])])
    Scenario.three_states.

End Samples.

(** * Properties *)

(** ** The definitions on small inputs *)

Example split_skips_runs_of_spaces :
  split "  open   the report " = ["open"; "the"; "report"].
Proof. reflexivity. Qed.

Example state_key_of_scenario :
  get_state_features 15 "schedule meeting tomorrow at 4pm" None
  = "afternoon|calendar|medium".
Proof. reflexivity. Qed.

Example state_key_with_context :
  get_state_features 23 "Send it"
    (Some {| has_datetime := true; has_recipients := true |})
  = "email|multi_user|night|short|time_specific".
Proof. reflexivity. Qed.

Example state_key_of_empty_command : get_state_features 7 "" None = "morning|short".
Proof. reflexivity. Qed.

(** The first maximal item wins a tie. *)
Example max_by_value_tie :
  max_by_value ("send_email", Fin 0.5) [("web_search", Fin 0.5); ("rag_query", Fin 0.2)]
  = ("send_email", Fin 0.5).
Proof. reflexivity. Qed.

(** A history that is present but empty makes the total NaN, and the
    builtins [min] and [max] then hand back 1.0. *)
Example reward_of_empty_history : reward_of (Some 1%Z) (Some []) 3 = Fin 1.
Proof. reflexivity. Qed.

Example deque_append_below_capacity : deque_append 3%nat [1; 2]%nat = [1; 2; 3]%nat.
Proof. reflexivity. Qed.

(** ** Dictionary facts *)

Section DictFacts.
Context {V : Type}.
Implicit Types (d : dict V) (k : string) (v : V).

Lemma get_set_same k v d : get k (set k v d) = Some v.
Proof.
  induction d as [|[k' v'] d IH]; simpl.
  - now rewrite String.eqb_refl.
  - destruct (String.eqb k k') eqn:E; simpl; rewrite E; auto.
Qed.

Lemma get_set_other k k' v d : k <> k' -> get k' (set k v d) = get k' d.
Proof.
  intros Hne. induction d as [|[k0 v0] d IH]; simpl.
  - destruct (String.eqb_spec k' k); congruence.
  - destruct (String.eqb_spec k k0) as [->|]; simpl.
    + destruct (String.eqb_spec k' k0); congruence.
    + now rewrite IH.
Qed.

Lemma set_absent k v d : get k d = None -> set k v d = d ++ [(k, v)].
Proof.
  induction d as [|[k' v'] d IH]; simpl; auto.
  destruct (String.eqb k k'); [discriminate|].
  intros H. now rewrite IH.
Qed.

Lemma contains_set k k' v d :
  contains k' (set k v d) = String.eqb k' k || contains k' d.
Proof.
  unfold contains. destruct (String.eqb_spec k' k) as [->|Hne]; simpl.
  - now rewrite get_set_same.
  - rewrite get_set_other by congruence. reflexivity.
Qed.

Lemma wf_set k v d : wf d = true -> wf (set k v d) = true.
Proof.
  induction d as [|[k' v'] d IH]; simpl; auto.
  intros [Hk Hd]%andb_prop.
  destruct (String.eqb_spec k k') as [->|Hne]; simpl.
  - now rewrite Hk, Hd.
  - rewrite contains_set, IH by assumption.
    destruct (String.eqb_spec k' k); [congruence|].
    simpl. now rewrite Hk.
Qed.

Lemma getitem_fst dflt k d : fst (getitem dflt k d) = get_or dflt k d.
Proof. unfold getitem, get_or. now destruct (get k d). Qed.

Lemma getitem_get dflt k d :
  get k (snd (getitem dflt k d)) = Some (get_or dflt k d).
Proof.
  unfold getitem, get_or. destruct (get k d) eqn:E; simpl; auto.
  apply get_set_same.
Qed.

Lemma getitem_get_other dflt k k' d :
  k <> k' -> get k' (snd (getitem dflt k d)) = get k' d.
Proof.
  intros Hne. unfold getitem. destruct (get k d); simpl; auto.
  now apply get_set_other.
Qed.

Lemma getitem_present dflt k d :
  contains k d = true -> snd (getitem dflt k d) = d.
Proof. unfold contains, getitem. now destruct (get k d). Qed.

Lemma wf_getitem dflt k d : wf d = true -> wf (snd (getitem dflt k d)) = true.
Proof.
  intros H. unfold getitem. destruct (get k d); simpl; auto using wf_set.
Qed.

Lemma contains_middle k v acc d : contains k (acc ++ (k, v) :: d) = true.
Proof.
  unfold contains. induction acc as [|[k1 v1] acc IH]; simpl.
  - now rewrite String.eqb_refl.
  - now destruct (String.eqb k k1).
Qed.

Lemma wf_app_absent k v acc d :
  wf (acc ++ (k, v) :: d) = true -> get k acc = None.
Proof.
  induction acc as [|[k0 v0] acc IH]; simpl; auto.
  intros [Hk0 Hacc]%andb_prop.
  destruct (String.eqb_spec k k0) as [->|Hne]; auto.
  now rewrite contains_middle in Hk0.
Qed.

(** Refilling an empty dictionary from the items of a dictionary gives the
    same items in the same order. *)
Lemma refill_from acc d :
  wf (acc ++ d) = true ->
  List.fold_left (fun t '(k, v) => set k v t) d acc = acc ++ d.
Proof.
  revert acc. induction d as [|[k v] d IH]; intros acc Hwf; simpl.
  - now rewrite app_nil_r.
  - rewrite (set_absent _ _ _ (wf_app_absent _ _ _ _ Hwf)).
    rewrite IH; rewrite <- app_assoc; simpl; auto.
Qed.

Lemma refill_wf d : wf d = true -> refill d = d.
Proof. intros H. unfold refill. now rewrite refill_from. Qed.

End DictFacts.

(** ** Two-level tables *)

Section TableFacts.
Context {V : Type}.
Implicit Types (t : dict (dict V)) (s a : string) (v dflt : V).

Lemma getitem2_fst dflt s a t :
  fst (getitem2 dflt s a t) = lookup2 dflt s a t.
Proof.
  unfold getitem2, lookup2.
  rewrite (surjective_pairing (getitem (V := dict V) [] s t)).
  rewrite (surjective_pairing (getitem dflt a _)). simpl.
  now rewrite !getitem_fst.
Qed.

Lemma getitem2_snd dflt s a t :
  snd (getitem2 dflt s a t) =
  set s (snd (getitem dflt a (get_or (V := dict V) [] s t))) (snd (getitem (V := dict V) [] s t)).
Proof.
  unfold getitem2.
  rewrite (surjective_pairing (getitem (V := dict V) [] s t)).
  rewrite (surjective_pairing (getitem dflt a _)). simpl.
  now rewrite getitem_fst.
Qed.

Lemma setitem2_eq s a v t :
  setitem2 s a v t = set s (set a v (get_or (V := dict V) [] s t)) (snd (getitem (V := dict V) [] s t)).
Proof.
  unfold setitem2. rewrite (surjective_pairing (getitem (V := dict V) [] s t)).
  now rewrite getitem_fst.
Qed.

(** A defaulting read leaves every defaulting read as it was. *)
Lemma lookup2_getitem2 dflt s a s' a' t :
  lookup2 dflt s' a' (snd (getitem2 dflt s a t)) = lookup2 dflt s' a' t.
Proof.
  rewrite getitem2_snd. unfold lookup2 at 1. unfold get_or at 2.
  destruct (String.eqb_spec s s') as [<-|Hs].
  - rewrite get_set_same. unfold get_or at 1.
    destruct (String.eqb_spec a a') as [<-|Ha].
    + now rewrite getitem_get.
    + now rewrite getitem_get_other.
  - rewrite get_set_other, getitem_get_other by assumption. reflexivity.
Qed.

Lemma lookup2_setitem2_same dflt s a v t :
  lookup2 dflt s a (setitem2 s a v t) = v.
Proof.
  rewrite setitem2_eq. unfold lookup2, get_or.
  now rewrite !get_set_same.
Qed.

Lemma lookup2_setitem2_other dflt s a s' a' v t :
  s <> s' \/ a <> a' ->
  lookup2 dflt s' a' (setitem2 s a v t) = lookup2 dflt s' a' t.
Proof.
  intros Hne. rewrite setitem2_eq. unfold lookup2. unfold get_or at 2 4.
  destruct (String.eqb_spec s s') as [<-|Hs].
  - destruct Hne as [|Ha]; [congruence|].
    rewrite get_set_same. unfold get_or. now rewrite get_set_other.
  - rewrite get_set_other, getitem_get_other by assumption. reflexivity.
Qed.

End TableFacts.

(** ** Floats *)

Lemma Qltb_lt x y : Qltb x y = true <-> x < y.
Proof.
  unfold Qltb. rewrite negb_true_iff, <- not_true_iff_false, Qle_bool_iff.
  split; [apply Qnot_le_lt | apply Qlt_not_le].
Qed.

Lemma Qltb_ge x y : Qltb x y = false <-> y <= x.
Proof.
  unfold Qltb. rewrite negb_false_iff. apply Qle_bool_iff.
Qed.

Lemma flt_Fin x y : flt (Fin x) (Fin y) = true <-> x < y.
Proof. apply Qltb_lt. Qed.

Lemma fgt_Fin x y : fgt (Fin x) (Fin y) = true <-> y < x.
Proof. apply Qltb_lt. Qed.

(** The clamp lands in [[-1, 1]] whatever it is given, NaN included. *)
Lemma clamp_bounds (t : pyfloat) : in_unit_ball (clamp t).
Proof.
  unfold clamp, py_max, py_min, fgt.
  destruct t as [x|]; simpl.
  - destruct (Qltb x 1) eqn:E1; simpl.
    + destruct (Qltb (-1) x) eqn:E2; simpl.
      * apply Qltb_lt in E1, E2. lra.
      * lra.
    + change (Qltb (-1) 1) with true. simpl. lra.
  - lra.
Qed.

Lemma clamp_inside (x : Q) : -1 <= x -> x <= 1 -> feq (clamp (Fin x)) (Fin x).
Proof.
  intros Hlo Hhi. unfold clamp, py_max, py_min, fgt. simpl.
  destruct (Qltb x 1) eqn:E1; simpl.
  - destruct (Qltb (-1) x) eqn:E2; simpl; [reflexivity|].
    apply Qltb_ge in E2. lra.
  - apply Qltb_ge in E1. change (Qltb (-1) 1) with true. simpl. lra.
Qed.

Lemma clamp_above (x : Q) : 1 <= x -> clamp (Fin x) = Fin 1.
Proof.
  intros H. unfold clamp, py_max, py_min, fgt. simpl.
  destruct (Qltb x 1) eqn:E1; [apply Qltb_lt in E1; lra|]. reflexivity.
Qed.

(** ** Reward bounds *)

(** C3.  Whatever the interaction holds (a rating or none) and whatever the
    engine holds (any visit count, any success history, the empty one
    included), [calculate_reward] returns a number in [[-1, 1]], and that
    number is the clamp of the total: clamping is the last thing done. *)
Theorem calculate_reward_in_bounds (it : interaction) (e : engine) :
  in_unit_ball (fst (calculate_reward it e)) /\
  exists total_reward, fst (calculate_reward it e) = clamp total_reward.
Proof.
  unfold calculate_reward.
  rewrite (surjective_pairing (getitem2 _ _ _ _)). cbn [fst].
  split; [apply clamp_bounds | eexists; reflexivity].
Qed.

(** ** Decisions *)

Lemma with_q_table_same (e : engine) : with_q_table (q_table e) e = e.
Proof. now destruct e. Qed.

Lemma rl_candidate_frame base rnd state e :
  snd (rl_candidate base rnd state e) = e.
Proof.
  unfold rl_candidate. destruct (contains state (q_table e)) eqn:Hin; auto.
  rewrite (surjective_pairing (getitem _ _ _)).
  rewrite (getitem_present _ _ _ Hin), with_q_table_same.
  destruct (flt _ _); auto. now destruct (fst _).
Qed.

(** C9.  A decision leaves the engine as it found it: the Q-table, the visit
    counters, the success histories, the user preferences and the ledger
    are the same object after [get_enhanced_intent] as before, whatever the
    command, the base prediction, the random draws and the store. *)
Theorem get_enhanced_intent_frame (now : clock) (base : string * pyfloat)
  (rnd : draws) (command : string) (e : engine) :
  snd (get_enhanced_intent now base rnd command e) = e.
Proof.
  unfold get_enhanced_intent.
  rewrite (surjective_pairing (rl_candidate _ _ _ _)). cbn [snd].
  apply rl_candidate_frame.
Qed.

Lemma combine_high base_intent (bc : Q) rl :
  0.8 < bc -> combine (base_intent, Fin bc) rl = (base_intent, Fin bc).
Proof.
  intros H. unfold combine. cbn [snd].
  now rewrite (proj2 (fgt_Fin bc 0.8) H).
Qed.

Lemma combine_not_high base_intent (bc : Q) rl :
  bc <= 0.8 ->
  combine (base_intent, Fin bc) rl =
  if flt (Fin bc) (Fin 0.3) && fgt (snd rl) (Fin 0.6) then rl
  else (base_intent, Fin bc).
Proof.
  intros H. unfold combine. cbn [snd].
  destruct (fgt (Fin bc) (Fin 0.8)) eqn:E; auto.
  apply fgt_Fin in E. lra.
Qed.

(** C4.  The precedence of the final selection.  For every base prediction
    and every RL candidate: a base confidence above 0.8 returns the base
    prediction unchanged; otherwise a base confidence below 0.3 together
    with an RL confidence above 0.6 returns the RL candidate; otherwise the
    base prediction is returned.  [get_enhanced_intent] applies this rule to
    the candidate the Q-table proposes. *)
Theorem arbitration_precedence (base_intent rl_intent : string) (bc rc : Q) :
  let base := (base_intent, Fin bc) in
  let rl := (rl_intent, Fin rc) in
  (0.8 < bc -> combine base rl = base) /\
  (bc <= 0.8 -> bc < 0.3 -> 0.6 < rc -> combine base rl = rl) /\
  (bc <= 0.8 -> ~ (bc < 0.3 /\ 0.6 < rc) -> combine base rl = base) /\
  (forall now rnd command e,
     fst (get_enhanced_intent now base rnd command e) =
     combine base
       (fst (rl_candidate base rnd (get_state_features (hour now) command None) e))).
Proof.
  cbv zeta. repeat split.
  - apply combine_high.
  - intros Hh Hb Hr. rewrite combine_not_high by assumption. cbn [snd].
    now rewrite (proj2 (flt_Fin bc 0.3) Hb), (proj2 (fgt_Fin rc 0.6) Hr).
  - intros Hh Hn. rewrite combine_not_high by assumption. cbn [snd].
    destruct (flt (Fin bc) (Fin 0.3)) eqn:Eb; auto.
    destruct (fgt (Fin rc) (Fin 0.6)) eqn:Er; auto.
    apply flt_Fin in Eb. apply fgt_Fin in Er. tauto.
  - intros. unfold get_enhanced_intent.
    now rewrite (surjective_pairing (rl_candidate _ _ _ _)).
Qed.

(** ** The ledger *)

Lemma indexed_from_snoc {A : Type} (x : A) (l : list A) (start : nat) :
  List.combine (List.seq start (List.length (l ++ [x]))) (l ++ [x]) =
  List.combine (List.seq start (List.length l)) l ++ [((start + List.length l)%nat, x)].
Proof.
  revert start. induction l as [|y l IH]; intros start; simpl.
  - now rewrite Nat.add_0_r.
  - rewrite IH. now rewrite Nat.add_succ_r.
Qed.

Lemma indexed_snoc {A : Type} (x : A) (l : list A) :
  indexed (l ++ [x]) = indexed l ++ [(List.length l, x)].
Proof. unfold indexed. now rewrite indexed_from_snoc. Qed.

(** The scan, read from the newest entry down. *)
Lemma find_target_snoc c (l : list interaction) (x : interaction) :
  find_target c (l ++ [x]) =
  if matches c x then Some (List.length l, x) else find_target c l.
Proof.
  unfold find_target. rewrite indexed_snoc, rev_unit. reflexivity.
Qed.

Lemma find_target_none c (l : list interaction) :
  find_target c l = None <-> (forall it, In it l -> matches c it = false).
Proof.
  induction l as [|x l IH] using rev_ind.
  - split; [intros _ it [] | reflexivity].
  - rewrite find_target_snoc. destruct (matches c x) eqn:E.
    + split; [discriminate|]. intros H.
      rewrite (H x) in E; [discriminate|]. apply in_or_app. right. now left.
    + rewrite IH. split.
      * intros H it [Hin|[<-|[]]]%in_app_or; auto.
      * intros H it Hin. apply H, in_or_app. now left.
Qed.

Lemma find_target_some c (l : list interaction) ix it :
  find_target c l = Some (ix, it) ->
  nth_error l ix = Some it /\ matches c it = true /\
  (forall j it', (ix < j)%nat -> nth_error l j = Some it' -> matches c it' = false).
Proof.
  induction l as [|x l IH] using rev_ind.
  - discriminate.
  - rewrite find_target_snoc. destruct (matches c x) eqn:E.
    + intros [= <- <-]. repeat split; auto.
      * now rewrite nth_error_app2, Nat.sub_diag by lia.
      * intros j it' Hj Hn.
        assert (Hlen : (j < List.length (l ++ [x]))%nat)
          by (apply nth_error_Some; congruence).
        rewrite length_app in Hlen. simpl in Hlen. lia.
    + intros H. destruct (IH H) as (Hn & Hm & Hlater).
      assert (Hix : (ix < List.length l)%nat) by (apply nth_error_Some; congruence).
      repeat split; auto.
      * now rewrite nth_error_app1.
      * intros j it' Hj Hj'.
        destruct (Nat.lt_ge_cases j (List.length l)) as [Hlt|Hge].
        -- rewrite nth_error_app1 in Hj' by assumption. eauto.
        -- rewrite nth_error_app2 in Hj' by assumption.
           destruct (j - List.length l)%nat as [|k] eqn:Ek; simpl in Hj'.
           ++ now injection Hj' as <-.
           ++ now destruct k.
Qed.

Lemma nth_error_store_same {A : Type} ix (x y : A) l :
  nth_error l ix = Some y -> nth_error (store ix x l) ix = Some x.
Proof.
  revert ix. induction l as [|z l IH]; intros [|ix]; simpl; try discriminate; auto.
Qed.

Lemma nth_error_store_other {A : Type} ix j (x : A) l :
  ix <> j -> nth_error (store ix x l) j = nth_error l j.
Proof.
  revert ix j. induction l as [|z l IH]; intros [|ix] [|j] H; simpl; auto.
  congruence.
Qed.

Lemma store_last {A : Type} (x y : A) l :
  store (List.length l) y (l ++ [x]) = l ++ [y].
Proof. induction l as [|z l IH]; simpl; congruence. Qed.

Lemma valid_rating_iff rating : valid_rating rating = true <-> (1 <= rating <= 5)%Z.
Proof. unfold valid_rating. rewrite andb_true_iff, !Z.leb_le. tauto. Qed.

Lemma record_feedback_invalid now c rating user w :
  valid_rating rating = false ->
  record_feedback now c rating user w = (w, Invalid_rating).
Proof. intros H. unfold record_feedback. now rewrite H. Qed.

Lemma record_feedback_not_found now c rating user w :
  valid_rating rating = true ->
  find_target c (recent_interactions (fst w)) = None ->
  record_feedback now c rating user w = (w, No_interaction_found).
Proof. intros Hv Hf. unfold record_feedback. now rewrite Hv, Hf. Qed.

Lemma record_feedback_found now c rating user w ix it :
  valid_rating rating = true ->
  find_target c (recent_interactions (fst w)) = Some (ix, it) ->
  record_feedback now c rating user w =
  (apply_feedback now ix it rating user w, Recorded_feedback).
Proof. intros Hv Hf. unfold record_feedback. now rewrite Hv, Hf. Qed.

(** C7.  A feedback that is turned down changes nothing.  A rating outside
    1..5 takes the "Invalid rating" exit, a valid rating that matches no
    entry of the buffer takes the "No interaction found" exit, and on both
    the world after the call (Q-table, counters, histories, preferences,
    interaction records and the files) is the world before it.  Only the
    "Recorded feedback" exit may change anything. *)
Theorem record_feedback_rejections (now : clock) (command_or_id : string)
  (rating : Z) (user_id : string) (w : world) :
  let w' := fst (record_feedback now command_or_id rating user_id w) in
  let exit := snd (record_feedback now command_or_id rating user_id w) in
  ((rating < 1 \/ 5 < rating)%Z -> exit = Invalid_rating /\ w' = w) /\
  ((1 <= rating <= 5)%Z ->
   (forall it, In it (recent_interactions (fst w)) -> matches command_or_id it = false) ->
   exit = No_interaction_found /\ w' = w) /\
  (exit <> Recorded_feedback -> w' = w).
Proof.
  cbv zeta. repeat split.
  - rewrite record_feedback_invalid; auto.
    apply not_true_iff_false. rewrite valid_rating_iff. lia.
  - rewrite record_feedback_invalid; auto.
    apply not_true_iff_false. rewrite valid_rating_iff. lia.
  - rewrite record_feedback_not_found; auto.
    + now apply valid_rating_iff.
    + now apply find_target_none.
  - rewrite record_feedback_not_found; auto.
    + now apply valid_rating_iff.
    + now apply find_target_none.
  - unfold record_feedback. destruct (valid_rating rating); auto.
    destruct (find_target _ _) as [[ix it]|]; auto.
    cbn. congruence.
Qed.

(** ** Reward and update *)

Lemma calculate_reward_eq (it : interaction) (e : engine) :
  fst (calculate_reward it e) =
  reward_of (i_feedback_score it)
    (get (i_intent it) (intent_success_rates e))
    (visit_count (i_state it) (i_intent it) e).
Proof.
  unfold calculate_reward, reward_of, visit_count, contains, get_or.
  rewrite (surjective_pairing (getitem2 _ _ _ _)). cbn [fst].
  rewrite getitem2_fst.
  now destruct (get (i_intent it) (intent_success_rates e)).
Qed.

Lemma calculate_reward_snd (it : interaction) (e : engine) :
  snd (calculate_reward it e) =
  with_state_action_counts
    (snd (getitem2 0%nat (i_state it) (i_intent it) (state_action_counts e))) e.
Proof.
  unfold calculate_reward.
  now rewrite (surjective_pairing (getitem2 _ _ _ _)).
Qed.

Lemma q_learning_update_eq state action reward e :
  q_learning_update state action reward e =
  let current_q := q_value state action e in
  let new_q := fadd current_q (fmul (learning_rate e) (fsub reward current_q)) in
  let q1 := snd (getitem2 (Fin 0) state action (q_table e)) in
  let c1 := snd (getitem2 0%nat state action (state_action_counts e)) in
  with_state_action_counts
    (setitem2 state action (visit_count state action e + 1)%nat c1)
    (with_q_table (setitem2 state action new_q q1) e).
Proof.
  unfold q_learning_update, q_value, visit_count.
  rewrite (surjective_pairing (getitem2 (Fin 0) _ _ _)).
  rewrite (surjective_pairing (getitem2 0%nat _ _ _)).
  now rewrite !getitem2_fst.
Qed.

Lemma q_learning_update_learning_rate state action reward e :
  learning_rate (q_learning_update state action reward e) = learning_rate e.
Proof. now rewrite q_learning_update_eq. Qed.

Lemma q_learning_update_q_value state action reward e :
  q_value state action (q_learning_update state action reward e) =
  fadd (q_value state action e)
    (fmul (learning_rate e) (fsub reward (q_value state action e))).
Proof.
  rewrite q_learning_update_eq. unfold q_value at 1. cbn.
  apply lookup2_setitem2_same.
Qed.

Lemma q_learning_update_q_value_other state action s' a' reward e :
  state <> s' \/ action <> a' ->
  q_value s' a' (q_learning_update state action reward e) = q_value s' a' e.
Proof.
  intros H. rewrite q_learning_update_eq. unfold q_value at 1. cbn.
  rewrite lookup2_setitem2_other by assumption. apply lookup2_getitem2.
Qed.

Lemma q_learning_update_visit_count state action reward e :
  visit_count state action (q_learning_update state action reward e) =
  (visit_count state action e + 1)%nat.
Proof.
  rewrite q_learning_update_eq. unfold visit_count at 1. cbn.
  apply lookup2_setitem2_same.
Qed.

Lemma q_learning_update_visit_count_other state action s' a' reward e :
  state <> s' \/ action <> a' ->
  visit_count s' a' (q_learning_update state action reward e) = visit_count s' a' e.
Proof.
  intros H. rewrite q_learning_update_eq. unfold visit_count at 1. cbn.
  rewrite lookup2_setitem2_other by assumption. apply lookup2_getitem2.
Qed.

(** [update_q_value] in terms of the engine it is given. *)
Lemma update_q_value_eq (it : interaction) (e : engine) :
  update_q_value it e =
  q_learning_update (i_state it) (i_intent it)
    (reward_of (i_feedback_score it)
       (get (i_intent it) (intent_success_rates e))
       (visit_count (i_state it) (i_intent it) e))
    (snd (calculate_reward it e)).
Proof.
  unfold update_q_value.
  rewrite (surjective_pairing (calculate_reward it e)).
  now rewrite calculate_reward_eq.
Qed.

Lemma calculate_reward_q_value it e s a :
  q_value s a (snd (calculate_reward it e)) = q_value s a e.
Proof. now rewrite calculate_reward_snd. Qed.

Lemma calculate_reward_visit_count it e s a :
  visit_count s a (snd (calculate_reward it e)) = visit_count s a e.
Proof.
  rewrite calculate_reward_snd. unfold visit_count. cbn.
  apply lookup2_getitem2.
Qed.

Lemma update_q_value_q_value (it : interaction) (e : engine) :
  q_value (i_state it) (i_intent it) (update_q_value it e) =
  let reward :=
    reward_of (i_feedback_score it)
      (get (i_intent it) (intent_success_rates e))
      (visit_count (i_state it) (i_intent it) e) in
  fadd (q_value (i_state it) (i_intent it) e)
    (fmul (learning_rate e) (fsub reward (q_value (i_state it) (i_intent it) e))).
Proof.
  rewrite update_q_value_eq, q_learning_update_q_value.
  rewrite calculate_reward_q_value. now rewrite calculate_reward_snd.
Qed.

Lemma update_q_value_visit_count (it : interaction) (e : engine) :
  visit_count (i_state it) (i_intent it) (update_q_value it e) =
  (visit_count (i_state it) (i_intent it) e + 1)%nat.
Proof.
  now rewrite update_q_value_eq, q_learning_update_visit_count,
    calculate_reward_visit_count.
Qed.

Lemma update_q_value_other (it : interaction) (e : engine) s' a' :
  i_state it <> s' \/ i_intent it <> a' ->
  q_value s' a' (update_q_value it e) = q_value s' a' e /\
  visit_count s' a' (update_q_value it e) = visit_count s' a' e.
Proof.
  intros H. rewrite update_q_value_eq.
  rewrite q_learning_update_q_value_other, q_learning_update_visit_count_other
    by assumption.
  now rewrite calculate_reward_q_value, calculate_reward_visit_count.
Qed.

Lemma update_q_value_keeps (it : interaction) (e : engine) :
  learning_rate (update_q_value it e) = learning_rate e /\
  epsilon (update_q_value it e) = epsilon e /\
  recent_interactions (update_q_value it e) = recent_interactions e /\
  intent_success_rates (update_q_value it e) = intent_success_rates e /\
  user_preferences (update_q_value it e) = user_preferences e.
Proof.
  rewrite update_q_value_eq, q_learning_update_eq, calculate_reward_snd.
  now cbn.
Qed.

(** ** Convergence of the update *)

Section Convergence.
Variables (state action : string) (r alpha v0 : Q) (e : engine).
Hypothesis alpha_pos : 0 < alpha.
Hypothesis alpha_le_1 : alpha <= 1.
Hypothesis rate : learning_rate e = Fin alpha.
Hypothesis start : q_value state action e = Fin v0.

Lemma repeat_update_learning_rate n :
  learning_rate (repeat_update n state action (Fin r) e) = Fin alpha.
Proof.
  induction n as [|n IH]; simpl; auto.
  now rewrite q_learning_update_learning_rate.
Qed.

(** The signed closed form: the distance to [r] shrinks by [1 - alpha]
    at each step and keeps its sign. *)
Lemma repeat_update_closed_form n :
  exists v, q_value state action (repeat_update n state action (Fin r) e) = Fin v /\
            v - r == (v0 - r) * (1 - alpha) ^ Z.of_nat n.
Proof.
  induction n as [|n (v & Hv & Hc)].
  - exists v0. split; [exact start|]. simpl. ring.
  - exists (v + alpha * (r - v)). split.
    + change (repeat_update (S n) state action (Fin r) e)
        with (q_learning_update state action (Fin r)
                (repeat_update n state action (Fin r) e)).
      rewrite q_learning_update_q_value, Hv, repeat_update_learning_rate.
      reflexivity.
    + rewrite Nat2Z.inj_succ, <- Z.add_1_r.
      rewrite Qpower_plus' by lia. rewrite Qpower_1_r.
      transitivity ((v - r) * (1 - alpha)); [ring|].
      rewrite Hc. ring.
Qed.

Lemma repeat_update_step n v :
  q_value state action (repeat_update n state action (Fin r) e) = Fin v ->
  q_value state action (repeat_update (S n) state action (Fin r) e)
  = Fin (v + alpha * (r - v)).
Proof.
  intros Hv.
  change (repeat_update (S n) state action (Fin r) e)
    with (q_learning_update state action (Fin r)
            (repeat_update n state action (Fin r) e)).
  now rewrite q_learning_update_q_value, Hv, repeat_update_learning_rate.
Qed.

End Convergence.

(** C2.  Feeding the same (state, action, reward [r]) through the update
    with a learning rate [alpha] in (0, 1], from a stored value [v0]: after
    [n >= 1] repetitions the stored value [v_n] satisfies
    [|v_n - r| = |v0 - r| * (1 - alpha)^n], and the [n]-th repetition moves
    the value towards [r] without passing it: [v_n] lies between the value
    before it and [r], so the distance to [r] never grows.  Floats are read
    as exact rationals. *)
Theorem update_convergence (state action : string) (r alpha v0 : Q)
  (e : engine) (n : nat) :
  0 < alpha -> alpha <= 1 ->
  learning_rate e = Fin alpha ->
  q_value state action e = Fin v0 ->
  (1 <= n)%nat ->
  exists v_prev v_n,
    q_value state action (repeat_update (n - 1) state action (Fin r) e) = Fin v_prev /\
    q_value state action (repeat_update n state action (Fin r) e) = Fin v_n /\
    Qabs (v_n - r) == Qabs (v0 - r) * (1 - alpha) ^ Z.of_nat n /\
    Qabs (v_n - r) <= Qabs (v_prev - r) /\
    (v_prev <= r -> v_prev <= v_n /\ v_n <= r) /\
    (r <= v_prev -> r <= v_n /\ v_n <= v_prev).
Proof.
  intros Hpos Hle Hrate Hstart Hn.
  destruct n as [|n]; [lia|].
  replace (S n - 1)%nat with n by lia.
  destruct (repeat_update_closed_form state action r alpha v0 e Hrate Hstart n)
    as (v & Hv & _).
  destruct (repeat_update_closed_form state action r alpha v0 e Hrate Hstart (S n))
    as (v' & Hv' & Hc').
  pose proof (repeat_update_step state action r alpha e Hrate n v Hv) as Hstep.
  rewrite Hv' in Hstep. injection Hstep as Hstep.
  exists v, v'. repeat split; auto.
  - rewrite Hc', Qabs_Qmult.
    rewrite (Qabs_pos ((1 - alpha) ^ _)); [reflexivity|].
    apply Qpower_0_le. lra.
  - subst v'. apply Qabs_case; intros H1; apply Qabs_case; intros H2; nra.
  - subst v'. nra.
  - subst v'. nra.
  - subst v'. nra.
  - subst v'. nra.
Qed.

(** ** Applying a feedback *)

Lemma apply_feedback_eq now ix it rating user e d :
  apply_feedback now ix it rating user (e, d) =
  let target := with_feedback rating it in
  let e2 :=
    update_q_value target
      (with_recent_interactions (store ix target (recent_interactions e)) e) in
  let intent := i_intent it in
  let isr := snd (getitem [] intent (intent_success_rates e2)) in
  let rates := get_or [] intent (intent_success_rates e2) in
  let e3 := with_intent_success_rates (set intent (rates ++ [(3 <=? rating)%Z]) isr) e2 in
  let up := snd (getitem [] user (user_preferences e3)) in
  let prefs := get_or [] user (user_preferences e3) in
  (with_user_preferences
     (set user (set intent (get_or [] intent prefs ++ [rating]) prefs) up) e3,
   save_feedback
     {| fb_timestamp := isoformat now; fb_command := i_command it;
        fb_intent := i_intent it; fb_rating := rating; fb_user_id := user;
        fb_state := i_state it |} d).
Proof.
  unfold apply_feedback.
  rewrite (surjective_pairing (getitem [] (i_intent (with_feedback rating it)) _)).
  rewrite (surjective_pairing (getitem [] user _)).
  now rewrite !getitem_fst.
Qed.

Ltac open_apply_feedback :=
  rewrite apply_feedback_eq; cbv zeta; cbn [fst];
  unfold with_user_preferences, with_intent_success_rates;
  cbn [learning_rate epsilon q_table state_action_counts recent_interactions
       intent_success_rates user_preferences].

Section ApplyFeedback.
Variables (now : clock) (ix : nat) (it : interaction) (rating : Z)
  (user : string) (e : engine) (d : disk).

Let target := with_feedback rating it.
Let e' := fst (apply_feedback now ix it rating user (e, d)).
Let e1 := with_recent_interactions (store ix target (recent_interactions e)) e.

Lemma apply_feedback_recent :
  recent_interactions e' = store ix target (recent_interactions e).
Proof.
  unfold e'. open_apply_feedback; fold target; fold e1.
  now destruct (update_q_value_keeps target e1) as (_ & _ & -> & _).
Qed.

Lemma apply_feedback_q_value :
  q_value (i_state it) (i_intent it) e' =
  let reward :=
    reward_of (Some rating)
      (get (i_intent it) (intent_success_rates e))
      (visit_count (i_state it) (i_intent it) e) in
  fadd (q_value (i_state it) (i_intent it) e)
    (fmul (learning_rate e) (fsub reward (q_value (i_state it) (i_intent it) e))).
Proof.
  unfold e', q_value at 1. open_apply_feedback; fold target; fold e1.
  exact (update_q_value_q_value target e1).
Qed.

Lemma apply_feedback_visit_count :
  visit_count (i_state it) (i_intent it) e' =
  (visit_count (i_state it) (i_intent it) e + 1)%nat.
Proof.
  unfold e', visit_count at 1. open_apply_feedback; fold target; fold e1.
  exact (update_q_value_visit_count target e1).
Qed.

Lemma apply_feedback_other s' a' :
  i_state it <> s' \/ i_intent it <> a' ->
  q_value s' a' e' = q_value s' a' e /\ visit_count s' a' e' = visit_count s' a' e.
Proof.
  intros H. unfold e', q_value at 1, visit_count at 1. open_apply_feedback; fold target; fold e1.
  exact (update_q_value_other target e1 s' a' H).
Qed.

Lemma apply_feedback_history :
  get (i_intent it) (intent_success_rates e') =
  Some (get_or [] (i_intent it) (intent_success_rates e) ++ [(3 <=? rating)%Z]).
Proof.
  unfold e'. open_apply_feedback; fold target; fold e1.
  destruct (update_q_value_keeps target e1) as (_ & _ & _ & -> & _).
  apply get_set_same.
Qed.

End ApplyFeedback.

Lemma exploration_bonus_first : feq (exploration_bonus 0) (Fin 0.1).
Proof. reflexivity. Qed.

(** C10.  A feedback is rewarded from the engine as it stood before the
    feedback took effect.  When [record_feedback] finds its target, the new
    Q-value of the target's (state, intent) is
    [old + learning_rate * (reward - old)] with the reward computed from the
    success history of the intent before this outcome is appended and from
    the visit count before it is incremented; only afterwards does the
    history gain the outcome and the count one visit.  A pair never visited
    gets the whole exploration bonus 0.1. *)
Theorem feedback_reward_uses_prior_state (now : clock) (command_or_id : string)
  (rating : Z) (user_id : string) (e : engine) (d : disk)
  (ix : nat) (it : interaction) :
  (1 <= rating <= 5)%Z ->
  find_target command_or_id (recent_interactions e) = Some (ix, it) ->
  let state := i_state it in
  let intent := i_intent it in
  let e' := fst (fst (record_feedback now command_or_id rating user_id (e, d))) in
  let history := get intent (intent_success_rates e) in
  let visits := visit_count state intent e in
  let reward := reward_of (Some rating) history visits in
  let old_q := q_value state intent e in
  q_value state intent e' = fadd old_q (fmul (learning_rate e) (fsub reward old_q)) /\
  get intent (intent_success_rates e') =
    Some (get_or [] intent (intent_success_rates e) ++ [(3 <=? rating)%Z]) /\
  visit_count state intent e' = (visits + 1)%nat /\
  (visits = 0%nat -> feq (exploration_bonus visits) (Fin 0.1)).
Proof.
  intros Hr Hf. cbv zeta.
  rewrite (record_feedback_found now command_or_id rating user_id (e, d) ix it)
    by (auto; now apply valid_rating_iff).
  cbn [fst]. repeat split.
  - apply apply_feedback_q_value.
  - apply apply_feedback_history.
  - apply apply_feedback_visit_count.
  - intros ->. apply exploration_bonus_first.
Qed.

(** ** The end-to-end scenario *)

Lemma scenario_found now rnd eps result user_id :
  exists it,
    recent_interactions (fst (Scenario.decided now rnd eps result user_id)) = [it] /\
    find_target Scenario.command [it] = Some (0%nat, it) /\
    i_state it = Scenario.state now /\ i_intent it = "calendar_event".
Proof.
  eexists. repeat split.
Qed.

(** C1, as the code has it.  In the scenario the decision is the base
    prediction ("calendar_event", 0.75); the rating 5 gives the base reward
    (5 - 3) / 2 = 1, no success bonus (the intent has no history yet) and the
    exploration bonus 0.1, a total of 1.1 that the clamp brings to 1; the
    Q-value of (state, "calendar_event") goes from 0 to
    0 + 0.1 * (1 - 0) = 0.1. *)
Theorem end_to_end_scenario (now now' : clock) (rnd : draws) (eps : pyfloat)
  (result user_id user_id' : string) :
  let w1 := Scenario.decided now rnd eps result user_id in
  let w2 := Scenario.rated now' user_id' w1 in
  let state := Scenario.state now in
  Scenario.decision now rnd eps = ("calendar_event", Fin 0.75) /\
  q_value state "calendar_event" (fst w1) = Fin 0 /\
  visit_count state "calendar_event" (fst w1) = 0%nat /\
  get "calendar_event" (intent_success_rates (fst w1)) = None /\
  feq (fadd (rating_reward (Some 5%Z)) (exploration_bonus 0)) (Fin 1.1) /\
  Scenario.rewards w1 = [Fin 1] /\
  snd w2 = Recorded_feedback /\
  feq (q_value state "calendar_event" (fst (fst w2))) (Fin 0.1).
Proof.
  cbv zeta.
  destruct (scenario_found now rnd eps result user_id) as (it & Hrec & Hfind & Hs & Hi).
  assert (Hfound :
    Scenario.rated now' user_id' (Scenario.decided now rnd eps result user_id) =
    (apply_feedback now' 0 it 5 user_id' (Scenario.decided now rnd eps result user_id),
     Recorded_feedback)).
  { unfold Scenario.rated. apply record_feedback_found; [reflexivity|].
    now rewrite Hrec. }
  split; [reflexivity|]. split; [reflexivity|]. split; [reflexivity|].
  split; [reflexivity|]. split; [reflexivity|]. split; [|split].
  - unfold Scenario.rewards. rewrite Hrec. cbn [List.map].
    rewrite calculate_reward_eq. reflexivity.
  - now rewrite Hfound.
  - rewrite Hfound. cbn [fst].
    rewrite <- Hs, <- Hi.
    rewrite (surjective_pairing (Scenario.decided now rnd eps result user_id)).
    rewrite apply_feedback_q_value. rewrite Hs, Hi. reflexivity.
Qed.

(** C1, as the specification words it, fails: in the scenario played in the
    afternoon the reward is not 0.6 and the stored value is not 0.06. *)
Lemma end_to_end_not_as_specified :
  let w1 :=
    Scenario.decided Scenario.afternoon Scenario.no_exploration (Fin 0.1)
      "ok" "default" in
  let w2 := Scenario.rated Scenario.afternoon "default" w1 in
  ~ List.Forall (fun reward => feq reward (Fin 0.6)) (Scenario.rewards w1) /\
  ~ feq (q_value (Scenario.state Scenario.afternoon) "calendar_event" (fst (fst w2)))
      (Fin 0.06).
Proof.
  cbv zeta. split.
  - intros H. vm_compute in H. inversion H as [|? ? Hr _]. subst.
    vm_compute in Hr. discriminate.
  - intros H. vm_compute in H. discriminate.
Qed.

(** ** Which record a feedback writes *)

Lemma deque_append_twice {A : Type} (x y : A) (l : list A) :
  exists older, deque_append y (deque_append x l) = older ++ [x; y].
Proof.
  unfold deque_append.
  assert (Hm : (2 <= maxlen)%nat) by (unfold maxlen; lia).
  revert Hm. generalize maxlen. intros m Hm.
  assert (Hsnoc : forall k : list A, (k ++ [x]) ++ [y] = k ++ [x; y])
    by (intros k; now rewrite <- app_assoc).
  assert (Htl : forall k : list A, (m <= List.length (k ++ [x]))%nat ->
            List.tl (k ++ [x]) = List.tl k ++ [x]).
  { intros [|z k] Hk; [|reflexivity]. simpl in Hk. lia. }
  destruct (m <=? List.length l)%nat.
  - destruct (m <=? List.length (List.tl l ++ [x]))%nat eqn:E2.
    + apply Nat.leb_le in E2. rewrite (Htl _ E2).
      exists (List.tl (List.tl l)). apply Hsnoc.
    + exists (List.tl l). apply Hsnoc.
  - destruct (m <=? List.length (l ++ [x]))%nat eqn:E2.
    + apply Nat.leb_le in E2. rewrite (Htl _ E2).
      exists (List.tl l). apply Hsnoc.
    + exists l. apply Hsnoc.
Qed.

Lemma matches_iff c it :
  matches c it = true <-> i_command it = c \/ i_interaction_id it = Some c.
Proof.
  unfold matches. rewrite orb_true_iff, String.eqb_eq.
  destruct (i_interaction_id it) as [id|].
  - rewrite String.eqb_eq. split; intros [H|H]; auto; [right; congruence|].
    right. congruence.
  - split; intros [H|H]; auto; discriminate.
Qed.

Lemma find_target_spec c (recent : list interaction) :
  match find_target c recent with
  | Some (ix, it) =>
      nth_error recent ix = Some it /\ matches c it = true /\
      (forall j it', (ix < j)%nat -> nth_error recent j = Some it' ->
                     matches c it' = false)
  | None => forall it, In it recent -> matches c it = false
  end.
Proof.
  destruct (find_target c recent) as [[ix it]|] eqn:E.
  - now apply find_target_some.
  - now apply find_target_none.
Qed.

(** Two decisions on the same command text, then a feedback by that text. *)
Lemma feedback_after_two_decisions now1 now2 now3 c A B r1 r2 u1 u2 rating user w :
  (1 <= rating <= 5)%Z ->
  A <> B ->
  let w2 := log_interaction now2 c B r2 u2 (log_interaction now1 c A r1 u1 w) in
  let w3 := fst (record_feedback now3 c rating user w2) in
  exists older itA itB,
    recent_interactions (fst w2) = older ++ [itA; itB] /\
    i_intent itA = A /\ i_intent itB = B /\
    i_feedback_score itA = None /\ i_success itA = None /\
    i_feedback_score itB = None /\ i_success itB = None /\
    snd (record_feedback now3 c rating user w2) = Recorded_feedback /\
    recent_interactions (fst w3) = older ++ [itA; with_feedback rating itB] /\
    i_feedback_score (with_feedback rating itB) = Some rating /\
    i_success (with_feedback rating itB) = Some (3 <=? rating)%Z /\
    q_value (i_state itB) B (fst w3) =
      (let old_q := q_value (i_state itB) B (fst w) in
       let reward :=
         reward_of (Some rating) (get B (intent_success_rates (fst w)))
           (visit_count (i_state itB) B (fst w)) in
       fadd old_q (fmul (learning_rate (fst w)) (fsub reward old_q))) /\
    visit_count (i_state itB) B (fst w3) = (visit_count (i_state itB) B (fst w) + 1)%nat /\
    q_value (i_state itA) A (fst w3) = q_value (i_state itA) A (fst w) /\
    visit_count (i_state itA) A (fst w3) = visit_count (i_state itA) A (fst w).
Proof.
  intros Hr Hne. destruct w as [e d]. cbv zeta. unfold log_interaction. cbn [fst].
  set (itA := {| i_timestamp := isoformat now1; i_command := c; i_intent := A;
                 i_result := r1; i_user_id := u1;
                 i_state := get_state_features (hour now1) c None;
                 i_success := None; i_feedback_score := None;
                 i_interaction_id := None |}).
  set (itB := {| i_timestamp := isoformat now2; i_command := c; i_intent := B;
                 i_result := r2; i_user_id := u2;
                 i_state := get_state_features (hour now2) c None;
                 i_success := None; i_feedback_score := None;
                 i_interaction_id := None |}).
  destruct (deque_append_twice itA itB (recent_interactions e)) as [older Ho].
  assert (Hfind : find_target c (older ++ [itA; itB])
                  = Some (List.length (older ++ [itA]), itB)).
  { change [itA; itB] with ([itA] ++ [itB]). rewrite app_assoc, find_target_snoc.
    unfold matches. cbn [i_command itB]. now rewrite String.eqb_refl. }
  set (e1 := with_recent_interactions (deque_append itA (recent_interactions e)) e).
  set (e2 := with_recent_interactions (deque_append itB (recent_interactions e1)) e1).
  set (d2 := save_interaction itB (save_interaction itA d)).
  assert (Hrec : recent_interactions e2 = older ++ [itA; itB])
    by (rewrite <- Ho; reflexivity).
  set (ix := List.length (older ++ [itA])) in *.
  assert (Hfound : record_feedback now3 c rating user (e2, d2) =
                   (apply_feedback now3 ix itB rating user (e2, d2),
                    Recorded_feedback)).
  { apply record_feedback_found; [now apply valid_rating_iff|].
    cbn [fst]. now rewrite Hrec. }
  exists older, itA, itB. rewrite Hfound. cbn [fst snd].
  split; [exact Hrec|].
  split; [reflexivity|]. split; [reflexivity|].
  split; [reflexivity|]. split; [reflexivity|].
  split; [reflexivity|]. split; [reflexivity|]. split; [reflexivity|].
  split; [|split; [reflexivity|split; [reflexivity|]]].
  - rewrite apply_feedback_recent, Hrec. unfold ix.
    change [itA; itB] with ([itA] ++ [itB]).
    rewrite app_assoc, store_last. now rewrite <- app_assoc.
  - split; [exact (apply_feedback_q_value now3 ix itB rating user e2 d2)|].
    split; [exact (apply_feedback_visit_count now3 ix itB rating user e2 d2)|].
    destruct (apply_feedback_other now3 ix itB rating user e2 d2 (i_state itA) A)
      as [Hq Hv]; [right; cbn; congruence|].
    split; [exact Hq | exact Hv].
Qed.

(** C6.  [record_feedback] resolves its target by reading the buffer from
    the newest entry to the oldest and taking the first entry whose command
    text or interaction id equals the argument: the entry found matches and
    no newer entry does, and nothing is found only when no entry matches.
    In particular, after two decisions on the same command text with
    intents A then B, a feedback by that text is recorded on the B entry and
    on it alone: B's score becomes the rating and its outcome [rating >= 3]
    (both were unset), the Q-value of B's (state, intent) takes the update
    step towards the reward and its visit count grows by one; the A entry
    keeps its unset outcome and score and, A and B being different, the
    Q-value and visit count of A are left alone. *)
Theorem feedback_resolves_most_recent :
  (forall c recent,
     match find_target c recent with
     | Some (ix, it) =>
         nth_error recent ix = Some it /\
         (i_command it = c \/ i_interaction_id it = Some c) /\
         (forall j it', (ix < j)%nat -> nth_error recent j = Some it' ->
                        ~ (i_command it' = c \/ i_interaction_id it' = Some c))
     | None =>
         forall it, In it recent ->
                    ~ (i_command it = c \/ i_interaction_id it = Some c)
     end) /\
  (forall now1 now2 now3 c A B r1 r2 u1 u2 rating user w,
     (1 <= rating <= 5)%Z ->
     A <> B ->
     let w2 := log_interaction now2 c B r2 u2 (log_interaction now1 c A r1 u1 w) in
     let w3 := fst (record_feedback now3 c rating user w2) in
     exists older itA itB,
       recent_interactions (fst w2) = older ++ [itA; itB] /\
       i_intent itA = A /\ i_intent itB = B /\
       i_feedback_score itA = None /\ i_success itA = None /\
       i_feedback_score itB = None /\ i_success itB = None /\
       snd (record_feedback now3 c rating user w2) = Recorded_feedback /\
       recent_interactions (fst w3) = older ++ [itA; with_feedback rating itB] /\
       i_feedback_score (with_feedback rating itB) = Some rating /\
       i_success (with_feedback rating itB) = Some (3 <=? rating)%Z /\
       q_value (i_state itB) B (fst w3) =
         (let old_q := q_value (i_state itB) B (fst w) in
          let reward :=
            reward_of (Some rating) (get B (intent_success_rates (fst w)))
              (visit_count (i_state itB) B (fst w)) in
          fadd old_q (fmul (learning_rate (fst w)) (fsub reward old_q))) /\
       visit_count (i_state itB) B (fst w3)
       = (visit_count (i_state itB) B (fst w) + 1)%nat /\
       q_value (i_state itA) A (fst w3) = q_value (i_state itA) A (fst w) /\
       visit_count (i_state itA) A (fst w3) = visit_count (i_state itA) A (fst w)).
Proof.
  split.
  - intros c recent. pose proof (find_target_spec c recent) as H.
    destruct (find_target c recent) as [[ix it]|].
    + destruct H as (Hn & Hm & Hlater). repeat split; auto.
      * now apply matches_iff.
      * intros j it' Hj Hn' Hm'%matches_iff.
        rewrite (Hlater j it' Hj Hn') in Hm'. discriminate.
    + intros it Hin Hm%matches_iff. rewrite (H it Hin) in Hm. discriminate.
  - intros now1 now2 now3 c A B r1 r2 u1 u2 rating user w Hr Hne.
    exact (feedback_after_two_decisions now1 now2 now3 c A B r1 r2 u1 u2
             rating user w Hr Hne).
Qed.

(** ** How often a record is written *)

Lemma record_feedback_recent now c rating user w j :
  let w' := fst (record_feedback now c rating user w) in
  nth_error (recent_interactions (fst w')) j = nth_error (recent_interactions (fst w)) j \/
  exists it,
    (1 <= rating <= 5)%Z /\
    find_target c (recent_interactions (fst w)) = Some (j, it) /\
    nth_error (recent_interactions (fst w')) j = Some (with_feedback rating it).
Proof.
  cbv zeta. destruct (valid_rating rating) eqn:Hv.
  - destruct (find_target c (recent_interactions (fst w))) as [[ix it]|] eqn:Hf.
    + rewrite (record_feedback_found _ _ _ _ _ ix it Hv Hf). cbn [fst].
      destruct w as [e d]. rewrite apply_feedback_recent. cbn [fst] in *.
      destruct (Nat.eq_dec ix j) as [<-|Hne].
      * right. exists it. repeat split; try (apply valid_rating_iff, Hv).
        apply find_target_some in Hf as (Hn & _).
        now apply nth_error_store_same with (y := it).
      * left. now apply nth_error_store_other.
    + left. now rewrite record_feedback_not_found.
  - left. now rewrite record_feedback_invalid.
Qed.

Lemma store_app_l {A : Type} ix (x : A) (l l' : list A) :
  (ix < List.length l)%nat -> store ix x (l ++ l') = store ix x l ++ l'.
Proof.
  revert ix. induction l as [|y l IH]; intros [|ix] H; cbn in *; try lia; auto.
  rewrite IH; auto. lia.
Qed.

Lemma matches_with_feedback c rating it :
  matches c (with_feedback rating it) = matches c it.
Proof. reflexivity. Qed.

(** Writing a feedback into the entry found does not change what the scan
    finds. *)
Lemma find_target_store c (recent : list interaction) ix it it' :
  find_target c recent = Some (ix, it) ->
  matches c it' = matches c it ->
  find_target c (store ix it' recent) = Some (ix, it').
Proof.
  induction recent as [|x l IH] using rev_ind; [discriminate|].
  rewrite find_target_snoc. intros Hf Hm.
  destruct (matches c x) eqn:E.
  - injection Hf as <- <-. rewrite store_last, find_target_snoc. now rewrite Hm, E.
  - assert (Hix : (ix < List.length l)%nat).
    { apply find_target_some in Hf as (Hn & _). apply nth_error_Some. congruence. }
    rewrite store_app_l, find_target_snoc, E by assumption. now apply IH.
Qed.

Lemma record_feedback_writes_target now c rating user w ix it :
  (1 <= rating <= 5)%Z ->
  find_target c (recent_interactions (fst w)) = Some (ix, it) ->
  snd (record_feedback now c rating user w) = Recorded_feedback /\
  recent_interactions (fst (fst (record_feedback now c rating user w)))
  = store ix (with_feedback rating it) (recent_interactions (fst w)).
Proof.
  intros Hr Hf.
  rewrite (record_feedback_found now c rating user w ix it)
    by (auto; now apply valid_rating_iff).
  cbn [fst snd]. split; [reflexivity|].
  destruct w as [e d]. apply apply_feedback_recent.
Qed.

(** C8, as the code has it.  A record enters the buffer with its outcome
    and feedback score unset.  A call of [record_feedback] leaves every
    record of the buffer as it was, except the one it resolves to; every
    call with a valid rating that resolves to a record sets that record's
    outcome to [rating >= 3] and its score to the rating, whatever they
    were before, and keeps its other fields.  A later feedback on the same
    command resolves to the same record and so overwrites what the earlier
    one wrote.  Saving and loading the model do not touch the buffer. *)
Theorem feedback_fields_written_by_feedback (rating : Z) :
  (forall now command intent result user_id w,
     exists it,
       recent_interactions (fst (log_interaction now command intent result user_id w))
       = deque_append it (recent_interactions (fst w)) /\
       i_success it = None /\ i_feedback_score it = None) /\
  (forall now c user_id w j,
     let w' := fst (record_feedback now c rating user_id w) in
     nth_error (recent_interactions (fst w')) j
     = nth_error (recent_interactions (fst w)) j \/
     exists it,
       (1 <= rating <= 5)%Z /\
       find_target c (recent_interactions (fst w)) = Some (j, it) /\
       nth_error (recent_interactions (fst w')) j = Some (with_feedback rating it)) /\
  (forall it,
     let it' := with_feedback rating it in
     i_feedback_score it' = Some rating /\
     i_success it' = Some (3 <=? rating)%Z /\
     i_timestamp it' = i_timestamp it /\ i_command it' = i_command it /\
     i_intent it' = i_intent it /\ i_result it' = i_result it /\
     i_user_id it' = i_user_id it /\ i_state it' = i_state it /\
     i_interaction_id it' = i_interaction_id it) /\
  (forall w,
     recent_interactions (fst (save_model w)) = recent_interactions (fst w) /\
     recent_interactions (fst (load_model w)) = recent_interactions (fst w)) /\
  (forall now c user_id w j it,
     (1 <= rating <= 5)%Z ->
     find_target c (recent_interactions (fst w)) = Some (j, it) ->
     let w' := fst (record_feedback now c rating user_id w) in
     snd (record_feedback now c rating user_id w) = Recorded_feedback /\
     (exists it',
        nth_error (recent_interactions (fst w')) j = Some it' /\
        i_feedback_score it' = Some rating /\
        i_success it' = Some (3 <=? rating)%Z /\
        i_timestamp it' = i_timestamp it /\ i_command it' = i_command it /\
        i_intent it' = i_intent it /\ i_result it' = i_result it /\
        i_user_id it' = i_user_id it /\ i_state it' = i_state it /\
        i_interaction_id it' = i_interaction_id it) /\
     (forall j', j' <> j ->
        nth_error (recent_interactions (fst w')) j'
        = nth_error (recent_interactions (fst w)) j')) /\
  (forall now now' c user_id user_id' earlier w j it,
     (1 <= earlier <= 5)%Z ->
     (1 <= rating <= 5)%Z ->
     find_target c (recent_interactions (fst w)) = Some (j, it) ->
     let w1 := fst (record_feedback now c earlier user_id w) in
     let w2 := fst (record_feedback now' c rating user_id' w1) in
     exists it1 it2,
       nth_error (recent_interactions (fst w1)) j = Some it1 /\
       i_feedback_score it1 = Some earlier /\
       i_success it1 = Some (3 <=? earlier)%Z /\
       nth_error (recent_interactions (fst w2)) j = Some it2 /\
       i_feedback_score it2 = Some rating /\
       i_success it2 = Some (3 <=? rating)%Z).
Proof.
  split; [|split; [|split; [|split; [|split]]]].
  - intros now command intent result user_id [e d]. eexists.
    cbn. repeat split.
  - intros now c user_id w j. apply record_feedback_recent.
  - intros it. cbn. repeat split.
  - intros [e d]. split; [reflexivity|].
    unfold load_model. now destruct (model_file d).
  - intros now c user_id w j it Hr Hf. cbv zeta.
    destruct (record_feedback_writes_target now c rating user_id w j it Hr Hf)
      as [Hexit Hrec].
    split; [exact Hexit|]. rewrite Hrec. split.
    + exists (with_feedback rating it). split.
      * apply find_target_some in Hf as (Hn & _).
        now apply nth_error_store_same with (y := it).
      * cbn. repeat split.
    + intros j' Hne. apply nth_error_store_other. congruence.
  - intros now now' c user_id user_id' earlier w j it He Hr Hf. cbv zeta.
    destruct (record_feedback_writes_target now c earlier user_id w j it He Hf)
      as [_ Hrec1].
    assert (Hf1 : find_target c
                    (recent_interactions (fst (fst (record_feedback now c earlier user_id w))))
                  = Some (j, with_feedback earlier it)).
    { rewrite Hrec1. now apply find_target_store with (it := it). }
    destruct (record_feedback_writes_target now' c rating user_id' _ j _ Hr Hf1)
      as [_ Hrec2].
    exists (with_feedback earlier it), (with_feedback rating (with_feedback earlier it)).
    apply find_target_some in Hf as (Hn & _).
    assert (Hn1 : nth_error
                    (recent_interactions (fst (fst (record_feedback now c earlier user_id w)))) j
                  = Some (with_feedback earlier it)).
    { rewrite Hrec1. now apply nth_error_store_same with (y := it). }
    split; [exact Hn1|]. split; [reflexivity|]. split; [reflexivity|].
    split; [|split; reflexivity].
    rewrite Hrec2. now apply nth_error_store_same with (y := with_feedback earlier it).
Qed.

(** C8, as the specification words it, fails: a second feedback on the same
    command overwrites the outcome and the score the first one wrote. *)
Lemma feedback_overwrites_earlier_feedback :
  let w1 :=
    Scenario.decided Scenario.afternoon Scenario.no_exploration (Fin 0.1)
      "ok" "default" in
  let w2 := fst (record_feedback Scenario.afternoon Scenario.command 5 "default" w1) in
  let w3 := fst (record_feedback Scenario.afternoon Scenario.command 1 "default" w2) in
  List.map (fun it => (i_feedback_score it, i_success it)) (recent_interactions (fst w1))
  = [(None, None)] /\
  List.map (fun it => (i_feedback_score it, i_success it)) (recent_interactions (fst w2))
  = [(Some 5%Z, Some true)] /\
  List.map (fun it => (i_feedback_score it, i_success it)) (recent_interactions (fst w3))
  = [(Some 1%Z, Some false)] /\
  recent_interactions (fst w3) <> recent_interactions (fst w2).
Proof.
  cbv zeta. split; [|split; [|split]]; try (vm_compute; reflexivity).
  intros H. vm_compute in H. discriminate.
Qed.

(** ** Snapshots *)

Section Refill.
Context {V : Type}.
Implicit Types (t acc : dict (dict V)) (s a : string) (v : V).

Lemma get_app_last s (inner : dict V) t :
  get s t = None -> get s (t ++ [(s, inner)]) = Some inner.
Proof.
  induction t as [|[k x] t IH]; simpl.
  - now rewrite String.eqb_refl.
  - destruct (String.eqb s k); [discriminate|auto].
Qed.

Lemma set_app_last s (inner inner' : dict V) t :
  get s t = None -> set s inner' (t ++ [(s, inner)]) = t ++ [(s, inner')].
Proof.
  induction t as [|[k x] t IH]; simpl.
  - now rewrite String.eqb_refl.
  - destruct (String.eqb s k); [discriminate|]. intros H. now rewrite IH.
Qed.

Lemma setitem2_last s a v (inner : dict V) t :
  get s t = None ->
  setitem2 s a v (t ++ [(s, inner)]) = t ++ [(s, set a v inner)].
Proof.
  intros H. rewrite setitem2_eq. unfold getitem, get_or.
  rewrite (get_app_last _ _ _ H). cbn [snd]. now apply set_app_last.
Qed.

Lemma setitem2_absent s a v t :
  get s t = None -> setitem2 s a v t = t ++ [(s, [(a, v)])].
Proof.
  intros H. rewrite setitem2_eq. unfold getitem, get_or. rewrite H. cbn [snd].
  rewrite (set_absent _ _ _ H). now apply set_app_last.
Qed.

(** The inner loop of a refill, once the state has its first action. *)
Lemma refill_actions s t (pre actions : dict V) :
  get s t = None ->
  wf (pre ++ actions) = true ->
  List.fold_left (fun t '(action, value) => setitem2 s action value t)
    actions (t ++ [(s, pre)])
  = t ++ [(s, pre ++ actions)].
Proof.
  intros Hs. revert pre. induction actions as [|[a v] actions IH]; intros pre Hwf.
  - now rewrite app_nil_r.
  - cbn [List.fold_left]. rewrite (setitem2_last _ _ _ _ _ Hs).
    rewrite (set_absent _ _ _ (wf_app_absent _ _ _ _ Hwf)).
    rewrite IH; rewrite <- app_assoc; auto.
Qed.

Lemma wf2_app_inv acc s (actions : dict V) saved :
  wf2 (acc ++ (s, actions) :: saved) = true ->
  get s acc = None /\ wf actions = true /\ actions <> [] /\
  wf2 ((acc ++ [(s, actions)]) ++ saved) = true.
Proof.
  intros H. rewrite <- app_assoc. cbn [app]. split; [|split; [|split]]; auto.
  - apply andb_prop in H as [H _]. eapply wf_app_absent, H.
  - apply andb_prop in H as [_ H]. rewrite forallb_app in H.
    apply andb_prop in H as [_ H]. cbn in H.
    now apply andb_prop in H as [[H _]%andb_prop _].
  - apply andb_prop in H as [_ H]. rewrite forallb_app in H.
    apply andb_prop in H as [_ H]. cbn in H.
    apply andb_prop in H as [[_ H]%andb_prop _].
    intros ->. discriminate.
Qed.

Lemma refill2_from saved acc :
  wf2 (acc ++ saved) = true ->
  List.fold_left
    (fun t '(state, actions) =>
       List.fold_left (fun t '(action, value) => setitem2 state action value t)
         actions t)
    saved acc
  = acc ++ saved.
Proof.
  revert acc. induction saved as [|[s actions] saved IH]; intros acc Hwf.
  - now rewrite app_nil_r.
  - destruct (wf2_app_inv _ _ _ _ Hwf) as (Hs & Hwa & Hne & Hwf').
    cbn [List.fold_left].
    destruct actions as [|[a v] actions]; [congruence|].
    cbn [List.fold_left]. rewrite (setitem2_absent _ _ _ _ Hs).
    rewrite (refill_actions s acc [(a, v)] actions Hs Hwa).
    cbn [app]. rewrite IH by assumption. now rewrite <- app_assoc.
Qed.

Lemma refill2_wf2 (t : dict (dict V)) : wf2 t = true -> refill2 t = t.
Proof. intros H. unfold refill2. now rewrite refill2_from. Qed.

End Refill.

Lemma wf_engine_inv (e : engine) :
  wf_engine e = true ->
  wf2 (q_table e) = true /\ wf2 (state_action_counts e) = true /\
  wf (intent_success_rates e) = true /\ wf (user_preferences e) = true.
Proof.
  unfold wf_engine. rewrite !andb_true_iff. tauto.
Qed.

Lemma load_after_save (e e0 : engine) (d : disk) :
  wf_engine e = true ->
  same_model e (fst (load_model (e0, snd (save_model (e, d))))).
Proof.
  intros (Hq & Hc & Hi & Hu)%wf_engine_inv.
  unfold same_model, load_model, save_model.
  cbn [fst snd model_file from_option md_q_table md_state_action_counts
       md_intent_success_rates md_user_preferences md_learning_rate md_epsilon
       learning_rate epsilon q_table state_action_counts intent_success_rates
       user_preferences].
  now rewrite !refill2_wf2, !refill_wf by assumption.
Qed.

Lemma same_model_update_q_value (e e' : engine) (it : interaction) :
  same_model e e' -> same_model (update_q_value it e) (update_q_value it e').
Proof.
  intros (Hl & He & Hq & Hc & Hi & Hu).
  unfold same_model.
  rewrite !update_q_value_eq, !q_learning_update_eq, !calculate_reward_snd.
  unfold q_value, visit_count.
  cbn [learning_rate epsilon q_table state_action_counts intent_success_rates
       user_preferences with_q_table with_state_action_counts].
  rewrite Hl, He, Hq, Hc, Hi, Hu. repeat split.
Qed.

(** *** The tables of a reachable world are dictionaries *)

Section WellFormed.
Context {V : Type}.
Implicit Types (t : dict (dict V)) (s a : string) (v dflt : V).

Let inner_ok : string * dict V -> bool :=
  fun '(_, inner) => wf inner && negb (Nat.eqb (List.length inner) 0).

Lemma inner_ok_set s (x : dict V) t :
  List.forallb inner_ok t = true -> inner_ok (s, x) = true ->
  List.forallb inner_ok (set s x t) = true.
Proof.
  intros Ht Hx. induction t as [|[k y] t IH]; cbn [set List.forallb] in *.
  - now rewrite Hx.
  - apply andb_prop in Ht as [Hy Ht].
    destruct (String.eqb s k); cbn [List.forallb].
    + apply andb_true_intro. split; [exact Hx | exact Ht].
    + apply andb_true_intro. split; [exact Hy | now apply IH].
Qed.

Lemma wf2_write s (x : dict V) t :
  wf2 t = true -> wf x = true -> x <> [] ->
  wf2 (set s x (snd (getitem (V := dict V) [] s t))) = true.
Proof.
  intros [Hw Hf]%andb_prop Hx Hne.
  assert (Hok : inner_ok (s, x) = true).
  { unfold inner_ok. rewrite Hx. destruct x; [congruence|reflexivity]. }
  apply andb_true_intro. split.
  - now apply wf_set, wf_getitem.
  - fold inner_ok in Hf |- *. unfold getitem.
    destruct (get s t) as [inner|] eqn:E; cbn [snd].
    + now apply inner_ok_set.
    + rewrite (set_absent _ _ _ E), (set_app_last _ _ _ _ E).
      rewrite forallb_app, Hf. cbn [List.forallb]. now rewrite Hok.
Qed.

Lemma wf2_inner s t : wf2 t = true -> wf (get_or (V := dict V) [] s t) = true.
Proof.
  intros [_ Hf]%andb_prop. unfold get_or.
  induction t as [|[k y] t IH]; cbn [get List.forallb] in *; auto.
  apply andb_prop in Hf as [[Hy _]%andb_prop Ht].
  destruct (String.eqb s k); auto.
Qed.

Lemma set_not_nil a v (d : dict V) : set a v d <> [].
Proof. destruct d as [|[k y] d]; cbn; [|destruct (String.eqb a k)]; discriminate. Qed.

Lemma getitem_not_nil dflt a (d : dict V) : snd (getitem dflt a d) <> [].
Proof.
  unfold getitem. destruct (get a d) eqn:E; cbn [snd].
  - intros ->. discriminate.
  - apply set_not_nil.
Qed.

Lemma wf2_setitem2 s a v t : wf2 t = true -> wf2 (setitem2 s a v t) = true.
Proof.
  intros H. rewrite setitem2_eq. apply wf2_write; auto.
  - now apply wf_set, wf2_inner.
  - apply set_not_nil.
Qed.

Lemma wf2_getitem2 dflt s a t :
  wf2 t = true -> wf2 (snd (getitem2 dflt s a t)) = true.
Proof.
  intros H. rewrite getitem2_snd. apply wf2_write; auto.
  - now apply wf_getitem, wf2_inner.
  - apply getitem_not_nil.
Qed.

End WellFormed.

Lemma wf_engine_intro (e : engine) :
  wf2 (q_table e) = true -> wf2 (state_action_counts e) = true ->
  wf (intent_success_rates e) = true -> wf (user_preferences e) = true ->
  wf_engine e = true.
Proof. intros Hq Hc Hi Hu. unfold wf_engine. now rewrite Hq, Hc, Hi, Hu. Qed.

Lemma wf_engine_update_q_value it e :
  wf_engine e = true -> wf_engine (update_q_value it e) = true.
Proof.
  intros (Hq & Hc & Hi & Hu)%wf_engine_inv.
  rewrite update_q_value_eq, q_learning_update_eq, calculate_reward_snd.
  apply wf_engine_intro;
    cbn [q_table state_action_counts intent_success_rates user_preferences
         with_q_table with_state_action_counts]; auto.
  - now apply wf2_setitem2, wf2_getitem2.
  - now apply wf2_setitem2, wf2_getitem2, wf2_getitem2.
Qed.

Lemma wf_engine_apply_feedback now ix it rating user e d :
  wf_engine e = true ->
  wf_engine (fst (apply_feedback now ix it rating user (e, d))) = true.
Proof.
  intros Hwf. open_apply_feedback.
  set (e1 := with_recent_interactions _ e).
  assert (Hwf1 : wf_engine e1 = true) by exact Hwf.
  apply (wf_engine_update_q_value (with_feedback rating it)) in Hwf1.
  apply wf_engine_inv in Hwf1 as (Hq & Hc & Hi & Hu).
  apply wf_engine_intro;
    cbn [q_table state_action_counts intent_success_rates user_preferences]; auto.
  - now apply wf_set, wf_getitem.
  - now apply wf_set, wf_getitem.
Qed.

Lemma wf_engine_record_feedback now c rating user w :
  wf_engine (fst w) = true ->
  wf_engine (fst (fst (record_feedback now c rating user w))) = true /\
  model_file (snd (fst (record_feedback now c rating user w))) = model_file (snd w).
Proof.
  intros Hwf. unfold record_feedback.
  destruct (valid_rating rating); cbn [negb fst]; auto.
  destruct (find_target _ _) as [[ix it]|]; cbn [fst]; auto.
  destruct w as [e d]. split.
  - now apply wf_engine_apply_feedback.
  - now rewrite apply_feedback_eq.
Qed.

Lemma wf_engine_load_feedback_history e d :
  wf_engine e = true ->
  wf_engine (fst (load_feedback_history (e, d))) = true /\
  snd (load_feedback_history (e, d)) = d.
Proof.
  intros Hwf. unfold load_feedback_history.
  destruct (feedback_file d) as [feedbacks|]; cbn [fst snd]; auto.
  split; auto. revert e Hwf.
  induction feedbacks as [|f feedbacks IH]; intros e Hwf; cbn [List.fold_left]; auto.
  apply IH.
  rewrite (surjective_pairing (getitem [] (fb_intent f) _)).
  rewrite (surjective_pairing (getitem [] (fb_user_id f) _)).
  apply wf_engine_inv in Hwf as (Hq & Hc & Hi & Hu).
  apply wf_engine_intro;
    cbn [q_table state_action_counts intent_success_rates user_preferences
         with_intent_success_rates with_user_preferences]; auto.
  - now apply wf_set, wf_getitem.
  - apply wf_set, wf_getitem.
    destruct (contains _ _); auto using wf_set.
Qed.

Lemma wf_world_load_model w : wf_world w = true -> wf_world (load_model w) = true.
Proof.
  destruct w as [e d]. unfold wf_world, load_model. cbn [fst snd].
  intros [He Hd]%andb_prop. unfold wf_disk in Hd.
  destruct (model_file d) as [m|] eqn:Em; cbn [fst snd].
  - unfold wf_snapshot in Hd.
    destruct (md_q_table m) as [q|] eqn:Eq; [|discriminate].
    destruct (md_state_action_counts m) as [c|] eqn:Ec; [|discriminate].
    destruct (md_intent_success_rates m) as [i|] eqn:Ei; [|discriminate].
    destruct (md_user_preferences m) as [u|] eqn:Eu; [|discriminate].
    apply andb_prop in Hd as [[[Hq Hc]%andb_prop Hi]%andb_prop Hu].
    apply andb_true_intro. split.
    + apply wf_engine_intro;
        cbn [q_table state_action_counts intent_success_rates user_preferences
             from_option].
      * now rewrite refill2_wf2.
      * now rewrite refill2_wf2.
      * now rewrite refill_wf.
      * now rewrite refill_wf.
    + unfold wf_disk, wf_snapshot. rewrite Em, Eq, Ec, Ei, Eu.
      now rewrite Hq, Hc, Hi, Hu.
  - now rewrite He; unfold wf_disk; rewrite Em.
Qed.

Lemma wf_world_init lr eps d : wf_disk d = true -> wf_world (init lr eps d) = true.
Proof.
  intros Hd. unfold init. apply wf_world_load_model.
  destruct (wf_engine_load_feedback_history (fresh_engine lr eps) d eq_refl)
    as [He Hsnd].
  unfold wf_world. now rewrite He, Hsnd.
Qed.

Lemma reachable_wf_world w : reachable w -> wf_world w = true.
Proof.
  induction 1 as [lr eps | now base rnd command e d _ IH
                 | now command intent result user_id [e d] _ IH
                 | now c rating user_id w _ IH
                 | [e d] _ IH | w _ IH | lr eps w _ IH].
  - now apply wf_world_init.
  - unfold get_enhanced_intent.
    rewrite (surjective_pairing (rl_candidate _ _ _ _)). cbn [snd].
    now rewrite rl_candidate_frame.
  - exact IH.
  - apply andb_prop in IH as [He Hd].
    destruct (wf_engine_record_feedback now c rating user_id w He) as [He' Hm].
    unfold wf_world, wf_disk. rewrite He', Hm. exact Hd.
  - apply andb_prop in IH as [He _]. cbn [fst] in He.
    unfold wf_world, save_model. cbn [fst snd]. rewrite He.
    unfold wf_disk, wf_snapshot.
    cbn [model_file md_q_table md_state_action_counts md_intent_success_rates
         md_user_preferences].
    now apply wf_engine_inv in He as (-> & -> & -> & ->).
  - now apply wf_world_load_model.
  - apply andb_prop in IH as [_ Hd]. now apply wf_world_init.
Qed.

Lemma reachable_wf_engine e d : reachable (e, d) -> wf_engine e = true.
Proof. now intros [He _]%reachable_wf_world%andb_prop. Qed.

(** C5.  Saving the model and loading it back, into whatever engine the
    new process starts with, reconstructs the Q-table, the visit counters,
    the success histories, the user preferences, the learning rate and the
    exploration rate exactly as they were at save time: the same states and
    actions in the same order with the same values and counts, hence the
    same value and count (0 where unseen) for every pair.  An update applied
    after the reload therefore yields the model it would have yielded
    without the save and reload.  The engine saved is one whose tables are
    dictionaries as the engine builds them ([wf_engine]). *)
Theorem save_then_load_restores_model (e e0 : engine) (d : disk) :
  wf_engine e = true ->
  let e' := fst (load_model (e0, snd (save_model (e, d)))) in
  same_model e e' /\
  (forall state action,
     q_value state action e' = q_value state action e /\
     visit_count state action e' = visit_count state action e) /\
  (forall it, same_model (update_q_value it e) (update_q_value it e')).
Proof.
  intros Hwf. cbv zeta.
  pose proof (load_after_save e e0 d Hwf) as Hsame.
  split; [exact Hsame|]. split.
  - intros state action. destruct Hsame as (_ & _ & Hq & Hc & _).
    unfold q_value, visit_count. now rewrite Hq, Hc.
  - intros it. now apply same_model_update_q_value.
Qed.

(** ** The statements at concrete inputs *)

Lemma update_convergence_witness :
  0 < 0.1 /\ 0.1 <= 1 /\ (1 <= 2)%nat /\
  exists v_prev v_n,
    q_value "s" "a" (repeat_update (2 - 1) "s" "a" (Fin 1) (fresh_engine (Fin 0.1) (Fin 0.1)))
    = Fin v_prev /\
    q_value "s" "a" (repeat_update 2 "s" "a" (Fin 1) (fresh_engine (Fin 0.1) (Fin 0.1)))
    = Fin v_n /\
    Qabs (v_n - 1) == Qabs (0 - 1) * (1 - 0.1) ^ Z.of_nat 2 /\
    Qabs (v_n - 1) <= Qabs (v_prev - 1) /\
    (v_prev <= 1 -> v_prev <= v_n /\ v_n <= 1) /\
    (1 <= v_prev -> 1 <= v_n /\ v_n <= v_prev).
Proof.
  split; [reflexivity|]. split; [discriminate|]. split; [lia|].
  apply (update_convergence "s" "a" 1 0.1 0 (fresh_engine (Fin 0.1) (Fin 0.1)) 2);
    [reflexivity | discriminate | reflexivity | reflexivity | lia].
Defined.

Lemma arbitration_precedence_witness :
  0.1 <= 0.8 /\ 0.1 < 0.3 /\ 0.6 < 0.8 /\
  combine ("unknown", Fin 0.1) ("send_email", Fin 0.8) = ("send_email", Fin 0.8).
Proof.
  split; [discriminate|]. split; [reflexivity|]. split; [reflexivity|].
  apply (proj1 (proj2 (arbitration_precedence "unknown" "send_email" 0.1 0.8)));
    [discriminate | reflexivity | reflexivity].
Defined.

Lemma save_then_load_restores_model_witness :
  wf_engine Scenario.three_states = true /\
  let e' :=
    fst (load_model (fresh_engine (Fin 0.5) (Fin 0.5),
                     snd (save_model (Scenario.three_states, empty_disk)))) in
  same_model Scenario.three_states e' /\
  (forall state action,
     q_value state action e' = q_value state action Scenario.three_states /\
     visit_count state action e' = visit_count state action Scenario.three_states) /\
  (forall it,
     same_model (update_q_value it Scenario.three_states) (update_q_value it e')).
Proof.
  split; [reflexivity|].
  apply (save_then_load_restores_model Scenario.three_states
           (fresh_engine (Fin 0.5) (Fin 0.5)) empty_disk).
  reflexivity.
Defined.

Lemma feedback_resolves_most_recent_witness :
  (1 <= 4 <= 5)%Z /\ "send_email" <> "calendar_event" /\
  let w := Scenario.start (Fin 0.1) in
  let w2 :=
    log_interaction Scenario.afternoon "mail the meeting notes" "calendar_event"
      "ok" "default"
      (log_interaction Scenario.afternoon "mail the meeting notes" "send_email"
         "ok" "default" w) in
  let w3 :=
    fst (record_feedback Scenario.afternoon "mail the meeting notes" 4 "default" w2) in
  exists older itA itB,
    recent_interactions (fst w2) = older ++ [itA; itB] /\
    i_intent itA = "send_email" /\ i_intent itB = "calendar_event" /\
    i_feedback_score itA = None /\ i_success itA = None /\
    i_feedback_score itB = None /\ i_success itB = None /\
    snd (record_feedback Scenario.afternoon "mail the meeting notes" 4 "default" w2)
    = Recorded_feedback /\
    recent_interactions (fst w3) = older ++ [itA; with_feedback 4 itB] /\
    i_feedback_score (with_feedback 4 itB) = Some 4%Z /\
    i_success (with_feedback 4 itB) = Some (3 <=? 4)%Z /\
    q_value (i_state itB) "calendar_event" (fst w3) =
      (let old_q := q_value (i_state itB) "calendar_event" (fst w) in
       let reward :=
         reward_of (Some 4%Z) (get "calendar_event" (intent_success_rates (fst w)))
           (visit_count (i_state itB) "calendar_event" (fst w)) in
       fadd old_q (fmul (learning_rate (fst w)) (fsub reward old_q))) /\
    visit_count (i_state itB) "calendar_event" (fst w3)
    = (visit_count (i_state itB) "calendar_event" (fst w) + 1)%nat /\
    q_value (i_state itA) "send_email" (fst w3)
    = q_value (i_state itA) "send_email" (fst w) /\
    visit_count (i_state itA) "send_email" (fst w3)
    = visit_count (i_state itA) "send_email" (fst w).
Proof.
  split; [lia|]. split; [discriminate|].
  exact (proj2 feedback_resolves_most_recent
           Scenario.afternoon Scenario.afternoon Scenario.afternoon
           "mail the meeting notes" "send_email" "calendar_event"
           "ok" "ok" "default" "default" 4%Z "default" (Scenario.start (Fin 0.1))
           ltac:(lia) ltac:(discriminate)).
Defined.

Lemma feedback_fields_written_by_feedback_witness :
  let w :=
    Scenario.decided Scenario.afternoon Scenario.no_exploration (Fin 0.1)
      "ok" "default" in
  let it :=
    {| i_timestamp := "2025-03-04T15:00:00"; i_command := Scenario.command;
       i_intent := "calendar_event"; i_result := "ok"; i_user_id := "default";
       i_state := "afternoon|calendar|medium"; i_success := None;
       i_feedback_score := None; i_interaction_id := None |} in
  (1 <= 5 <= 5)%Z /\ (1 <= 1 <= 5)%Z /\
  find_target Scenario.command (recent_interactions (fst w)) = Some (0%nat, it) /\
  let w1 := fst (record_feedback Scenario.afternoon Scenario.command 5 "default" w) in
  let w2 := fst (record_feedback Scenario.afternoon Scenario.command 1 "default" w1) in
  exists it1 it2,
    nth_error (recent_interactions (fst w1)) 0 = Some it1 /\
    i_feedback_score it1 = Some 5%Z /\
    i_success it1 = Some (3 <=? 5)%Z /\
    nth_error (recent_interactions (fst w2)) 0 = Some it2 /\
    i_feedback_score it2 = Some 1%Z /\
    i_success it2 = Some (3 <=? 1)%Z.
Proof.
  cbv zeta. split; [lia|]. split; [lia|]. split; [reflexivity|].
  exact (proj2 (proj2 (proj2 (proj2 (proj2 (feedback_fields_written_by_feedback 1)))))
           Scenario.afternoon Scenario.afternoon Scenario.command
           "default" "default" 5%Z
           (Scenario.decided Scenario.afternoon Scenario.no_exploration (Fin 0.1)
              "ok" "default")
           0%nat
           {| i_timestamp := "2025-03-04T15:00:00"; i_command := Scenario.command;
              i_intent := "calendar_event"; i_result := "ok"; i_user_id := "default";
              i_state := "afternoon|calendar|medium"; i_success := None;
              i_feedback_score := None; i_interaction_id := None |}
           ltac:(lia) ltac:(lia) eq_refl).
Defined.

Lemma record_feedback_rejections_witness :
  let w :=
    Scenario.decided Scenario.afternoon Scenario.no_exploration (Fin 0.1)
      "ok" "default" in
  (6 < 1 \/ 5 < 6)%Z /\
  snd (record_feedback Scenario.afternoon Scenario.command 6 "default" w)
  = Invalid_rating /\
  fst (record_feedback Scenario.afternoon Scenario.command 6 "default" w) = w.
Proof.
  cbv zeta. split; [right; reflexivity|].
  apply (proj1 (record_feedback_rejections Scenario.afternoon Scenario.command 6
                  "default"
                  (Scenario.decided Scenario.afternoon Scenario.no_exploration
                     (Fin 0.1) "ok" "default"))).
  right. reflexivity.
Defined.

Lemma feedback_reward_uses_prior_state_witness :
  let w :=
    Scenario.decided Scenario.afternoon Scenario.no_exploration (Fin 0.1)
      "ok" "default" in
  let it :=
    {| i_timestamp := "2025-03-04T15:00:00"; i_command := Scenario.command;
       i_intent := "calendar_event"; i_result := "ok"; i_user_id := "default";
       i_state := "afternoon|calendar|medium"; i_success := None;
       i_feedback_score := None; i_interaction_id := None |} in
  (1 <= 2 <= 5)%Z /\
  find_target Scenario.command (recent_interactions (fst w)) = Some (0%nat, it) /\
  let e' :=
    fst (fst (record_feedback Scenario.afternoon Scenario.command 2 "default"
                (fst w, snd w))) in
  let history := get "calendar_event" (intent_success_rates (fst w)) in
  let visits := visit_count "afternoon|calendar|medium" "calendar_event" (fst w) in
  let reward := reward_of (Some 2%Z) history visits in
  let old_q := q_value "afternoon|calendar|medium" "calendar_event" (fst w) in
  q_value "afternoon|calendar|medium" "calendar_event" e'
  = fadd old_q (fmul (learning_rate (fst w)) (fsub reward old_q)) /\
  get "calendar_event" (intent_success_rates e')
  = Some (get_or [] "calendar_event" (intent_success_rates (fst w)) ++ [(3 <=? 2)%Z]) /\
  visit_count "afternoon|calendar|medium" "calendar_event" e' = (visits + 1)%nat /\
  (visits = 0%nat -> feq (exploration_bonus visits) (Fin 0.1)).
Proof.
  cbv zeta. split; [lia|]. split; [reflexivity|].
  apply (feedback_reward_uses_prior_state Scenario.afternoon Scenario.command 2
           "default" _ _ 0%nat
           {| i_timestamp := "2025-03-04T15:00:00"; i_command := Scenario.command;
              i_intent := "calendar_event"; i_result := "ok"; i_user_id := "default";
              i_state := "afternoon|calendar|medium"; i_success := None;
              i_feedback_score := None; i_interaction_id := None |});
    [lia | reflexivity].
Defined.

(** * Further properties of the engine *)

(** ** When a decision departs from the base prediction *)

Lemma combine_cases base rl :
  combine base rl = base \/
  (combine base rl = rl /\ flt (snd base) (Fin 0.3) = true /\
   fgt (snd rl) (Fin 0.6) = true).
Proof.
  unfold combine. destruct (fgt (snd base) (Fin 0.8)); auto.
  destruct (flt (snd base) (Fin 0.3)); auto.
  destruct (fgt (snd rl) (Fin 0.6)); auto.
Qed.

Lemma combine_same base : combine base base = base.
Proof. destruct (combine_cases base base) as [H|[H _]]; exact H. Qed.

Lemma combine_weak_candidate base rl_intent :
  combine base (rl_intent, Fin 0.5) = base.
Proof.
  destruct (combine_cases base (rl_intent, Fin 0.5)) as [H|(_ & _ & H)]; auto.
  discriminate.
Qed.

Lemma rl_candidate_cases base rnd state e :
  let rl := fst (rl_candidate base rnd state e) in
  rl = base \/
  (exists rl_intent, rl = (rl_intent, Fin 0.5) /\
                     flt (Fin (uniform rnd)) (epsilon e) = true) \/
  (flt (Fin (uniform rnd)) (epsilon e) = false /\
   exists first rest,
     get state (q_table e) = Some (first :: rest) /\
     rl = (fst (max_by_value first rest), Fin 0.8)).
Proof.
  cbv zeta. unfold rl_candidate.
  destruct (contains state (q_table e)) eqn:Hin; auto.
  rewrite (surjective_pairing (getitem _ _ _)).
  rewrite (getitem_present _ _ _ Hin), with_q_table_same, getitem_fst.
  unfold contains in Hin. unfold get_or.
  destruct (get state (q_table e)) as [q_values|] eqn:Hg; [|discriminate].
  destruct (flt (Fin (uniform rnd)) (epsilon e)) eqn:Hu.
  - right. left. eexists. split; reflexivity.
  - destruct q_values as [|first rest]; auto.
    right. right. split; auto. exists first, rest. split; reflexivity.
Qed.

Lemma decision_cases now base rnd command e :
  let state := get_state_features (hour now) command None in
  let final := fst (get_enhanced_intent now base rnd command e) in
  final = base \/
  (flt (snd base) (Fin 0.3) = true /\
   flt (Fin (uniform rnd)) (epsilon e) = false /\
   exists first rest,
     get state (q_table e) = Some (first :: rest) /\
     final = (fst (max_by_value first rest), Fin 0.8)).
Proof.
  cbv zeta. unfold get_enhanced_intent.
  rewrite (surjective_pairing (rl_candidate _ _ _ _)). cbn [fst].
  destruct (rl_candidate_cases base rnd
              (get_state_features (hour now) command None) e)
    as [->|[(rl_intent & -> & _)|(Hu & first & rest & Hg & ->)]].
  - left. apply combine_same.
  - left. apply combine_weak_candidate.
  - destruct (combine_cases base (fst (max_by_value first rest), Fin 0.8))
      as [H|(H & Hb & _)]; auto.
    right. split; auto. split; auto. exists first, rest. now rewrite H.
Qed.

(** X1.  The decision returned by [get_enhanced_intent] is the base
    prediction whenever the draw explores (the exploratory candidate has
    confidence 0.5, below the 0.6 the rule asks for) and whenever the state
    has no entry in the Q-table.  When it is not the base prediction, the
    base confidence is below 0.3, the draw did not explore, the state has
    at least one action, and the decision is the action [max] picks with
    confidence 0.8. *)
Theorem decision_differs_only_on_exploit (now : clock) (base : string * pyfloat)
  (rnd : draws) (command : string) (e : engine) :
  let state := get_state_features (hour now) command None in
  let final := fst (get_enhanced_intent now base rnd command e) in
  (flt (Fin (uniform rnd)) (epsilon e) = true -> final = base) /\
  (contains state (q_table e) = false -> final = base) /\
  (final <> base ->
   flt (snd base) (Fin 0.3) = true /\
   flt (Fin (uniform rnd)) (epsilon e) = false /\
   exists first rest,
     get state (q_table e) = Some (first :: rest) /\
     final = (fst (max_by_value first rest), Fin 0.8)).
Proof.
  cbv zeta.
  pose proof (decision_cases now base rnd command e) as H. cbv zeta in H.
  split; [|split].
  - intros Hu. destruct H as [H|(_ & Hu' & _)]; auto. congruence.
  - intros Hin. destruct H as [H|(_ & _ & first & rest & Hg & _)]; auto.
    unfold contains in Hin. now rewrite Hg in Hin.
  - intros Hne. destruct H as [H|H]; [contradiction|exact H].
Qed.

Lemma predict_intent_cases run :
  predict_intent run = ("unknown", Fin 0) \/
  flt (snd (predict_intent run)) (Fin 0.3) = false.
Proof.
  destruct run as [| |label c]; cbn; auto.
  destruct (flt c (Fin 0.3)) eqn:E; auto.
Qed.

(** X2.  [predict_intent] returns either ("unknown", 0.0) or a confidence
    that is not below 0.3.  Fed to [get_enhanced_intent], it follows that
    the Q-table can only ever replace the answer "unknown": when the
    decision is not what [predict_intent] returned, [predict_intent]
    returned ("unknown", 0.0). *)
Theorem rl_replaces_only_unknown (run : classifier_run) (now : clock)
  (rnd : draws) (command : string) (e : engine) :
  let base := predict_intent run in
  (base = ("unknown", Fin 0) \/ flt (snd base) (Fin 0.3) = false) /\
  (fst (get_enhanced_intent now base rnd command e) <> base ->
   base = ("unknown", Fin 0)).
Proof.
  cbv zeta. split; [apply predict_intent_cases|].
  intros Hne.
  destruct (decision_cases now (predict_intent run) rnd command e)
    as [H|(Hb & _)]; [contradiction|].
  destruct (predict_intent_cases run) as [H|H]; auto. congruence.
Qed.

(** ** Q-values stay in range *)

Lemma reward_of_bounds score history visits :
  in_unit_ball (reward_of score history visits).
Proof. unfold reward_of. apply clamp_bounds. Qed.

Lemma step_towards_reward_bounds (old reward : pyfloat) (alpha : Q) :
  0 <= alpha -> alpha <= 1 ->
  in_unit_ball old -> in_unit_ball reward ->
  in_unit_ball (fadd old (fmul (Fin alpha) (fsub reward old))).
Proof.
  intros Ha0 Ha1. destruct old as [x|], reward as [r|]; cbn; try tauto.
  intros [Hx0 Hx1] [Hr0 Hr1]. split; nra.
Qed.

(** X3.  With a learning rate in [[0, 1]], a feedback keeps every stored
    Q-value in [[-1, 1]]: if all values (0 for the pairs never written) are
    in the interval before [record_feedback], they all are after it. *)
Theorem q_values_stay_in_range (now : clock) (command_or_id : string)
  (rating : Z) (user_id : string) (e : engine) (d : disk) (alpha : Q) :
  learning_rate e = Fin alpha -> 0 <= alpha -> alpha <= 1 ->
  (forall state action, in_unit_ball (q_value state action e)) ->
  forall state action,
    in_unit_ball
      (q_value state action
         (fst (fst (record_feedback now command_or_id rating user_id (e, d))))).
Proof.
  intros Hlr Ha0 Ha1 Hall state action.
  unfold record_feedback. destruct (valid_rating rating); cbn [negb fst]; auto.
  destruct (find_target _ _) as [[ix it]|]; cbn [fst]; auto.
  destruct (string_dec (i_state it) state) as [<-|Hs].
  - destruct (string_dec (i_intent it) action) as [<-|Ha].
    + rewrite apply_feedback_q_value. cbv zeta. rewrite Hlr.
      apply step_towards_reward_bounds; auto. apply reward_of_bounds.
    + destruct (apply_feedback_other now ix it rating user_id e d (i_state it) action)
        as [-> _]; auto.
  - destruct (apply_feedback_other now ix it rating user_id e d state action)
      as [-> _]; auto.
Qed.

(** ** What a feedback adds *)

Section MoreDictFacts.
Context {V : Type}.
Implicit Types (d : dict V) (k : string) (v dflt : V).

Lemma get_or_set_same dflt k v d : get_or dflt k (set k v d) = v.
Proof. unfold get_or. now rewrite get_set_same. Qed.

Lemma get_or_set_other dflt k k' v d :
  k <> k' -> get_or dflt k' (set k v d) = get_or dflt k' d.
Proof. intros H. unfold get_or. now rewrite get_set_other. Qed.

Lemma get_or_getitem dflt k k' d :
  get_or dflt k' (snd (getitem dflt k d)) = get_or dflt k' d.
Proof.
  unfold get_or at 1. destruct (String.eqb_spec k k') as [<-|Hne].
  - now rewrite getitem_get.
  - now rewrite getitem_get_other.
Qed.

Lemma set_set k v v' d : set k v (set k v' d) = set k v d.
Proof.
  induction d as [|[k0 v0] d IH]; cbn.
  - now rewrite String.eqb_refl.
  - destruct (String.eqb k k0) eqn:E; cbn; rewrite E; congruence.
Qed.

Lemma get_app_l k d d' v : get k d = Some v -> get k (d ++ d') = Some v.
Proof.
  induction d as [|[k0 v0] d IH]; cbn; [discriminate|].
  destruct (String.eqb k k0); auto.
Qed.

Lemma get_app_r k d d' : get k d = None -> get k (d ++ d') = get k d'.
Proof.
  induction d as [|[k0 v0] d IH]; cbn; auto.
  destruct (String.eqb k k0); [discriminate|auto].
Qed.

End MoreDictFacts.

Section Get2Facts.
Context {V : Type}.
Implicit Types (t : dict (dict V)) (s a : string) (v dflt : V).

Lemma get2_getitem2 dflt s a s' a' t v :
  get2 s' a' t = Some v -> get2 s' a' (snd (getitem2 dflt s a t)) = Some v.
Proof.
  unfold get2. rewrite getitem2_snd. intros H.
  destruct (String.eqb_spec s s') as [<-|Hs].
  - rewrite get_set_same. unfold get_or.
    destruct (get s t) as [inner|]; [|discriminate].
    destruct (String.eqb_spec a a') as [<-|Ha].
    + rewrite getitem_get. unfold get_or. now rewrite H.
    + now rewrite getitem_get_other.
  - now rewrite get_set_other, getitem_get_other.
Qed.

Lemma get2_setitem2_same s a v t : get2 s a (setitem2 s a v t) = Some v.
Proof.
  unfold get2. rewrite setitem2_eq, get_set_same. apply get_set_same.
Qed.

Lemma get2_setitem2_other s a s' a' v t x :
  s <> s' \/ a <> a' ->
  get2 s' a' t = Some x -> get2 s' a' (setitem2 s a v t) = Some x.
Proof.
  unfold get2. rewrite setitem2_eq. intros Hne H.
  destruct (String.eqb_spec s s') as [<-|Hs].
  - destruct Hne as [|Ha]; [congruence|].
    rewrite get_set_same, get_set_other by assumption. unfold get_or.
    now destruct (get s t).
  - now rewrite get_set_other, getitem_get_other.
Qed.

Lemma get2_setitem2_some s a s' a' v t :
  get2 s' a' t <> None -> get2 s' a' (setitem2 s a v t) <> None.
Proof.
  intros H. destruct (get2 s' a' t) as [x|] eqn:E; [|congruence].
  destruct (String.eqb_spec s s') as [<-|Hs].
  - destruct (String.eqb_spec a a') as [<-|Ha].
    + now rewrite get2_setitem2_same.
    + rewrite (get2_setitem2_other _ _ _ _ _ _ x) by auto. discriminate.
  - rewrite (get2_setitem2_other _ _ _ _ _ _ x) by auto. discriminate.
Qed.

Lemma get2_getitem2_some dflt s a s' a' t :
  get2 s' a' t <> None -> get2 s' a' (snd (getitem2 dflt s a t)) <> None.
Proof.
  intros H. destruct (get2 s' a' t) as [x|] eqn:E; [|congruence].
  rewrite (get2_getitem2 _ _ _ _ _ _ x E). discriminate.
Qed.

End Get2Facts.

Lemma update_q_value_tables (it : interaction) (e : engine) :
  q_table (update_q_value it e) =
    setitem2 (i_state it) (i_intent it)
      (q_value (i_state it) (i_intent it) (update_q_value it e))
      (snd (getitem2 (Fin 0) (i_state it) (i_intent it) (q_table e))) /\
  exists n c,
    state_action_counts (update_q_value it e) =
    setitem2 (i_state it) (i_intent it) n
      (snd (getitem2 0%nat (i_state it) (i_intent it)
              (snd (getitem2 0%nat (i_state it) (i_intent it) c)))) /\
    c = state_action_counts e.
Proof.
  split.
  - rewrite update_q_value_q_value. cbv zeta.
    rewrite update_q_value_eq, q_learning_update_eq, calculate_reward_snd.
    reflexivity.
  - rewrite update_q_value_eq, q_learning_update_eq, calculate_reward_snd.
    eexists _, _. split; reflexivity.
Qed.

Lemma update_q_value_keeps_entries (it : interaction) (e : engine) s a :
  (get2 s a (q_table e) <> None -> get2 s a (q_table (update_q_value it e)) <> None) /\
  (get2 s a (state_action_counts e) <> None ->
   get2 s a (state_action_counts (update_q_value it e)) <> None).
Proof.
  destruct (update_q_value_tables it e) as [Hq (n & c & Hc & ->)].
  rewrite Hq, Hc. split; intros H.
  - now apply get2_setitem2_some, get2_getitem2_some.
  - now apply get2_setitem2_some, get2_getitem2_some, get2_getitem2_some.
Qed.

Section ApplyFeedbackMore.
Variables (now : clock) (ix : nat) (it : interaction) (rating : Z)
  (user : string) (e : engine) (d : disk).

Let target := with_feedback rating it.
Let e' := fst (apply_feedback now ix it rating user (e, d)).
Let e1 := with_recent_interactions (store ix target (recent_interactions e)) e.

Lemma apply_feedback_success_rates :
  intent_success_rates e' =
  set (i_intent it)
    (get_or [] (i_intent it) (intent_success_rates e) ++ [(3 <=? rating)%Z])
    (snd (getitem [] (i_intent it) (intent_success_rates e))).
Proof.
  unfold e'. open_apply_feedback; fold target; fold e1.
  now destruct (update_q_value_keeps target e1) as (_ & _ & _ & -> & _).
Qed.

Lemma apply_feedback_preferences :
  user_preferences e' =
  let prefs := get_or [] user (user_preferences e) in
  set user
    (set (i_intent it) (get_or [] (i_intent it) prefs ++ [rating]) prefs)
    (snd (getitem [] user (user_preferences e))).
Proof.
  unfold e'. open_apply_feedback; fold target; fold e1.
  now destruct (update_q_value_keeps target e1) as (_ & _ & _ & _ & ->).
Qed.

Lemma apply_feedback_disk :
  snd (apply_feedback now ix it rating user (e, d)) =
  save_feedback
    {| fb_timestamp := isoformat now; fb_command := i_command it;
       fb_intent := i_intent it; fb_rating := rating; fb_user_id := user;
       fb_state := i_state it |} d.
Proof. now rewrite apply_feedback_eq. Qed.

Lemma apply_feedback_keeps_entries s a :
  (get2 s a (q_table e) <> None -> get2 s a (q_table e') <> None) /\
  (get2 s a (state_action_counts e) <> None ->
   get2 s a (state_action_counts e') <> None).
Proof.
  unfold e'. open_apply_feedback; fold target; fold e1.
  exact (update_q_value_keeps_entries target e1 s a).
Qed.

End ApplyFeedbackMore.

Lemma feedbacks_of_save_feedback f d :
  feedbacks_of (save_feedback f d) = feedbacks_of d ++ [f].
Proof. reflexivity. Qed.

(** X4.  [record_feedback] only ever adds.  Whatever its outcome: no visit
    count decreases, no (state, action) entry of the Q-table or of the
    counters disappears, every success history and every list of ratings is
    extended at its end, the feedback file is extended at its end, and the
    interactions file is left alone. *)
Theorem feedback_only_adds (now : clock) (command_or_id : string) (rating : Z)
  (user_id : string) (w : world) :
  let w' := fst (record_feedback now command_or_id rating user_id w) in
  (forall state action,
     (visit_count state action (fst w) <= visit_count state action (fst w'))%nat) /\
  (forall state action,
     (get2 state action (q_table (fst w)) <> None ->
      get2 state action (q_table (fst w')) <> None) /\
     (get2 state action (state_action_counts (fst w)) <> None ->
      get2 state action (state_action_counts (fst w')) <> None)) /\
  (forall intent, exists added,
     get_or [] intent (intent_success_rates (fst w'))
     = get_or [] intent (intent_success_rates (fst w)) ++ added) /\
  (forall user intent, exists added,
     get_or [] intent (get_or [] user (user_preferences (fst w')))
     = get_or [] intent (get_or [] user (user_preferences (fst w))) ++ added) /\
  (exists added, feedbacks_of (snd w') = feedbacks_of (snd w) ++ added) /\
  interactions_file (snd w') = interactions_file (snd w).
Proof.
  cbv zeta. unfold record_feedback.
  assert (Hsame :
    (forall state action,
       (visit_count state action (fst w) <= visit_count state action (fst w))%nat) /\
    (forall state action,
       (get2 state action (q_table (fst w)) <> None ->
        get2 state action (q_table (fst w)) <> None) /\
       (get2 state action (state_action_counts (fst w)) <> None ->
        get2 state action (state_action_counts (fst w)) <> None)) /\
    (forall intent, exists added,
       get_or [] intent (intent_success_rates (fst w))
       = get_or [] intent (intent_success_rates (fst w)) ++ added) /\
    (forall user intent, exists added,
       get_or [] intent (get_or [] user (user_preferences (fst w)))
       = get_or [] intent (get_or [] user (user_preferences (fst w))) ++ added) /\
    (exists added, feedbacks_of (snd w) = feedbacks_of (snd w) ++ added) /\
    interactions_file (snd w) = interactions_file (snd w)).
  { repeat split; auto; try (intros; exists []; now rewrite app_nil_r). }
  destruct (valid_rating rating); cbn [negb fst snd]; auto.
  destruct (find_target _ _) as [[ix it]|]; cbn [fst snd]; auto.
  clear Hsame. destruct w as [e d]. cbn [fst snd].
  split; [|split; [|split; [|split; [|split]]]].
  - intros state action.
    destruct (string_dec (i_state it) state) as [<-|Hs];
      [destruct (string_dec (i_intent it) action) as [<-|Ha]|].
    + rewrite apply_feedback_visit_count. lia.
    + destruct (apply_feedback_other now ix it rating user_id e d (i_state it) action)
        as [_ ->]; auto.
    + destruct (apply_feedback_other now ix it rating user_id e d state action)
        as [_ ->]; auto.
  - intros state action. apply apply_feedback_keeps_entries.
  - intros intent. rewrite apply_feedback_success_rates.
    destruct (String.eqb_spec (i_intent it) intent) as [<-|Hne].
    + rewrite get_or_set_same. eexists. reflexivity.
    + rewrite get_or_set_other, get_or_getitem by assumption.
      exists []. now rewrite app_nil_r.
  - intros user intent. rewrite apply_feedback_preferences. cbv zeta.
    destruct (String.eqb_spec user_id user) as [<-|Hu].
    + rewrite get_or_set_same.
      destruct (String.eqb_spec (i_intent it) intent) as [<-|Hne].
      * rewrite get_or_set_same. eexists. reflexivity.
      * rewrite get_or_set_other by assumption. exists []. now rewrite app_nil_r.
    + rewrite get_or_set_other, get_or_getitem by assumption.
      exists []. now rewrite app_nil_r.
  - rewrite apply_feedback_disk, feedbacks_of_save_feedback. eexists. reflexivity.
  - now rewrite apply_feedback_disk.
Qed.

(** X5.  A feedback that finds its target writes one audit record and one
    rating: the feedback file gains exactly one entry, carrying the command,
    intent and state of the target with the rating and the user; the rating
    goes to the end of that user's list for the target's intent; the lists
    of the other users are untouched, and so are the model file and the
    interactions file. *)
Theorem feedback_writes_one_audit_record (now : clock) (command_or_id : string)
  (rating : Z) (user_id : string) (e : engine) (d : disk)
  (ix : nat) (it : interaction) :
  (1 <= rating <= 5)%Z ->
  find_target command_or_id (recent_interactions e) = Some (ix, it) ->
  let w' := fst (record_feedback now command_or_id rating user_id (e, d)) in
  feedbacks_of (snd w') =
    feedbacks_of d ++
    [{| fb_timestamp := isoformat now; fb_command := i_command it;
        fb_intent := i_intent it; fb_rating := rating; fb_user_id := user_id;
        fb_state := i_state it |}] /\
  get_or [] (i_intent it) (get_or [] user_id (user_preferences (fst w')))
    = get_or [] (i_intent it) (get_or [] user_id (user_preferences e)) ++ [rating] /\
  (forall other, other <> user_id ->
     get_or [] other (user_preferences (fst w')) = get_or [] other (user_preferences e)) /\
  model_file (snd w') = model_file d /\
  interactions_file (snd w') = interactions_file d.
Proof.
  intros Hr Hf. cbv zeta.
  rewrite (record_feedback_found now command_or_id rating user_id (e, d) ix it)
    by (auto; now apply valid_rating_iff).
  cbn [fst]. rewrite apply_feedback_disk, apply_feedback_preferences. cbv zeta.
  split; [reflexivity|]. split; [|split; [|split; reflexivity]].
  - now rewrite !get_or_set_same.
  - intros other Hne. rewrite get_or_set_other by congruence.
    apply get_or_getitem.
Qed.

(** ** The feedback file against the engine *)

Lemma load_feedback_history_eq (e : engine) (d : disk) :
  load_feedback_history (e, d) =
  (List.fold_left replay_feedback (feedbacks_of d) e, d).
Proof.
  unfold load_feedback_history, feedbacks_of.
  now destruct (feedback_file d).
Qed.

Lemma vivify_then_getitem {V : Type} (user : string) (up : dict (dict V)) :
  getitem (V := dict V) [] user
    (if contains user up then up else set user [] up)
  = (get_or [] user up, snd (getitem (V := dict V) [] user up)).
Proof.
  unfold contains, getitem, get_or.
  destruct (get user up) as [prefs|] eqn:E.
  - now rewrite E.
  - now rewrite get_set_same.
Qed.

Lemma set_after_default {V : Type} (intent : string) (x : list V)
  (prefs : dict (list V)) :
  let prefs' := if contains intent prefs then prefs else set intent [] prefs in
  set intent (get_or [] intent prefs' ++ x) prefs'
  = set intent (get_or [] intent prefs ++ x) prefs.
Proof.
  cbv zeta. unfold contains.
  destruct (get intent prefs) as [l|] eqn:E; auto.
  rewrite get_or_set_same, set_set. unfold get_or. now rewrite E.
Qed.

Lemma replay_feedback_tables (e : engine) (f : feedback_entry) :
  intent_success_rates (replay_feedback e f) =
    set (fb_intent f)
      (get_or [] (fb_intent f) (intent_success_rates e) ++ [(3 <=? fb_rating f)%Z])
      (snd (getitem [] (fb_intent f) (intent_success_rates e))) /\
  user_preferences (replay_feedback e f) =
    (let prefs := get_or [] (fb_user_id f) (user_preferences e) in
     set (fb_user_id f)
       (set (fb_intent f) (get_or [] (fb_intent f) prefs ++ [fb_rating f]) prefs)
       (snd (getitem [] (fb_user_id f) (user_preferences e)))) /\
  q_table (replay_feedback e f) = q_table e /\
  state_action_counts (replay_feedback e f) = state_action_counts e.
Proof.
  unfold replay_feedback.
  rewrite (surjective_pairing (getitem [] (fb_intent f) _)).
  cbn [user_preferences with_intent_success_rates].
  rewrite vivify_then_getitem.
  cbn [intent_success_rates user_preferences q_table state_action_counts
       with_user_preferences with_intent_success_rates].
  rewrite getitem_fst. repeat split.
  cbv zeta. now rewrite set_after_default.
Qed.

Lemma session_replay_agrees w : session w -> replay_agrees w.
Proof.
  induction 1 as [lr eps | now base rnd command e d _ IH
                 | now command intent result user_id [e d] _ IH
                 | now c rating user_id w _ IH
                 | [e d] _ IH].
  - intros e0 Hi Hu. cbn. auto.
  - unfold get_enhanced_intent.
    rewrite (surjective_pairing (rl_candidate _ _ _ _)). cbn [snd].
    now rewrite rl_candidate_frame.
  - exact IH.
  - unfold record_feedback. destruct (valid_rating rating); cbn [negb fst]; auto.
    destruct (find_target _ _) as [[ix it]|]; cbn [fst]; auto.
    destruct w as [e d]. intros e0 Hi Hu.
    destruct (IH e0 Hi Hu) as [IHi IHu]. cbn [fst snd] in IHi, IHu.
    cbn [fst snd].
    rewrite apply_feedback_disk, feedbacks_of_save_feedback, fold_left_app.
    cbn [List.fold_left].
    destruct (replay_feedback_tables
                (List.fold_left replay_feedback (feedbacks_of d) e0)
                {| fb_timestamp := isoformat now; fb_command := i_command it;
                   fb_intent := i_intent it; fb_rating := rating;
                   fb_user_id := user_id; fb_state := i_state it |})
      as (-> & -> & _).
    cbn [fb_intent fb_rating fb_user_id].
    rewrite IHi, IHu, apply_feedback_success_rates, apply_feedback_preferences.
    split; reflexivity.
  - exact IH.
Qed.

(** X6.  Within one process started without files, the feedback file is a
    faithful journal of the success histories and of the user preferences:
    replaying it with [load_feedback_history] into a fresh engine rebuilds
    exactly the [intent_success_rates] and [user_preferences] the running
    engine holds, key for key and in the same order. *)
Theorem feedback_history_replay (w : world) (lr eps : pyfloat) :
  session w ->
  let replayed := fst (load_feedback_history (fresh_engine lr eps, snd w)) in
  intent_success_rates replayed = intent_success_rates (fst w) /\
  user_preferences replayed = user_preferences (fst w).
Proof.
  intros Hs. cbv zeta. rewrite load_feedback_history_eq. cbn [fst].
  now apply (session_replay_agrees w Hs).
Qed.

Lemma count_feedback_save f d state intent :
  count_feedback state intent (save_feedback f d) =
  (count_feedback state intent d +
   if String.eqb (fb_state f) state && String.eqb (fb_intent f) intent
   then 1 else 0)%nat.
Proof.
  unfold count_feedback. rewrite feedbacks_of_save_feedback, filter_app, length_app.
  cbn [List.filter]. now destruct (_ && _).
Qed.

Lemma session_visit_counts w :
  session w ->
  forall state action,
    visit_count state action (fst w) = count_feedback state action (snd w).
Proof.
  induction 1 as [lr eps | now base rnd command e d _ IH
                 | now command intent result user_id [e d] _ IH
                 | now c rating user_id w _ IH
                 | [e d] _ IH]; intros state action.
  - reflexivity.
  - unfold get_enhanced_intent.
    rewrite (surjective_pairing (rl_candidate _ _ _ _)). cbn [snd].
    rewrite rl_candidate_frame. apply IH.
  - apply IH.
  - unfold record_feedback. destruct (valid_rating rating); cbn [negb fst]; auto.
    destruct (find_target _ _) as [[ix it]|]; cbn [fst]; auto.
    destruct w as [e d]. cbn [fst snd] in *.
    rewrite apply_feedback_disk, count_feedback_save. cbn [fb_state fb_intent].
    destruct (String.eqb_spec (i_state it) state) as [<-|Hs];
      [destruct (String.eqb_spec (i_intent it) action) as [<-|Ha]|]; cbn [andb].
    + rewrite apply_feedback_visit_count. now rewrite IH.
    + destruct (apply_feedback_other now ix it rating user_id e d (i_state it) action)
        as [_ ->]; auto. rewrite IH. lia.
    + destruct (apply_feedback_other now ix it rating user_id e d state action)
        as [_ ->]; auto. rewrite IH. lia.
  - apply IH.
Qed.

(** X7.  Within one process started without files, the visit count of a
    (state, action) pair is the number of entries of the feedback file
    recorded for that state and that intent. *)
Theorem visit_count_counts_feedback (e : engine) (d : disk) (state action : string) :
  session (e, d) ->
  visit_count state action e = count_feedback state action d.
Proof. intros Hs. exact (session_visit_counts (e, d) Hs state action). Qed.

(** ** The recency buffer and the interactions file *)

Lemma maxlen_pos : (1 <= maxlen)%nat.
Proof. unfold maxlen. lia. Qed.

Lemma last_n_short {A : Type} (n : nat) (l : list A) :
  (List.length l <= n)%nat -> last_n n l = l.
Proof.
  intros H. unfold last_n. now replace (List.length l - n)%nat with 0%nat by lia.
Qed.

Lemma last_n_length {A : Type} (n : nat) (l : list A) :
  (List.length (last_n n l) <= n)%nat.
Proof. unfold last_n. rewrite length_skipn. lia. Qed.

Lemma last_n_app_last_n {A : Type} (n : nat) (a b : list A) :
  last_n n (last_n n a ++ b) = last_n n (a ++ b).
Proof.
  destruct (Nat.le_gt_cases (List.length a) n) as [Hle|Hgt].
  - now rewrite (last_n_short n a Hle).
  - unfold last_n. rewrite !length_app, length_skipn.
    replace (List.length a - (List.length a - n) + List.length b - n)%nat
      with (List.length b) by lia.
    replace (List.length a + List.length b - n)%nat
      with (List.length b + (List.length a - n))%nat by lia.
    rewrite <- skipn_skipn. f_equal.
    rewrite skipn_app.
    replace (List.length a - n - List.length a)%nat with 0%nat by lia.
    reflexivity.
Qed.

Lemma deque_append_last_n {A : Type} (x : A) (l : list A) :
  (List.length l <= maxlen)%nat ->
  deque_append x l = last_n maxlen (l ++ [x]).
Proof.
  intros Hlen. unfold deque_append, last_n. rewrite length_app. cbn [List.length].
  pose proof maxlen_pos as Hpos. revert Hlen Hpos. generalize maxlen. intros m Hlen Hpos.
  destruct (m <=? List.length l)%nat eqn:E.
  - apply Nat.leb_le in E.
    replace (List.length l + 1 - m)%nat with 1%nat by lia.
    destruct l as [|y l]; [cbn in E; lia|reflexivity].
  - apply Nat.leb_gt in E.
    now replace (List.length l + 1 - m)%nat with 0%nat by lia.
Qed.

Lemma deque_append_length {A : Type} (x : A) (l : list A) :
  (List.length l <= maxlen)%nat ->
  (List.length (deque_append x l) <= maxlen)%nat.
Proof.
  intros H. rewrite deque_append_last_n by assumption. apply last_n_length.
Qed.

Lemma log_interaction_eq now command intent result user_id e d :
  log_interaction now command intent result user_id (e, d) =
  (with_recent_interactions
     (deque_append (logged_entry now command intent result user_id)
        (recent_interactions e)) e,
   save_interaction (logged_entry now command intent result user_id) d).
Proof. reflexivity. Qed.

Lemma log_all_cons r requests w :
  log_all (r :: requests) w =
  log_all requests
    (log_interaction (lr_now r) (lr_command r) (lr_intent r) (lr_result r)
       (lr_user_id r) w).
Proof. reflexivity. Qed.

Lemma log_all_buffer (requests : list log_request) (w : world) :
  (List.length (recent_interactions (fst w)) <= maxlen)%nat ->
  recent_interactions (fst (log_all requests w)) =
    last_n maxlen (recent_interactions (fst w) ++ List.map entry_of requests) /\
  interactions_file (snd (log_all requests w)) =
    interactions_file (snd w) ++ List.map entry_of requests /\
  same_model (fst w) (fst (log_all requests w)) /\
  feedback_file (snd (log_all requests w)) = feedback_file (snd w) /\
  model_file (snd (log_all requests w)) = model_file (snd w).
Proof.
  revert w. induction requests as [|r requests IH]; intros [e d] Hlen.
  - cbn [log_all List.fold_left List.map fst snd]. rewrite !app_nil_r.
    rewrite last_n_short by assumption. unfold same_model. tauto.
  - rewrite log_all_cons, log_interaction_eq. cbn [List.map].
    match goal with |- context [log_all requests ?w1] => specialize (IH w1) end.
    cbn [fst snd recent_interactions with_recent_interactions] in IH.
    destruct IH as (Hb & Hf & Hm & Hff & Hmf);
      [now apply deque_append_length|].
    fold (entry_of r) in *.
    split; [|split; [|split; [|split]]].
    + rewrite Hb, deque_append_last_n, last_n_app_last_n by assumption.
      now rewrite <- app_assoc.
    + rewrite Hf. cbn [interactions_file save_interaction].
      now rewrite <- app_assoc.
    + exact Hm.
    + now rewrite Hff.
    + now rewrite Hmf.
Qed.

(** X8.  The buffer holds the most recent 1000 interactions.  After a run
    of logged decisions the buffer is the last 1000 entries of what it held
    followed by the new entries, oldest first, and the interactions file is
    what it was followed by all the new entries; the model is not touched. *)
Theorem buffer_holds_the_last_1000 (requests : list log_request) (w : world) :
  (List.length (recent_interactions (fst w)) <= 1000)%nat ->
  recent_interactions (fst (log_all requests w)) =
    last_n 1000 (recent_interactions (fst w) ++ List.map entry_of requests) /\
  interactions_file (snd (log_all requests w)) =
    interactions_file (snd w) ++ List.map entry_of requests /\
  same_model (fst w) (fst (log_all requests w)).
Proof.
  intros Hlen.
  destruct (log_all_buffer requests w Hlen) as (Hb & Hf & Hm & _).
  repeat split; try apply Hm; assumption.
Qed.

Lemma matches_entry_of c r :
  matches c (entry_of r) = String.eqb (lr_command r) c.
Proof. unfold matches. cbn. apply orb_false_r. Qed.

(** X9.  A feedback that comes after 1000 newer interactions is turned
    down: once 1000 or more decisions on other commands have been logged,
    [record_feedback] on a command finds nothing ("No interaction found")
    and changes nothing, whatever the buffer held before. *)
Theorem late_feedback_is_not_found (now : clock) (command : string) (rating : Z)
  (user_id : string) (requests : list log_request) (w : world) :
  (List.length (recent_interactions (fst w)) <= 1000)%nat ->
  (1000 <= List.length requests)%nat ->
  List.forallb (fun r => negb (String.eqb (lr_command r) command)) requests = true ->
  (1 <= rating <= 5)%Z ->
  record_feedback now command rating user_id (log_all requests w)
  = (log_all requests w, No_interaction_found).
Proof.
  intros Hlen Hmany Hother Hr.
  apply record_feedback_not_found; [now apply valid_rating_iff|].
  apply find_target_none. intros it Hin.
  destruct (log_all_buffer requests w Hlen) as (Hb & _).
  rewrite Hb in Hin. unfold last_n in Hin.
  rewrite skipn_app in Hin. apply in_app_or in Hin as [Hin|Hin].
  - rewrite skipn_all2 in Hin; [destruct Hin|].
    rewrite length_app, length_map. unfold maxlen. lia.
  - assert (Hin' : In it (List.map entry_of requests)).
    { revert Hin. generalize (List.map entry_of requests).
      intros l. generalize ((List.length (recent_interactions (fst w) ++ l) - maxlen -
                       List.length (recent_interactions (fst w)))%nat).
      intros n. revert l. induction n as [|n IHn]; intros [|x l]; cbn; auto. }
    apply in_map_iff in Hin' as (r & <- & Hr').
    rewrite forallb_forall in Hother. specialize (Hother r Hr').
    rewrite matches_entry_of. now apply negb_true_iff.
Qed.

Lemma store_length {A : Type} ix (x : A) l :
  List.length (store ix x l) = List.length l.
Proof.
  revert ix. induction l as [|y l IH]; intros [|ix]; cbn; auto.
Qed.

Lemma without_feedback_with_feedback rating it :
  without_feedback (with_feedback rating it) = without_feedback it.
Proof. reflexivity. Qed.

Lemma map_store_same {A B : Type} (f : A -> B) ix (x y : A) (l : list A) :
  nth_error l ix = Some y -> f x = f y ->
  List.map f (store ix x l) = List.map f l.
Proof.
  revert ix. induction l as [|z l IH]; intros [|ix]; cbn; try discriminate.
  - intros [= ->] ->. reflexivity.
  - intros Hn Hf. now rewrite IH.
Qed.

Lemma replay_feedback_recent e f :
  recent_interactions (replay_feedback e f) = recent_interactions e.
Proof.
  unfold replay_feedback.
  rewrite (surjective_pairing (getitem [] (fb_intent f) _)).
  rewrite (surjective_pairing (getitem [] (fb_user_id f) _)).
  reflexivity.
Qed.

Lemma init_recent lr eps d :
  recent_interactions (fst (init lr eps d)) = [] /\ snd (init lr eps d) = d.
Proof.
  unfold init. rewrite load_feedback_history_eq.
  assert (H : recent_interactions
                (List.fold_left replay_feedback (feedbacks_of d) (fresh_engine lr eps))
              = []).
  { generalize (fresh_engine lr eps) (eq_refl : recent_interactions (fresh_engine lr eps) = []).
    induction (feedbacks_of d) as [|f l IH]; intros e He; cbn [List.fold_left]; auto.
    apply IH. now rewrite replay_feedback_recent. }
  unfold load_model. destruct (model_file d); cbn [fst snd recent_interactions]; auto.
Qed.

Lemma load_model_recent w :
  recent_interactions (fst (load_model w)) = recent_interactions (fst w) /\
  snd (load_model w) = snd w.
Proof.
  destruct w as [e d]. unfold load_model. now destruct (model_file d).
Qed.

Lemma record_feedback_buffer_and_file now c rating user_id w :
  interactions_file (snd (fst (record_feedback now c rating user_id w)))
  = interactions_file (snd w) /\
  (recent_interactions (fst (fst (record_feedback now c rating user_id w)))
   = recent_interactions (fst w) \/
   exists ix it,
     nth_error (recent_interactions (fst w)) ix = Some it /\
     recent_interactions (fst (fst (record_feedback now c rating user_id w)))
     = store ix (with_feedback rating it) (recent_interactions (fst w))).
Proof.
  unfold record_feedback. destruct (valid_rating rating); cbn [negb fst]; auto.
  destruct (find_target _ _) as [[ix it]|] eqn:Hf; cbn [fst]; auto.
  destruct w as [e d]. cbn [fst snd] in *.
  rewrite apply_feedback_disk, apply_feedback_recent. split; [reflexivity|].
  right. exists ix, it. split; [|reflexivity].
  now apply find_target_some in Hf.
Qed.

(** What the buffer holds is in the interactions file, as it was logged. *)
Lemma reachable_buffer w :
  reachable w ->
  (List.length (recent_interactions (fst w)) <= maxlen)%nat /\
  exists older,
    interactions_file (snd w) =
    older ++ List.map without_feedback (recent_interactions (fst w)).
Proof.
  induction 1 as [lr eps | now base rnd command e d _ IH
                 | now command intent result user_id [e d] _ IH
                 | now c rating user_id w _ IH
                 | [e d] _ IH | w _ IH | lr eps w _ IH].
  - split; [cbn; lia|]. exists []. reflexivity.
  - unfold get_enhanced_intent.
    rewrite (surjective_pairing (rl_candidate _ _ _ _)). cbn [snd].
    now rewrite rl_candidate_frame.
  - destruct IH as [Hlen [older Hfile]]. cbn [fst snd] in *.
    rewrite log_interaction_eq.
    cbn [fst snd recent_interactions with_recent_interactions interactions_file
         save_interaction].
    split; [now apply deque_append_length|].
    rewrite Hfile. unfold deque_append.
    destruct (maxlen <=? List.length (recent_interactions e))%nat.
    + destruct (recent_interactions e) as [|x l]; cbn [List.tl List.map app].
      * exists older. now rewrite app_nil_r.
      * exists (older ++ [without_feedback x]).
        rewrite map_app, <- !app_assoc. reflexivity.
    + exists older. rewrite map_app, <- app_assoc. reflexivity.
  - destruct IH as [Hlen [older Hfile]].
    destruct (record_feedback_buffer_and_file now c rating user_id w) as [Hint Hrec].
    rewrite Hint. destruct Hrec as [Hrec|(ix & it & Hn & Hrec)].
    + rewrite Hrec. eauto.
    + rewrite Hrec. split.
      * now rewrite store_length.
      * exists older. rewrite Hfile. f_equal. symmetry.
        now apply map_store_same with (y := it).
  - exact IH.
  - destruct (load_model_recent w) as [-> ->]. exact IH.
  - destruct (init_recent lr eps (snd w)) as [-> ->].
    split; [cbn; lia|]. exists (interactions_file (snd w)). now rewrite app_nil_r.
Qed.

(** X10.  In every world the program can reach, the buffer holds at most
    1000 interactions (so [total_interactions] of the metrics is at most
    1000), and each of them is in the interactions file exactly as it was
    logged: the file ends with the buffer's entries, in order, with outcome
    and score unset. *)
Theorem buffer_is_bounded_and_logged (w : world) :
  reachable w ->
  (total_interactions (get_performance_metrics (fst w)) <= 1000)%nat /\
  exists older,
    interactions_file (snd w) =
    older ++ List.map without_feedback (recent_interactions (fst w)).
Proof. intros H. exact (reachable_buffer w H). Qed.

(** ** Loading a table that holds states without actions *)

Section RefillAny.
Context {V : Type}.
Implicit Types (t acc saved : dict (dict V)) (s a : string) (dflt : V).

Lemma get_filter_absent (f : string * dict V -> bool) s t :
  contains s t = false -> get s (List.filter f t) = None.
Proof.
  unfold contains. induction t as [|[k x] t IH]; cbn; auto.
  destruct (String.eqb s k) eqn:E; [discriminate|].
  intros H. destruct (f (k, x)); cbn; [rewrite E|]; auto.
Qed.

Lemma contains_false_get s t : contains s t = false <-> get s t = None.
Proof. unfold contains. destruct (get s t); split; congruence. Qed.

Lemma refill2_filter saved acc :
  dict2 saved = true ->
  (forall s, contains s saved = true -> get s acc = None) ->
  List.fold_left
    (fun t '(state, actions) =>
       List.fold_left (fun t '(action, value) => setitem2 state action value t)
         actions t)
    saved acc
  = acc ++ List.filter has_actions saved.
Proof.
  revert acc. induction saved as [|[s actions] saved IH]; intros acc Hd Hacc.
  - cbn. now rewrite app_nil_r.
  - apply andb_prop in Hd as [Hw Hin]. cbn [wf List.forallb] in Hw, Hin.
    apply andb_prop in Hw as [Hs Hw]. apply andb_prop in Hin as [Ha Hin].
    apply negb_true_iff in Hs.
    assert (Hsacc : get s acc = None).
    { apply Hacc. unfold contains. cbn. now rewrite String.eqb_refl. }
    assert (Hrest : dict2 saved = true) by (unfold dict2; now rewrite Hw, Hin).
    cbn [List.fold_left List.filter].
    destruct actions as [|[a v] actions].
    + cbn [List.fold_left has_actions snd List.length Nat.eqb negb].
      apply IH; auto. intros s' Hs'. apply Hacc.
      unfold contains in *. cbn. now destruct (String.eqb s' s).
    + cbn [List.fold_left]. rewrite (setitem2_absent _ _ _ _ Hsacc).
      rewrite (refill_actions s acc [(a, v)] actions Hsacc Ha).
      cbn [app has_actions snd List.length Nat.eqb negb].
      rewrite IH; auto.
      * now rewrite <- app_assoc.
      * intros s' Hs'. rewrite get_app_r.
        -- cbn. destruct (String.eqb_spec s' s) as [->|]; [congruence|reflexivity].
        -- apply Hacc. unfold contains in *. cbn. now destruct (String.eqb s' s).
Qed.

Lemma lookup2_filter dflt s a t :
  wf t = true ->
  lookup2 dflt s a (List.filter has_actions t) = lookup2 dflt s a t.
Proof.
  unfold lookup2. induction t as [|[k inner] t IH]; auto.
  cbn [wf]. intros [Hk Hw]%andb_prop. apply negb_true_iff in Hk.
  cbn [List.filter]. unfold has_actions at 1. cbn [snd].
  destruct inner as [|p inner]; cbn [List.length Nat.eqb negb].
  - unfold get_or at 2 4. cbn [get].
    destruct (String.eqb_spec s k) as [->|Hne].
    + now rewrite (get_filter_absent _ _ _ Hk).
    + apply (IH Hw).
  - unfold get_or at 2 4. cbn [get].
    destruct (String.eqb s k); auto.
Qed.

End RefillAny.

(** X11.  Saving and loading a model whose tables hold states without any
    action (as a foreign snapshot may) drops exactly those states and keeps
    everything else in order; every Q-value and every visit count read with
    its default is the same after the reload as before the save. *)
Theorem load_drops_only_empty_states (e e0 : engine) (d : disk) :
  dict2 (q_table e) = true ->
  dict2 (state_action_counts e) = true ->
  let e' := fst (load_model (e0, snd (save_model (e, d)))) in
  q_table e' = List.filter has_actions (q_table e) /\
  state_action_counts e' = List.filter has_actions (state_action_counts e) /\
  (forall state action,
     q_value state action e' = q_value state action e /\
     visit_count state action e' = visit_count state action e).
Proof.
  intros Hq Hc. cbv zeta. unfold load_model, save_model.
  cbn [fst snd model_file from_option md_q_table md_state_action_counts
       q_table state_action_counts].
  unfold refill2. rewrite !refill2_filter by (auto; intros; reflexivity).
  cbn [app]. split; [reflexivity|]. split; [reflexivity|].
  intros state action. unfold q_value, visit_count.
  cbn [q_table state_action_counts].
  apply andb_prop in Hq as [Hq _]. apply andb_prop in Hc as [Hc _].
  now rewrite !lookup2_filter.
Qed.

(** ** Exploration decay *)

Lemma py_max_Fin (a b : Q) :
  exists z, py_max (Fin a) (Fin b) = Fin z /\ z == Qmax a b.
Proof.
  unfold py_max, fgt. cbn [flt].
  destruct (Qltb a b) eqn:E.
  - exists b. split; auto. apply Qltb_lt in E.
    destruct (Q.max_spec a b) as [[_ H]|[H _]]; [now symmetry | lra].
  - exists a. split; auto. apply Qltb_ge in E.
    destruct (Q.max_spec a b) as [[H _]|[_ H]]; [lra | now symmetry].
Qed.

Lemma pow_in_unit (r : Q) (n : nat) :
  0 <= r -> r <= 1 -> 0 <= r ^ Z.of_nat n /\ r ^ Z.of_nat n <= 1.
Proof.
  intros H0 H1. induction n as [|n [IH0 IH1]].
  - cbn. lra.
  - rewrite Nat2Z.inj_succ, <- Z.add_1_r, Qpower_plus' by lia.
    rewrite Qpower_1_r. split; nra.
Qed.

Lemma Qmax_decay_step (m y x r : Q) :
  0 <= m -> 0 <= r -> r <= 1 ->
  x == Qmax m y -> Qmax m (x * r) == Qmax m (y * r).
Proof.
  intros Hm Hr0 Hr1 Hx.
  destruct (Q.max_spec m y) as [[H1 E1]|[H1 E1]];
  destruct (Q.max_spec m (x * r)) as [[H2 E2]|[H2 E2]];
  destruct (Q.max_spec m (y * r)) as [[H3 E3]|[H3 E3]];
  rewrite E2, E3; rewrite E1 in Hx; rewrite Hx in *; try lra; nra.
Qed.

Lemma repeat_decay_closed_form (eps0 r m : Q) (e : engine) (n : nat) :
  epsilon e = Fin eps0 -> 0 <= r -> r <= 1 -> 0 <= m ->
  exists x,
    epsilon (repeat_decay (S n) (Fin r) (Fin m) e) = Fin x /\
    x == Qmax m (eps0 * r ^ Z.of_nat (S n)).
Proof.
  intros He Hr0 Hr1 Hm. induction n as [|n (x & Hx & Hc)].
  - change (repeat_decay 1 (Fin r) (Fin m) e)
      with (decay_exploration (Fin r) (Fin m) e).
    unfold decay_exploration. cbn [epsilon with_epsilon].
    rewrite He. cbn [fmul lift2].
    destruct (py_max_Fin m (eps0 * r)) as (z & -> & Hz).
    exists z. split; [reflexivity | exact Hz].
  - change (repeat_decay (S (S n)) (Fin r) (Fin m) e)
      with (decay_exploration (Fin r) (Fin m) (repeat_decay (S n) (Fin r) (Fin m) e)).
    unfold decay_exploration at 1. cbn [epsilon with_epsilon]. rewrite Hx.
    cbn [fmul lift2].
    destruct (py_max_Fin m (x * r)) as (z & -> & Hz).
    exists z. split; [reflexivity|]. rewrite Hz.
    rewrite (Qmax_decay_step m (eps0 * r ^ Z.of_nat (S n)) x r) by assumption.
    rewrite (Nat2Z.inj_succ (S n)), <- Z.add_1_r, Qpower_plus' by lia.
    rewrite Qpower_1_r.
    assert (E : eps0 * r ^ Z.of_nat (S n) * r == eps0 * (r ^ Z.of_nat (S n) * r))
      by ring.
    now rewrite E.
Qed.

Lemma repeat_decay_keeps n decay_rate min_epsilon e :
  same_model (with_epsilon (epsilon (repeat_decay n decay_rate min_epsilon e)) e)
    (repeat_decay n decay_rate min_epsilon e) /\
  recent_interactions (repeat_decay n decay_rate min_epsilon e) = recent_interactions e.
Proof.
  induction n as [|n [(Hl & He & Hq & Hc & Hi & Hu) Hr]].
  - unfold same_model. cbn. tauto.
  - change (repeat_decay (S n) decay_rate min_epsilon e)
      with (decay_exploration decay_rate min_epsilon
              (repeat_decay n decay_rate min_epsilon e)).
    unfold decay_exploration, same_model.
    cbn [learning_rate epsilon q_table state_action_counts intent_success_rates
         user_preferences recent_interactions with_epsilon] in *.
    tauto.
Qed.

(** X12.  [decay_exploration] with a rate [r] in [[0, 1]] and a floor
    [m >= 0], applied [n >= 1] times to an exploration rate [eps0], leaves
    [max m (eps0 * r^n)]: the rate decays geometrically until it meets the
    floor and then stays there.  It is never below the floor, never above
    the larger of the floor and the starting rate, and nothing else in the
    engine changes. *)
Theorem decay_exploration_closed_form (eps0 r m : Q) (e : engine) (n : nat) :
  epsilon e = Fin eps0 -> 0 <= r -> r <= 1 -> 0 <= m -> (1 <= n)%nat ->
  exists x,
    epsilon (repeat_decay n (Fin r) (Fin m) e) = Fin x /\
    x == Qmax m (eps0 * r ^ Z.of_nat n) /\
    m <= x /\ x <= Qmax m eps0 /\
    q_table (repeat_decay n (Fin r) (Fin m) e) = q_table e /\
    state_action_counts (repeat_decay n (Fin r) (Fin m) e) = state_action_counts e /\
    learning_rate (repeat_decay n (Fin r) (Fin m) e) = learning_rate e.
Proof.
  intros He Hr0 Hr1 Hm Hn. destruct n as [|n]; [lia|].
  destruct (repeat_decay_closed_form eps0 r m e n He Hr0 Hr1 Hm) as (x & Hx & Hc).
  destruct (repeat_decay_keeps (S n) (Fin r) (Fin m) e)
    as [(Hl & _ & Hq & Hcn & _) _].
  cbn [learning_rate q_table state_action_counts with_epsilon] in Hl, Hq, Hcn.
  exists x. repeat split; auto.
  - rewrite Hc. apply Q.le_max_l.
  - rewrite Hc. destruct (pow_in_unit r (S n) Hr0 Hr1) as [Hp0 Hp1].
    destruct (Q.max_spec m (eps0 * r ^ Z.of_nat (S n))) as [[_ ->]|[_ ->]];
    destruct (Q.max_spec m eps0) as [[H1 ->]|[H1 ->]]; try lra; nra.
Qed.

(** ** Metrics *)

Lemma contains_false_iff {V : Type} (k : string) (d : dict V) :
  contains k d = false <-> get k d = None.
Proof. unfold contains. destruct (get k d); split; congruence. Qed.

Section FoldSet.
Context {V W : Type}.
Variable f : V -> option W.
Variable step : dict W -> string * V -> dict W.
Hypothesis step_spec :
  forall acc k v,
    step acc (k, v) = match f v with Some w => set k w acc | None => acc end.

(** A loop that writes [f v] under the key of each item of a dictionary. *)
Lemma fold_set_get (d : dict V) (acc : dict W) (k : string) :
  wf d = true ->
  get k (List.fold_left step d acc) =
  match get k d with
  | Some v => match f v with Some w => Some w | None => get k acc end
  | None => get k acc
  end.
Proof.
  revert acc. induction d as [|[k0 v0] d IH]; intros acc Hwf; auto.
  cbn [wf] in Hwf. apply andb_prop in Hwf as [Hk0 Hwf].
  apply negb_true_iff, contains_false_iff in Hk0.
  cbn [List.fold_left get]. rewrite (IH _ Hwf), step_spec.
  destruct (String.eqb_spec k k0) as [->|Hne].
  - rewrite Hk0. destruct (f v0); auto. apply get_set_same.
  - destruct (f v0); auto. now rewrite get_set_other by congruence.
Qed.

End FoldSet.

Lemma count_true_le (l : list bool) : (count_true l <= List.length l)%nat.
Proof. apply filter_length_le. Qed.

Lemma np_mean_zero_one (l : list bool) : l <> [] -> in_zero_one (np_mean l).
Proof.
  destruct l as [|b l]; [congruence|]. intros _.
  unfold np_mean, in_zero_one.
  pose proof (count_true_le (b :: l)) as Hle.
  set (c := count_true (b :: l)) in *. set (n := List.length (b :: l)) in *.
  assert (Hn : 0 < inject_Z (Z.of_nat n)).
  { change 0 with (inject_Z 0). rewrite <- Zlt_Qlt. subst n. cbn [List.length]. lia. }
  split.
  - apply Qle_shift_div_l; auto. rewrite Qmult_0_l.
    change 0 with (inject_Z 0). rewrite <- Zle_Qle. lia.
  - apply Qle_shift_div_r; auto. rewrite Qmult_1_l. rewrite <- Zle_Qle. lia.
Qed.

Lemma last_n_not_nil {A : Type} (n : nat) (l : list A) :
  (1 <= n)%nat -> l <> [] -> last_n n l <> [].
Proof.
  intros Hn Hl H. apply (f_equal (@List.length A)) in H.
  unfold last_n in H. rewrite length_skipn in H. cbn in H.
  destruct l; [congruence|]. cbn [List.length] in H. lia.
Qed.

Lemma recent_success_rate_eq (rates : list bool) :
  recent_success_rate (stats_of rates) = np_mean (last_n 10 rates).
Proof.
  unfold stats_of. cbn [recent_success_rate].
  destruct (10 <=? List.length rates)%nat eqn:E; auto.
  apply Nat.leb_gt in E. rewrite last_n_short; auto. lia.
Qed.

Lemma intent_performance_get (e : engine) (intent : string) :
  wf (intent_success_rates e) = true ->
  get intent (intent_performance (get_performance_metrics e)) =
  match get intent (intent_success_rates e) with
  | Some (b :: l) => Some (stats_of (b :: l))
  | _ => None
  end.
Proof.
  intros Hwf. unfold get_performance_metrics. cbn [intent_performance].
  rewrite (fold_set_get
             (fun rates => match rates with
                           | _ :: _ => Some (stats_of rates)
                           | [] => None
                           end)); auto.
  - destruct (get intent (intent_success_rates e)) as [[|b l]|]; reflexivity.
  - intros acc k [|b l]; reflexivity.
Qed.

(** X13.  The metrics report, for each intent with at least one recorded
    outcome, the number of outcomes, their mean and the mean of the last 10
    (of all of them when there are fewer), both in [[0, 1]]; the latter is
    the success rate the reward model uses for its bonus.  Intents without
    outcomes are not reported. *)
Theorem metrics_report_success_rates (e : engine) (intent : string) :
  wf (intent_success_rates e) = true ->
  let performance := intent_performance (get_performance_metrics e) in
  match get intent (intent_success_rates e) with
  | Some (b :: l) =>
      exists s,
        get intent performance = Some s /\
        total_attempts s = List.length (b :: l) /\
        success_rate s = np_mean (b :: l) /\
        recent_success_rate s = np_mean (last_n 10 (b :: l)) /\
        in_zero_one (success_rate s) /\ in_zero_one (recent_success_rate s)
  | _ => get intent performance = None
  end.
Proof.
  intros Hwf. cbv zeta. rewrite (intent_performance_get e intent Hwf).
  destruct (get intent (intent_success_rates e)) as [[|b l]|]; auto.
  exists (stats_of (b :: l)). split; [reflexivity|]. split; [reflexivity|].
  split; [reflexivity|]. split; [apply recent_success_rate_eq|]. split.
  - apply np_mean_zero_one. discriminate.
  - rewrite recent_success_rate_eq. apply np_mean_zero_one.
    apply last_n_not_nil; [lia | discriminate].
Qed.

(** ** The action the Q-table proposes *)

Lemma max_by_value_snoc first rest p :
  max_by_value first (rest ++ [p]) =
  if fgt (snd p) (snd (max_by_value first rest)) then p
  else max_by_value first rest.
Proof. unfold max_by_value. now rewrite fold_left_app. Qed.

Lemma finite_values_snoc l p :
  finite_values (l ++ [p]) ->
  finite_values l /\ exists b y, p = (b, Fin y).
Proof.
  intros H. split.
  - intros a v Hin. apply (H a v), in_or_app. now left.
  - destruct p as [b v]. destruct (H b v) as [y ->]; eauto.
    apply in_or_app. right. now left.
Qed.

(** [max] returns the first of the items of greatest value. *)
Lemma max_by_value_first_max first rest :
  finite_values (first :: rest) ->
  exists l1 l2 a x,
    first :: rest = l1 ++ (a, Fin x) :: l2 /\
    max_by_value first rest = (a, Fin x) /\
    (forall b y, In (b, Fin y) l1 -> y < x) /\
    (forall b y, In (b, Fin y) l2 -> y <= x).
Proof.
  induction rest as [|p rest IH] using rev_ind; intros Hfin.
  - destruct first as [a v]. destruct (Hfin a v) as [x ->]; [now left|].
    exists [], [], a, x. repeat split; intros b y [].
  - change (first :: rest ++ [p]) with ((first :: rest) ++ [p]) in *.
    apply finite_values_snoc in Hfin as [Hfin (b & y & ->)].
    destruct (IH Hfin) as (l1 & l2 & a & x & Heq & Hmax & H1 & H2).
    rewrite max_by_value_snoc, Hmax. cbn [snd].
    destruct (fgt (Fin y) (Fin x)) eqn:E.
    + apply fgt_Fin in E.
      exists (first :: rest), [], b, y. repeat split; [|intros ? ? []].
      intros b' y' Hin. rewrite Heq in Hin.
      apply in_app_or in Hin as [Hin|[[= -> ->]|Hin]].
      * specialize (H1 _ _ Hin). lra.
      * exact E.
      * specialize (H2 _ _ Hin). lra.
    + apply Qltb_ge in E.
      exists l1, (l2 ++ [(b, Fin y)]), a, x. repeat split; auto.
      * rewrite Heq, <- app_assoc. reflexivity.
      * intros b' y' [Hin|[[= -> ->]|[]]]%in_app_or; eauto.
Qed.

(** X14.  When [get_enhanced_intent] exploits (the state has actions and the
    draw is not below epsilon), the candidate it takes from the Q-table has
    confidence 0.8 and is the first action, in insertion order, among those
    of greatest value: every action stored before it has a strictly smaller
    value and every action stored after it a value that is not greater. *)
Theorem exploit_picks_first_maximum (base : string * pyfloat) (rnd : draws)
  (state : string) (e : engine) (first : string * pyfloat)
  (rest : list (string * pyfloat)) :
  get state (q_table e) = Some (first :: rest) ->
  finite_values (first :: rest) ->
  flt (Fin (uniform rnd)) (epsilon e) = false ->
  exists before after action value,
    first :: rest = before ++ (action, Fin value) :: after /\
    fst (rl_candidate base rnd state e) = (action, Fin 0.8) /\
    (forall b y, In (b, Fin y) before -> y < value) /\
    (forall b y, In (b, Fin y) after -> y <= value).
Proof.
  intros Hg Hfin Hu.
  destruct (max_by_value_first_max first rest Hfin)
    as (l1 & l2 & a & x & Heq & Hmax & H1 & H2).
  exists l1, l2, a, x. repeat split; auto.
  unfold rl_candidate, contains. rewrite Hg.
  rewrite (surjective_pairing (getitem _ _ _)). rewrite getitem_fst.
  unfold get_or. rewrite Hg. cbn [fst]. unfold getitem. rewrite Hg. cbn [snd].
  rewrite with_q_table_same, Hu. cbn [fst]. now rewrite Hmax.
Qed.

(** ** Recommendations *)

Lemma sorted_desc_head rest first tail :
  exists tail',
    List.fold_left (fun acc x => insert_desc x acc) rest (first :: tail)
    = max_by_value first rest :: tail'.
Proof.
  revert first tail. induction rest as [|p rest IH]; intros first tail.
  - exists tail. reflexivity.
  - cbn [List.fold_left insert_desc]. unfold max_by_value. cbn [List.fold_left].
    destruct (fgt (snd p) (snd first)); apply IH.
Qed.

Lemma zero_one_bounds (v : pyfloat) : in_zero_one (py_min (Fin 1) (py_max (Fin 0) v)).
Proof.
  unfold py_max, py_min, fgt. destruct v as [x|]; cbn [flt].
  - destruct (Qltb 0 x) eqn:E0; cbn [flt].
    + destruct (Qltb x 1) eqn:E1; cbn.
      * apply Qltb_lt in E0, E1. lra.
      * lra.
    + cbn. lra.
  - cbn. lra.
Qed.

Lemma recommend_from_values_confidence eps q_values :
  in_zero_one (confidence (recommend_from_values eps q_values)).
Proof.
  unfold recommend_from_values. destruct (sorted_desc q_values); cbn [confidence].
  - cbn. lra.
  - apply zero_one_bounds.
Qed.

Lemma fold_prefer_primary (l : dict (list Z)) (r : recommendation) (a : string) :
  primary_intent r = Some a ->
  primary_intent (List.fold_left prefer l r) = Some a /\
  confidence (List.fold_left prefer l r) = confidence r /\
  alternative_intents (List.fold_left prefer l r) = alternative_intents r /\
  exploration_factor (List.fold_left prefer l r) = exploration_factor r.
Proof.
  revert r. induction l as [|[intent ratings] l IH]; intros r Hr; auto.
  cbn [List.fold_left].
  assert (H : primary_intent (prefer r (intent, ratings)) = Some a /\
              confidence (prefer r (intent, ratings)) = confidence r /\
              alternative_intents (prefer r (intent, ratings)) = alternative_intents r /\
              exploration_factor (prefer r (intent, ratings)) = exploration_factor r).
  { unfold prefer. destruct (fgt _ _); auto. rewrite Hr. cbn. auto. }
  destruct H as (H1 & H2 & H3 & H4).
  destruct (IH _ H1) as (-> & -> & -> & ->). auto.
Qed.

(** X15.  For a state that has actions, the primary intent of
    [get_policy_recommendation] is the action [get_enhanced_intent] picks
    when it exploits (the first of greatest value), whatever the user's
    preferences are; its confidence is in [[0, 1]], at most two alternatives
    are listed, and the exploration factor is the engine's epsilon. *)
Theorem recommendation_agrees_with_exploit (now : clock) (command user_id : string)
  (e : engine) (first : string * pyfloat) (rest : list (string * pyfloat)) :
  get (get_state_features (hour now) command None) (q_table e) = Some (first :: rest) ->
  finite_values (first :: rest) ->
  let r := get_policy_recommendation now command user_id e in
  primary_intent r = Some (fst (max_by_value first rest)) /\
  in_zero_one (confidence r) /\
  (List.length (alternative_intents r) <= 2)%nat /\
  exploration_factor r = epsilon e.
Proof.
  intros Hg _. cbv zeta.
  set (r0 := recommend_from_values (epsilon e) (first :: rest)).
  assert (Hrec :
    (if contains (get_state_features (hour now) command None) (q_table e)
     then recommend_from_values (epsilon e)
            (get_or [] (get_state_features (hour now) command None) (q_table e))
     else recommend_from_values (epsilon e) []) = r0).
  { unfold contains, get_or. now rewrite Hg. }
  unfold get_policy_recommendation. cbv zeta. rewrite Hrec.
  assert (H0 : primary_intent r0 = Some (fst (max_by_value first rest)) /\
               (List.length (alternative_intents r0) <= 2)%nat /\
               exploration_factor r0 = epsilon e).
  { unfold r0, recommend_from_values, sorted_desc. cbn [List.fold_left insert_desc].
    destruct (sorted_desc_head rest first []) as [tail ->].
    cbn [primary_intent alternative_intents exploration_factor].
    split; [reflexivity|]. split; [|reflexivity].
    rewrite length_map, length_firstn. lia. }
  destruct H0 as (Hp & Ha & Hx).
  assert (Hc : in_zero_one (confidence r0)) by apply recommend_from_values_confidence.
  destruct (contains user_id (user_preferences e)); [|auto].
  destruct (fold_prefer_primary (get_or [] user_id (user_preferences e)) r0 _ Hp)
    as (-> & -> & -> & ->). auto.
Qed.

(** ** The confidence of a recommendation *)

Lemma sum_ratings_le (l : list Z) :
  (forall r, In r l -> (r <= 5)%Z) ->
  (sum_ratings l <= 5 * Z.of_nat (List.length l))%Z.
Proof.
  induction l as [|r l IH]; intros H; cbn [sum_ratings List.fold_right List.length].
  - lia.
  - fold (sum_ratings l). specialize (IH (fun r' Hr' => H r' (or_intror Hr'))).
    specialize (H r (or_introl eq_refl)). lia.
Qed.

Lemma quotient_le_5 (s n : Z) :
  (0 < n)%Z -> (s <= 5 * n)%Z -> inject_Z s / inject_Z n <= 5.
Proof.
  intros Hn Hs. apply Qle_shift_div_r.
  - change 0 with (inject_Z 0). now rewrite <- Zlt_Qlt.
  - change 5 with (inject_Z 5). now rewrite <- inject_Z_mult, <- Zle_Qle.
Qed.

Lemma np_mean_ratings_le_5 (l : list Z) (q : Q) :
  (forall r, In r l -> (r <= 5)%Z) ->
  np_mean_ratings l = Fin q -> q <= 5.
Proof.
  intros H E. destruct l as [|r l]; [discriminate|].
  pose proof (sum_ratings_le (r :: l) H) as Hs.
  unfold np_mean_ratings in E. injection E as <-.
  apply quotient_le_5; [|exact Hs]. cbn [List.length]. lia.
Qed.

Lemma prefer_confidence (r : recommendation) (item : string * list Z) :
  in_zero_one (confidence r) ->
  (forall rating, In rating (snd item) -> (rating <= 5)%Z) ->
  in_zero_one (confidence (prefer r item)).
Proof.
  intros Hc Hr. destruct item as [intent ratings]. unfold prefer.
  destruct (np_mean_ratings ratings) as [q|] eqn:E; [|exact Hc].
  destruct (fgt (Fin q) (Fin 3.5)) eqn:Eg; [|exact Hc].
  destruct (primary_intent r); [exact Hc|].
  cbn [confidence fsub fdiv lift2 in_zero_one].
  apply fgt_Fin in Eg. pose proof (np_mean_ratings_le_5 _ _ Hr E) as Hq.
  split; [apply Qle_shift_div_l | apply Qle_shift_div_r]; lra.
Qed.

Lemma fold_prefer_confidence (l : dict (list Z)) (r : recommendation) :
  in_zero_one (confidence r) ->
  (forall intent ratings rating,
     In (intent, ratings) l -> In rating ratings -> (rating <= 5)%Z) ->
  in_zero_one (confidence (List.fold_left prefer l r)).
Proof.
  revert r. induction l as [|item l IH]; intros r Hc Hl; auto.
  cbn [List.fold_left]. apply IH.
  - apply prefer_confidence; auto. destruct item as [intent ratings].
    intros rating Hin. apply (Hl intent ratings); auto. now left.
  - intros intent ratings rating Hin. apply (Hl intent ratings). now right.
Qed.

Section Membership.
Context {V : Type}.
Implicit Types (d : dict V) (k : string) (v : V).

Lemma in_set k v k0 v0 d :
  In (k, v) (set k0 v0 d) -> (k = k0 /\ v = v0) \/ In (k, v) d.
Proof.
  induction d as [|[k1 v1] d IH]; cbn.
  - intros [[= -> ->]|[]]. auto.
  - destruct (String.eqb_spec k0 k1) as [->|Hne]; cbn.
    + intros [[= -> ->]|H]; auto.
    + intros [H|H]; auto. destruct (IH H); auto.
Qed.

Lemma in_getitem k v dflt k0 d :
  In (k, v) (snd (getitem dflt k0 d)) -> (k = k0 /\ v = dflt) \/ In (k, v) d.
Proof.
  unfold getitem. destruct (get k0 d); cbn [snd]; auto. apply in_set.
Qed.

Lemma get_in k v d : get k d = Some v -> In (k, v) d.
Proof.
  induction d as [|[k1 v1] d IH]; cbn; [discriminate|].
  destruct (String.eqb_spec k k1) as [->|Hne]; auto.
  intros [= ->]. now left.
Qed.

End Membership.

Lemma ratings_of_default (prefs : dict (list Z)) intent :
  (forall i rs r, In (i, rs) prefs -> In r rs -> (r <= 5)%Z) ->
  forall r, In r (get_or [] intent prefs) -> (r <= 5)%Z.
Proof.
  intros H r. unfold get_or. destruct (get intent prefs) as [rs|] eqn:E.
  - apply (H intent rs). now apply get_in.
  - intros [].
Qed.

Lemma session_ratings w : session w -> ratings_at_most_5 (fst w).
Proof.
  induction 1 as [lr eps | now base rnd command e d _ IH
                 | now command intent result user_id [e d] _ IH
                 | now c rating user_id w _ IH
                 | [e d] _ IH].
  - intros u p i rs r [].
  - unfold get_enhanced_intent.
    rewrite (surjective_pairing (rl_candidate _ _ _ _)). cbn [snd fst].
    now rewrite rl_candidate_frame.
  - exact IH.
  - unfold record_feedback. destruct (valid_rating rating) eqn:Hv; cbn [negb fst]; auto.
    destruct (find_target _ _) as [[ix it]|]; cbn [fst]; auto.
    destruct w as [e d]. cbn [fst] in *. apply valid_rating_iff in Hv.
    unfold ratings_at_most_5. rewrite apply_feedback_preferences. cbv zeta.
    intros u p i rs r Hu Hi Hr.
    assert (Hprefs : forall i rs r,
              In (i, rs) (get_or [] user_id (user_preferences e)) ->
              In r rs -> (r <= 5)%Z).
    { intros i' rs' r'. unfold get_or.
      destruct (get user_id (user_preferences e)) as [p'|] eqn:E; [|intros []].
      apply get_in in E. apply (IH user_id p'); auto. }
    apply in_set in Hu as [[-> ->]|Hu].
    + apply in_set in Hi as [[-> ->]|Hi].
      * apply in_app_or in Hr as [Hr|[<-|[]]]; [|lia].
        now apply (ratings_of_default _ (i_intent it) Hprefs).
      * now apply (Hprefs i rs).
    + apply in_getitem in Hu as [[-> ->]|Hu]; [destruct Hi|].
      now apply (IH u p i rs).
  - exact IH.
Qed.

(** X16.  Within one process started without files, the confidence of a
    recommendation is always in [[0, 1]], whether it comes from the Q-table
    or, for a state without actions, from the ratings of the user (a mean
    rating above 3.5 and, the ratings being at most 5, a factor of at most
    1). *)
Theorem recommendation_confidence_in_range (w : world) (now : clock)
  (command user_id : string) :
  session w ->
  in_zero_one (confidence (get_policy_recommendation now command user_id (fst w))).
Proof.
  intros Hs. pose proof (session_ratings w Hs) as Hr.
  unfold get_policy_recommendation. cbv zeta.
  set (r0 := if contains (get_state_features (hour now) command None) _
             then _ else _).
  assert (H0 : in_zero_one (confidence r0)).
  { unfold r0. destruct (contains _ _); apply recommend_from_values_confidence. }
  unfold contains, get_or.
  destruct (get user_id (user_preferences (fst w))) as [prefs|] eqn:E; auto.
  apply fold_prefer_confidence; auto.
  intros intent ratings rating Hin. apply (Hr user_id prefs intent ratings rating); auto.
  now apply get_in.
Qed.

(** ** The exported policies *)

Lemma max_by_value_in first rest : In (max_by_value first rest) (first :: rest).
Proof.
  induction rest as [|p rest IH] using rev_ind.
  - now left.
  - rewrite max_by_value_snoc.
    change (first :: rest ++ [p]) with ((first :: rest) ++ [p]).
    apply in_or_app. destruct (fgt _ _); [right; now left | now left].
Qed.

Lemma save_policies_get (e : engine) (state : string) :
  wf (q_table e) = true ->
  get state (save_policies e) =
  match get state (q_table e) with
  | Some (first :: rest) =>
      Some {| best_action := fst (max_by_value first rest);
              best_q_value := snd (max_by_value first rest);
              alternatives :=
                List.firstn 2 (List.tl (sorted_desc (first :: rest))) |}
  | _ => None
  end.
Proof.
  intros Hwf. unfold save_policies.
  rewrite (fold_set_get
             (fun actions =>
                match actions with
                | first :: rest =>
                    Some {| best_action := fst (max_by_value first rest);
                            best_q_value := snd (max_by_value first rest);
                            alternatives :=
                              List.firstn 2 (List.tl (sorted_desc actions)) |}
                | [] => None
                end)); auto.
  - destruct (get state (q_table e)) as [[|first rest]|]; reflexivity.
  - intros acc k [|first rest]; reflexivity.
Qed.

(** X17.  [save_policies] exports one policy for each state that has
    actions and none for the others.  The best action of a state is the
    one [max] picks, a stored (action, value) pair whose value no other
    action of the state exceeds, and at most two alternatives go with it. *)
Theorem save_policies_exports_best_actions (e : engine) (state : string) :
  wf (q_table e) = true ->
  match get state (q_table e) with
  | Some (first :: rest) =>
      exists p,
        get state (save_policies e) = Some p /\
        (best_action p, best_q_value p) = max_by_value first rest /\
        In (best_action p, best_q_value p) (first :: rest) /\
        (List.length (alternatives p) <= 2)%nat /\
        (finite_values (first :: rest) ->
         exists x, best_q_value p = Fin x /\
                   forall a y, In (a, Fin y) (first :: rest) -> y <= x)
  | _ => get state (save_policies e) = None
  end.
Proof.
  intros Hwf. rewrite (save_policies_get e state Hwf).
  destruct (get state (q_table e)) as [[|first rest]|]; auto.
  eexists. split; [reflexivity|]. cbn [best_action best_q_value alternatives].
  split; [now destruct (max_by_value first rest)|]. split; [|split].
  - rewrite <- surjective_pairing. apply max_by_value_in.
  - rewrite length_firstn. lia.
  - intros Hfin.
    destruct (max_by_value_first_max first rest Hfin)
      as (l1 & l2 & a & x & Heq & Hmax & H1 & H2).
    exists x. rewrite Hmax. split; [reflexivity|].
    intros b y Hin. rewrite Heq in Hin.
    apply in_app_or in Hin as [Hin|[[= -> ->]|Hin]].
    + specialize (H1 _ _ Hin). lra.
    + lra.
    + eauto.
Qed.

(** ** State keys *)

Lemma length_tag_cases command :
  length_tag command = "short" \/ length_tag command = "medium" \/
  length_tag command = "long".
Proof.
  unfold length_tag. destruct (_ <=? 3)%nat; auto. destruct (_ <=? 7)%nat; auto.
Qed.

Lemma time_tag_cases h :
  time_tag h = "morning" \/ time_tag h = "afternoon" \/
  time_tag h = "evening" \/ time_tag h = "night".
Proof.
  unfold time_tag.
  destruct (_ && _); auto. destruct (_ && _); auto. destruct (_ && _); auto.
Qed.

Lemma topic_tags_cases command :
  topic_tags command = ["calendar"] \/ topic_tags command = ["email"] \/
  topic_tags command = ["search"] \/ topic_tags command = ["app"] \/
  topic_tags command = [].
Proof.
  unfold topic_tags.
  destruct (any_in _ _); auto. destruct (any_in _ _); auto.
  destruct (any_in _ _); auto. destruct (any_in _ _); auto 6.
Qed.

Lemma context_tags_cases ctx :
  context_tags ctx = [] \/ context_tags ctx = ["time_specific"] \/
  context_tags ctx = ["multi_user"] \/
  context_tags ctx = ["time_specific"; "multi_user"].
Proof.
  destruct ctx as [[[] []]|]; cbn; auto.
Qed.

Lemma existsb_eqb_in (k : string) (l : list string) :
  List.existsb (String.eqb k) l = true -> In k l.
Proof.
  intros H. apply existsb_exists in H as (x & Hin & Heq).
  apply String.eqb_eq in Heq. now subst.
Qed.

(** X18.  The state abstraction is finite: whatever the command, the hour
    and the context, [get_state_features] returns one of 240 keys (3 length
    buckets, 4 times of day, 5 topics counting none, 4 context flag
    settings), so a Q-table fed by it never has more than 240 states. *)
Theorem state_key_is_one_of_240 (h : nat) (command : string) (ctx : option context) :
  In (get_state_features h command ctx) all_state_keys /\
  List.length all_state_keys = 240%nat.
Proof.
  split; [|reflexivity].
  unfold get_state_features. apply existsb_eqb_in.
  destruct (length_tag_cases command) as [->|[->| ->]];
  destruct (time_tag_cases h) as [->|[->|[->| ->]]];
  destruct (topic_tags_cases command) as [->|[->|[->|[->| ->]]]];
  destruct (context_tags_cases ctx) as [->|[->|[->| ->]]];
  vm_compute; reflexivity.
Qed.

Lemma is_space_lower_char c : is_space (lower_char c) = is_space c.
Proof.
  destruct c as [[] [] [] [] [] [] [] []]; reflexivity.
Qed.

Lemma flush_length cur cur' acc acc' :
  (cur = [] <-> cur' = []) -> List.length acc = List.length acc' ->
  List.length (flush cur acc) = List.length (flush cur' acc').
Proof.
  intros Hc Ha. destruct cur as [|x cur], cur' as [|y cur']; cbn; auto.
  - destruct Hc as [Hc _]. specialize (Hc eq_refl). discriminate.
  - destruct Hc as [_ Hc]. specialize (Hc eq_refl). discriminate.
Qed.

Lemma split_aux_length_lower s cur cur' acc acc' :
  (cur = [] <-> cur' = []) -> List.length acc = List.length acc' ->
  List.length (split_aux s cur acc) = List.length (split_aux (lower s) cur' acc').
Proof.
  revert cur cur' acc acc'. induction s as [|c s IH]; intros cur cur' acc acc' Hc Ha.
  - cbn. rewrite !length_rev. now apply flush_length.
  - cbn [lower split_aux]. rewrite is_space_lower_char.
    destruct (is_space c).
    + apply IH; [tauto | now apply flush_length].
    + apply IH; auto. split; discriminate.
Qed.

Lemma split_length_lower s :
  List.length (split s) = List.length (split (lower s)).
Proof. unfold split. now apply split_aux_length_lower. Qed.

(** X19.  The state key does not depend on the case of ASCII letters: two
    commands with the same lower-case form get the same key at the same
    hour and with the same context. *)
Theorem state_key_ignores_case (h : nat) (command command' : string)
  (ctx : option context) :
  lower command = lower command' ->
  get_state_features h command ctx = get_state_features h command' ctx.
Proof.
  intros H. unfold get_state_features, length_tag, topic_tags.
  rewrite (split_length_lower command), (split_length_lower command'), H.
  reflexivity.
Qed.

(** ** The further statements at concrete inputs *)

Lemma session_after_rating : session Samples.after_rating.
Proof.
  unfold Samples.after_rating, Scenario.rated, Scenario.decided.
  apply session_feedback, session_log.
  exact (session_start (Fin 0.1) (Fin 0.1)).
Qed.

Lemma reachable_after_rating : reachable Samples.after_rating.
Proof.
  unfold Samples.after_rating, Scenario.rated, Scenario.decided.
  apply reach_feedback, reach_log.
  exact (reach_first_start (Fin 0.1) (Fin 0.1)).
Qed.

Ltac finite_values_tac :=
  let a := fresh "a" in
  let v := fresh "v" in
  let Hin := fresh "Hin" in
  intros a v Hin;
  repeat (destruct Hin as [Hin|Hin];
          [injection Hin as <- <-; eexists; reflexivity|]);
  destruct Hin.

Lemma decision_differs_only_on_exploit_witness :
  flt (Fin (uniform {| uniform := 0.05; choice := 2 |}))
      (epsilon Scenario.three_states) = true /\
  fst (get_enhanced_intent Scenario.afternoon ("unknown", Fin 0)
         {| uniform := 0.05; choice := 2 |} Scenario.command Scenario.three_states)
  = ("unknown", Fin 0).
Proof.
  split; [reflexivity|].
  apply (proj1 (decision_differs_only_on_exploit Scenario.afternoon ("unknown", Fin 0)
                  {| uniform := 0.05; choice := 2 |} Scenario.command
                  Scenario.three_states)).
  reflexivity.
Defined.

Lemma rl_replaces_only_unknown_witness :
  fst (get_enhanced_intent Scenario.afternoon
         (predict_intent (Predicted "send_email" (Fin 0.2)))
         Scenario.no_exploration Scenario.command Scenario.three_states)
  <> predict_intent (Predicted "send_email" (Fin 0.2)) /\
  predict_intent (Predicted "send_email" (Fin 0.2)) = ("unknown", Fin 0).
Proof.
  assert (H : fst (get_enhanced_intent Scenario.afternoon
                     (predict_intent (Predicted "send_email" (Fin 0.2)))
                     Scenario.no_exploration Scenario.command Scenario.three_states)
              <> predict_intent (Predicted "send_email" (Fin 0.2))).
  { vm_compute. discriminate. }
  split; [exact H|].
  exact (proj2 (rl_replaces_only_unknown (Predicted "send_email" (Fin 0.2))
                  Scenario.afternoon Scenario.no_exploration Scenario.command
                  Scenario.three_states) H).
Defined.

Lemma q_values_stay_in_range_witness :
  let w := Scenario.decided Scenario.afternoon Scenario.no_exploration (Fin 0.1)
             "ok" "default" in
  learning_rate (fst w) = Fin 0.1 /\ 0 <= 0.1 /\ 0.1 <= 1 /\
  (forall state action, in_unit_ball (q_value state action (fst w))) /\
  in_unit_ball
    (q_value "afternoon|calendar|medium" "calendar_event"
       (fst (fst (record_feedback Scenario.afternoon Scenario.command 5 "default"
                    (fst w, snd w))))).
Proof.
  cbv zeta.
  assert (H : forall state action,
            in_unit_ball
              (q_value state action
                 (fst (Scenario.decided Scenario.afternoon Scenario.no_exploration
                         (Fin 0.1) "ok" "default")))).
  { intros state action. cbn. lra. }
  split; [reflexivity|]. split; [discriminate|]. split; [discriminate|].
  split; [exact H|].
  apply (q_values_stay_in_range Scenario.afternoon Scenario.command 5 "default"
           _ _ 0.1); [reflexivity | discriminate | discriminate | exact H].
Defined.

Lemma feedback_only_adds_witness :
  get2 "afternoon|calendar|medium" "send_email" (q_table Scenario.three_states)
  <> None /\
  get2 "afternoon|calendar|medium" "send_email"
    (q_table (fst (fst (record_feedback Scenario.afternoon "anything" 4 "default"
                          (Scenario.three_states, empty_disk)))))
  <> None.
Proof.
  assert (H : get2 "afternoon|calendar|medium" "send_email"
                (q_table Scenario.three_states) <> None) by discriminate.
  split; [exact H|].
  exact (proj1 (proj1 (proj2 (feedback_only_adds Scenario.afternoon "anything" 4
                                "default" (Scenario.three_states, empty_disk)))
                  "afternoon|calendar|medium" "send_email") H).
Defined.

Lemma feedback_writes_one_audit_record_witness :
  let w := Scenario.decided Scenario.afternoon Scenario.no_exploration (Fin 0.1)
             "ok" "default" in
  let it := logged_entry Scenario.afternoon Scenario.command "calendar_event"
              "ok" "default" in
  (1 <= 2 <= 5)%Z /\
  find_target Scenario.command (recent_interactions (fst w)) = Some (0%nat, it) /\
  feedbacks_of
    (snd (fst (record_feedback Scenario.afternoon Scenario.command 2 "ann"
                 (fst w, snd w))))
  = feedbacks_of (snd w) ++
    [{| fb_timestamp := isoformat Scenario.afternoon; fb_command := i_command it;
        fb_intent := i_intent it; fb_rating := 2; fb_user_id := "ann";
        fb_state := i_state it |}].
Proof.
  cbv zeta. split; [lia|]. split; [reflexivity|].
  apply (feedback_writes_one_audit_record Scenario.afternoon Scenario.command 2
           "ann" _ _ 0%nat
           (logged_entry Scenario.afternoon Scenario.command "calendar_event"
              "ok" "default")); [lia | reflexivity].
Defined.

Lemma feedback_history_replay_witness :
  session Samples.after_rating /\
  intent_success_rates
    (fst (load_feedback_history
            (fresh_engine (Fin 0.3) (Fin 0.2), snd Samples.after_rating)))
  = intent_success_rates (fst Samples.after_rating).
Proof.
  split; [exact session_after_rating|].
  apply (feedback_history_replay Samples.after_rating (Fin 0.3) (Fin 0.2)).
  exact session_after_rating.
Defined.

Lemma visit_count_counts_feedback_witness :
  session (fst Samples.after_rating, snd Samples.after_rating) /\
  visit_count "afternoon|calendar|medium" "calendar_event" (fst Samples.after_rating)
  = count_feedback "afternoon|calendar|medium" "calendar_event"
      (snd Samples.after_rating).
Proof.
  assert (H : session (fst Samples.after_rating, snd Samples.after_rating)).
  { rewrite <- surjective_pairing. exact session_after_rating. }
  split; [exact H|].
  apply (visit_count_counts_feedback _ _ _ _ H).
Defined.

Lemma buffer_holds_the_last_1000_witness :
  (List.length (recent_interactions (fst Samples.after_rating)) <= 1000)%nat /\
  recent_interactions
    (fst (log_all [Samples.other_request; Samples.other_request]
            Samples.after_rating))
  = last_n 1000
      (recent_interactions (fst Samples.after_rating) ++
       List.map entry_of [Samples.other_request; Samples.other_request]).
Proof.
  assert (H : (List.length (recent_interactions (fst Samples.after_rating))
               <= 1000)%nat) by (vm_compute; lia).
  split; [exact H|].
  apply (buffer_holds_the_last_1000
           [Samples.other_request; Samples.other_request] Samples.after_rating H).
Defined.

Lemma late_feedback_is_not_found_witness :
  (List.length (recent_interactions (fst Samples.after_rating)) <= 1000)%nat /\
  (1000 <= List.length (List.repeat Samples.other_request 1000))%nat /\
  List.forallb (fun r => negb (String.eqb (lr_command r) Scenario.command))
    (List.repeat Samples.other_request 1000) = true /\
  (1 <= 4 <= 5)%Z /\
  snd (record_feedback Scenario.afternoon Scenario.command 4 "default"
         (log_all (List.repeat Samples.other_request 1000) Samples.after_rating))
  = No_interaction_found.
Proof.
  assert (H1 : (List.length (recent_interactions (fst Samples.after_rating))
                <= 1000)%nat) by (vm_compute; lia).
  assert (H2 : (1000 <= List.length (List.repeat Samples.other_request 1000))%nat)
    by (rewrite repeat_length; lia).
  assert (H3 : List.forallb
                 (fun r => negb (String.eqb (lr_command r) Scenario.command))
                 (List.repeat Samples.other_request 1000) = true)
    by (vm_compute; reflexivity).
  split; [exact H1|]. split; [exact H2|]. split; [exact H3|]. split; [lia|].
  rewrite (late_feedback_is_not_found Scenario.afternoon Scenario.command 4
             "default" (List.repeat Samples.other_request 1000)
             Samples.after_rating H1 H2 H3); [reflexivity | lia].
Defined.

Lemma buffer_is_bounded_and_logged_witness :
  reachable Samples.after_rating /\
  (total_interactions (get_performance_metrics (fst Samples.after_rating)) <= 1000)%nat.
Proof.
  split; [exact reachable_after_rating|].
  exact (proj1 (buffer_is_bounded_and_logged Samples.after_rating
                  reachable_after_rating)).
Defined.

Lemma load_drops_only_empty_states_witness :
  dict2 (q_table Samples.with_empty_state) = true /\
  dict2 (state_action_counts Samples.with_empty_state) = true /\
  q_table
    (fst (load_model (fresh_engine (Fin 0.5) (Fin 0.5),
                      snd (save_model (Samples.with_empty_state, empty_disk)))))
  = List.filter has_actions (q_table Samples.with_empty_state).
Proof.
  split; [reflexivity|]. split; [reflexivity|].
  apply (load_drops_only_empty_states Samples.with_empty_state
           (fresh_engine (Fin 0.5) (Fin 0.5)) empty_disk); reflexivity.
Defined.

Lemma decay_exploration_closed_form_witness :
  epsilon Scenario.three_states = Fin 0.1 /\ 0 <= 0.5 /\ 0.5 <= 1 /\ 0 <= 0.01 /\
  (1 <= 4)%nat /\
  exists x,
    epsilon (repeat_decay 4 (Fin 0.5) (Fin 0.01) Scenario.three_states) = Fin x /\
    x == Qmax 0.01 (0.1 * 0.5 ^ Z.of_nat 4).
Proof.
  split; [reflexivity|]. split; [discriminate|]. split; [discriminate|].
  split; [discriminate|]. split; [lia|].
  destruct (decay_exploration_closed_form 0.1 0.5 0.01 Scenario.three_states 4)
    as (x & Hx & Hc & _);
    [reflexivity | discriminate | discriminate | discriminate | lia |].
  exists x. split; assumption.
Defined.

Lemma metrics_report_success_rates_witness :
  wf (intent_success_rates Scenario.three_states) = true /\
  exists s,
    get "send_email"
      (intent_performance (get_performance_metrics Scenario.three_states)) = Some s /\
    total_attempts s = 3%nat /\
    success_rate s = np_mean [false; true; true] /\
    recent_success_rate s = np_mean (last_n 10 [false; true; true]) /\
    in_zero_one (success_rate s) /\ in_zero_one (recent_success_rate s).
Proof.
  split; [reflexivity|].
  apply (metrics_report_success_rates Scenario.three_states "send_email").
  reflexivity.
Defined.

Lemma exploit_picks_first_maximum_witness :
  get "afternoon|calendar|medium" (q_table Scenario.three_states)
  = Some [("calendar_event", Fin 0.1); ("send_email", Fin (-0.2))] /\
  finite_values [("calendar_event", Fin 0.1); ("send_email", Fin (-0.2))] /\
  flt (Fin (uniform Scenario.no_exploration)) (epsilon Scenario.three_states) = false /\
  exists before after action value,
    [("calendar_event", Fin 0.1); ("send_email", Fin (-0.2))]
    = before ++ (action, Fin value) :: after /\
    fst (rl_candidate ("unknown", Fin 0) Scenario.no_exploration
           "afternoon|calendar|medium" Scenario.three_states)
    = (action, Fin 0.8) /\
    (forall b y, In (b, Fin y) before -> y < value) /\
    (forall b y, In (b, Fin y) after -> y <= value).
Proof.
  assert (Hf : finite_values [("calendar_event", Fin 0.1); ("send_email", Fin (-0.2))])
    by finite_values_tac.
  split; [reflexivity|]. split; [exact Hf|]. split; [reflexivity|].
  exact (exploit_picks_first_maximum ("unknown", Fin 0) Scenario.no_exploration
           "afternoon|calendar|medium" Scenario.three_states
           ("calendar_event", Fin 0.1) [("send_email", Fin (-0.2))]
           eq_refl Hf eq_refl).
Defined.

Lemma recommendation_agrees_with_exploit_witness :
  get (get_state_features (hour Scenario.afternoon) Scenario.command None)
    (q_table Scenario.three_states)
  = Some [("calendar_event", Fin 0.1); ("send_email", Fin (-0.2))] /\
  finite_values [("calendar_event", Fin 0.1); ("send_email", Fin (-0.2))] /\
  primary_intent
    (get_policy_recommendation Scenario.afternoon Scenario.command "default"
       Scenario.three_states)
  = Some (fst (max_by_value ("calendar_event", Fin 0.1) [("send_email", Fin (-0.2))])).
Proof.
  assert (Hf : finite_values [("calendar_event", Fin 0.1); ("send_email", Fin (-0.2))])
    by finite_values_tac.
  split; [reflexivity|]. split; [exact Hf|].
  exact (proj1 (recommendation_agrees_with_exploit Scenario.afternoon
                  Scenario.command "default" Scenario.three_states
                  ("calendar_event", Fin 0.1) [("send_email", Fin (-0.2))]
                  eq_refl Hf)).
Defined.

Lemma recommendation_confidence_in_range_witness :
  session Samples.after_rating /\
  in_zero_one
    (confidence
       (get_policy_recommendation Scenario.afternoon "send the notes" "default"
          (fst Samples.after_rating))).
Proof.
  split; [exact session_after_rating|].
  apply (recommendation_confidence_in_range Samples.after_rating).
  exact session_after_rating.
Defined.

Lemma save_policies_exports_best_actions_witness :
  wf (q_table Scenario.three_states) = true /\
  exists p,
    get "morning|search|short" (save_policies Scenario.three_states) = Some p /\
    (best_action p, best_q_value p)
    = max_by_value ("web_search", Fin 0.3) [("launch_app", Fin 0)].
Proof.
  split; [reflexivity|].
  destruct (save_policies_exports_best_actions Scenario.three_states
              "morning|search|short" eq_refl) as (p & Hp & Hb & _).
  exists p. split; assumption.
Defined.

Lemma state_key_ignores_case_witness :
  lower "Send Mail To ANN" = lower "send mail to ann" /\
  get_state_features 9 "Send Mail To ANN" None
  = get_state_features 9 "send mail to ann" None.
Proof.
  split; [reflexivity|].
  apply (state_key_ignores_case 9 "Send Mail To ANN" "send mail to ann" None).
  reflexivity.
Defined.
